(** * terraform-provider-deploymeta: the provider's resources, embedded

  The Go package [internal/provider] implements five Terraform resources
  and one data source on top of terraform-plugin-framework and the
  Common Fate SDK's connect clients.  Every method has the shape

    func (r *R) Op(ctx, req OpRequest, resp *OpResponse)

  it reads its input from [req], talks to the remote service through
  [r.client] at most once, and reports by mutating [resp] (diagnostics
  and state).  Here each method is a function from the request and the
  incoming response to the outgoing response, paired with the trace of
  remote calls it made.

  The libraries the package consumes (terraform-plugin-framework,
  connectrpc, the SDK's generated messages) are modelled in the modules
  below, named after the Go packages, as far as the provider uses them. *)

From Stdlib Require Import String List Bool.
Import ListNotations.

Local Open Scope string_scope.
Local Open Scope list_scope.

(* ------------------------------------------------------------------ *)
(** ** terraform-plugin-framework/diag *)

Module diag.

Inductive Severity : Type := SeverityError | SeverityWarning.

Record Diagnostic : Type := NewDiagnostic
  { Severity_ : Severity; Summary : string; Detail : string }.

Definition Diagnostics : Type := list Diagnostic.

Definition Severity_eqb (a b : Severity) : bool :=
  match a, b with
  | SeverityError, SeverityError => true
  | SeverityWarning, SeverityWarning => true
  | _, _ => false
  end.

(** [Diagnostic.Equal]: same severity, summary and detail. *)
Definition Equal (a b : Diagnostic) : bool :=
  Severity_eqb (Severity_ a) (Severity_ b)
  && String.eqb (Summary a) (Summary b)
  && String.eqb (Detail a) (Detail b).

Definition Contains (ds : Diagnostics) (d : Diagnostic) : bool :=
  existsb (Equal d) ds.

(** [Diagnostics.Append] adds the diagnostics that are not in the
    collection yet, in order. *)
Fixpoint Append (ds : Diagnostics) (new : list Diagnostic) : Diagnostics :=
  match new with
  | [] => ds
  | d :: rest => Append (if Contains ds d then ds else ds ++ [d]) rest
  end.

Definition NewErrorDiagnostic (summary detail : string) : Diagnostic :=
  NewDiagnostic SeverityError summary detail.

Definition AddError (ds : Diagnostics) (summary detail : string) : Diagnostics :=
  Append ds [NewErrorDiagnostic summary detail].

Definition HasError (ds : Diagnostics) : bool :=
  existsb (fun d => Severity_eqb (Severity_ d) SeverityError) ds.

End diag.

(* ------------------------------------------------------------------ *)
(** ** terraform-plugin-framework/types *)

Module types.

(** [types.String]: null, unknown or a known Go string. *)
Inductive String : Type :=
| StringNull
| StringUnknown
| StringValue (s : string).

(** [ValueString] is the empty string for null and unknown. *)
Definition ValueString (v : String) : string :=
  match v with
  | StringValue s => s
  | StringNull | StringUnknown => EmptyString
  end.

(** [types.Set] with string elements.  The element list is kept as the
    framework holds it; nothing here reorders or deduplicates it. *)
Inductive Set_ : Type :=
| SetNull
| SetUnknown
| SetValue (elems : list String).

Definition conversion_error : diag.Diagnostic :=
  diag.NewErrorDiagnostic "Value Conversion Error"
    "An unexpected error was encountered trying to build a value.".

Fixpoint strings_of (elems : list String) : option (list string) :=
  match elems with
  | [] => Some []
  | StringValue s :: rest =>
      match strings_of rest with
      | Some l => Some (s :: l)
      | None => None
      end
  | _ :: _ => None
  end.

(** [Set.ElementsAs(ctx, &target, false)] into a [[]string]: an unknown
    set, or a null or unknown element, is a conversion error and leaves
    the target as it was (nil); a null set yields the nil slice. *)
Definition ElementsAs (s : Set_) : diag.Diagnostics * list string :=
  match s with
  | SetNull => ([], [])
  | SetUnknown => ([conversion_error], [])
  | SetValue elems =>
      match strings_of elems with
      | Some l => ([], l)
      | None => ([conversion_error], [])
      end
  end.

(** [types.SetValueFrom(ctx, types.StringType, elems)] on a [[]string].
    The slices the provider passes come out of decoded response
    messages, where a repeated field without elements is the nil slice;
    the empty list stands for it.  From a nil slice the framework builds
    the null set, from any other the set of its elements. *)
Definition SetValueFrom (elems : list string) : Set_ * diag.Diagnostics :=
  (match elems with
   | [] => SetNull
   | _ :: _ => SetValue (map StringValue elems)
   end, []).

End types.

(* ------------------------------------------------------------------ *)
(** ** terraform-plugin-framework/tfsdk *)

Module tfsdk.

(** A [tfsdk.Plan], [tfsdk.Config] or request-side [tfsdk.State] is
    consumed only through [Get(ctx, &data)].  It is represented by what
    that call yields: the diagnostics it returns and the value it leaves
    in [data]. *)
Record Readable (M : Type) : Type :=
  { Get_diags : diag.Diagnostics; Get_data : M }.
Arguments Get_diags {M} _.
Arguments Get_data {M} _.

Definition Plan := Readable.
Definition Config := Readable.
Definition PriorState := Readable.

Definition Get {M : Type} (src : Readable M) : diag.Diagnostics * M :=
  (Get_diags src, Get_data src).

(** The [tfsdk.State] of a response: the value to persist, [None] once
    the resource is removed (a null raw value). *)
Record State (M : Type) : Type := { Raw : option M }.
Arguments Raw {M} _.

(** [State.Set(ctx, &data)].  The model structs mirror their schemas
    field by field, so the conversion has nothing to reject. *)
Definition Set_ {M : Type} (s : State M) (data : M) : State M * diag.Diagnostics :=
  ({| Raw := Some data |}, []).

Definition RemoveResource {M : Type} (s : State M) : State M :=
  {| Raw := None |}.

End tfsdk.

(* ------------------------------------------------------------------ *)
(** ** connectrpc.com/connect *)

Module connect.

Inductive Code : Type :=
| CodeCanceled | CodeUnknown | CodeInvalidArgument | CodeDeadlineExceeded
| CodeNotFound | CodeAlreadyExists | CodePermissionDenied
| CodeResourceExhausted | CodeFailedPrecondition | CodeAborted
| CodeOutOfRange | CodeUnimplemented | CodeInternal | CodeUnavailable
| CodeDataLoss | CodeUnauthenticated.

(** A [Code] is a [uint32]; these are its values. *)
Definition Code_value (c : Code) : nat :=
  match c with
  | CodeCanceled => 1 | CodeUnknown => 2 | CodeInvalidArgument => 3
  | CodeDeadlineExceeded => 4 | CodeNotFound => 5 | CodeAlreadyExists => 6
  | CodePermissionDenied => 7 | CodeResourceExhausted => 8
  | CodeFailedPrecondition => 9 | CodeAborted => 10 | CodeOutOfRange => 11
  | CodeUnimplemented => 12 | CodeInternal => 13 | CodeUnavailable => 14
  | CodeDataLoss => 15 | CodeUnauthenticated => 16
  end.

(** [a == b] on codes. *)
Definition Code_eqb (a b : Code) : bool := Nat.eqb (Code_value a) (Code_value b).

Definition Code_String (c : Code) : string :=
  match c with
  | CodeCanceled => "canceled"
  | CodeUnknown => "unknown"
  | CodeInvalidArgument => "invalid_argument"
  | CodeDeadlineExceeded => "deadline_exceeded"
  | CodeNotFound => "not_found"
  | CodeAlreadyExists => "already_exists"
  | CodePermissionDenied => "permission_denied"
  | CodeResourceExhausted => "resource_exhausted"
  | CodeFailedPrecondition => "failed_precondition"
  | CodeAborted => "aborted"
  | CodeOutOfRange => "out_of_range"
  | CodeUnimplemented => "unimplemented"
  | CodeInternal => "internal"
  | CodeUnavailable => "unavailable"
  | CodeDataLoss => "data_loss"
  | CodeUnauthenticated => "unauthenticated"
  end.

(** A non-nil Go [error] as a client call returns it: a [*connect.Error]
    with its structured code and message, or any other error. *)
Inductive error : Type :=
| ConnectError (code : Code) (message : string)
| OtherError (text : string).

(** [err.Error()]. *)
Definition Error (e : error) : string :=
  match e with
  | ConnectError c EmptyString => Code_String c
  | ConnectError c m => Code_String c ++ ": " ++ m
  | OtherError t => t
  end.

(** [connect.CodeOf]: the code of a connect error, [CodeUnknown] for
    anything else, nil included. *)
Definition CodeOf (err : option error) : Code :=
  match err with
  | Some (ConnectError c _) => c
  | Some (OtherError _) => CodeUnknown
  | None => CodeUnknown
  end.

(** The two results of a unary client call: [(res, nil)] or [(nil, err)]. *)
Definition Result (A : Type) : Type := (A + error)%type.

Definition err_of {A : Type} (r : Result A) : option error :=
  match r with
  | inl _ => None
  | inr e => Some e
  end.

End connect.

(* ------------------------------------------------------------------ *)
(** ** sdk/gen/commonfate/factory/deployment/v1alpha1

    The request and response messages of the deployment service, with the
    fields the provider writes or reads. *)

Module deploymentv1alpha1.

Inductive DNSRecordType : Type :=
| DNSRecordType_DNS_RECORD_TYPE_UNSPECIFIED
| DNSRecordType_DNS_RECORD_TYPE_TXT
| DNSRecordType_DNS_RECORD_TYPE_CNAME.

Module CreateDNSRecordRequest.
Record t : Type :=
  { Name : string; DnsZoneName : string; Type_ : DNSRecordType; Values : list string }.
End CreateDNSRecordRequest.

Module DNSRecord.
Record t : Type := { Id : string; Values : list string }.
End DNSRecord.

Module CreateDNSRecordResponse.
Record t : Type := { Created : DNSRecord.t }.
End CreateDNSRecordResponse.

Module GetDNSRecordRequest.
Record t : Type := { Id : string }.
End GetDNSRecordRequest.

Module GetDNSRecordResponse.
Record t : Type := { Record_ : DNSRecord.t }.
End GetDNSRecordResponse.

Module UpdateDNSRecordRequest.
Record t : Type := { Id : string; Values : list string }.
End UpdateDNSRecordRequest.

Module UpdateDNSRecordResponse.
Record t : Type := { Updated : DNSRecord.t }.
End UpdateDNSRecordResponse.

Module DeleteDNSRecordRequest.
Record t : Type := { Id : string }.
End DeleteDNSRecordRequest.

Module AWSACMCertificate.
Record t : Type :=
  { Id : string;
    Arn : string;
    DomainName : string;
    ValidationCnameName : string;
    ValidationCnameValue : string;
    Status : string }.
End AWSACMCertificate.

Module RegisterAWSACMCertificateRequest.
Record t : Type :=
  { Arn : string;
    DomainName : string;
    ValidationCnameName : string;
    ValidationCnameValue : string;
    Status : string }.
End RegisterAWSACMCertificateRequest.

Module RegisterAWSACMCertificateResponse.
Record t : Type := { Certificate : AWSACMCertificate.t }.
End RegisterAWSACMCertificateResponse.

Module GetAWSACMCertificateRequest.
Record t : Type := { Id : string }.
End GetAWSACMCertificateRequest.

Module GetAWSACMCertificateResponse.
Record t : Type := { Certificate : AWSACMCertificate.t }.
End GetAWSACMCertificateResponse.

Module UpdateAWSACMCertificateRequest.
Record t : Type := { Certificate : AWSACMCertificate.t }.
End UpdateAWSACMCertificateRequest.

Module UpdateAWSACMCertificateResponse.
Record t : Type := { Certificate : AWSACMCertificate.t }.
End UpdateAWSACMCertificateResponse.

Module DeregisterAWSACMCertificateRequest.
Record t : Type := { Id : string }.
End DeregisterAWSACMCertificateRequest.

Module RegisterNameserversRequest.
Record t : Type := { Nameservers : list string }.
End RegisterNameserversRequest.

Module Deployment.
Record t : Type :=
  { Id : string;
    DnsZoneName : string;
    DefaultSubdomain : string;
    Nameservers : list string }.
End Deployment.

Module GetDeploymentResponse.
Record t : Type := { Deployment_ : Deployment.t }.
End GetDeploymentResponse.

Module TerraformOutput.
Record t : Type :=
  { SamlSsoAcsUrl : string;
    SamlSsoEntityId : string;
    CognitoUserPoolId : string;
    DnsCnameRecordForAppDomain : string;
    DnsCnameRecordForAuthDomain : string;
    WebClientId : string;
    CliClientId : string;
    TerraformClientId : string;
    ReadOnlyClientId : string;
    ProvisionerClientId : string;
    VpcId : string }.
End TerraformOutput.

Module SetTerraformOutputRequest.
Record t : Type := { Output : TerraformOutput.t }.
End SetTerraformOutputRequest.

Module GetTerraformOutputResponse.
Record t : Type := { Output : TerraformOutput.t }.
End GetTerraformOutputResponse.

End deploymentv1alpha1.

(** ** sdk/gen/commonfate/factory/monitoring/v1alpha1 *)

Module monitoringv1alpha1.

Module CreateWriteTokenResponse.
Record t : Type := { WriteToken : string; Id : string }.
End CreateWriteTokenResponse.

Module GetWriteTokenRequest.
Record t : Type := { Id : string }.
End GetWriteTokenRequest.

Module GetWriteTokenResponse.
Record t : Type := { IsValid : bool }.
End GetWriteTokenResponse.

End monitoringv1alpha1.

(* ------------------------------------------------------------------ *)
(** ** The remote service

    [deploymentv1alpha1connect.DeploymentServiceClient] is an interface;
    a client is any implementation of its methods.  Responses whose
    content the provider never reads are [unit].  A method answers a
    request with a response or with an error; within one provider method
    at most one request is sent, so a client is a function of the
    request. *)

Module deploymentv1alpha1connect.
Import deploymentv1alpha1.

Record DeploymentServiceClient : Type :=
  { CreateDNSRecord : CreateDNSRecordRequest.t -> connect.Result CreateDNSRecordResponse.t;
    GetDNSRecord : GetDNSRecordRequest.t -> connect.Result GetDNSRecordResponse.t;
    UpdateDNSRecord : UpdateDNSRecordRequest.t -> connect.Result UpdateDNSRecordResponse.t;
    DeleteDNSRecord : DeleteDNSRecordRequest.t -> connect.Result unit;
    RegisterAWSACMCertificate :
      RegisterAWSACMCertificateRequest.t -> connect.Result RegisterAWSACMCertificateResponse.t;
    GetAWSACMCertificate :
      GetAWSACMCertificateRequest.t -> connect.Result GetAWSACMCertificateResponse.t;
    UpdateAWSACMCertificate :
      UpdateAWSACMCertificateRequest.t -> connect.Result UpdateAWSACMCertificateResponse.t;
    DeregisterAWSACMCertificate :
      DeregisterAWSACMCertificateRequest.t -> connect.Result unit;
    RegisterNameservers : RegisterNameserversRequest.t -> connect.Result unit;
    GetDeployment : unit -> connect.Result GetDeploymentResponse.t;
    SetTerraformOutput : SetTerraformOutputRequest.t -> connect.Result unit;
    GetTerraformOutput : unit -> connect.Result GetTerraformOutputResponse.t }.

End deploymentv1alpha1connect.

(** [monitoring.Client]: the token service reached through [Tokens()].
    [GetWriteToken] is part of the service; the provider names it only in
    code that is commented out. *)
Module monitoring.
Import monitoringv1alpha1.

Record Client : Type :=
  { CreateWriteToken : unit -> connect.Result CreateWriteTokenResponse.t;
    GetWriteToken : GetWriteTokenRequest.t -> connect.Result GetWriteTokenResponse.t }.

End monitoring.

(** The requests a provider method can put on the wire. *)
Inductive Call : Type :=
| Call_CreateDNSRecord (m : deploymentv1alpha1.CreateDNSRecordRequest.t)
| Call_GetDNSRecord (m : deploymentv1alpha1.GetDNSRecordRequest.t)
| Call_UpdateDNSRecord (m : deploymentv1alpha1.UpdateDNSRecordRequest.t)
| Call_DeleteDNSRecord (m : deploymentv1alpha1.DeleteDNSRecordRequest.t)
| Call_RegisterAWSACMCertificate (m : deploymentv1alpha1.RegisterAWSACMCertificateRequest.t)
| Call_GetAWSACMCertificate (m : deploymentv1alpha1.GetAWSACMCertificateRequest.t)
| Call_UpdateAWSACMCertificate (m : deploymentv1alpha1.UpdateAWSACMCertificateRequest.t)
| Call_DeregisterAWSACMCertificate (m : deploymentv1alpha1.DeregisterAWSACMCertificateRequest.t)
| Call_RegisterNameservers (m : deploymentv1alpha1.RegisterNameserversRequest.t)
| Call_GetDeployment
| Call_SetTerraformOutput (m : deploymentv1alpha1.SetTerraformOutputRequest.t)
| Call_GetTerraformOutput
| Call_CreateWriteToken
| Call_GetWriteToken (m : monitoringv1alpha1.GetWriteTokenRequest.t).

(** One remote call as it happened: the request sent and the error it
    came back with ([None] when it succeeded). *)
Record Event : Type := { Sent : Call; Failed : option connect.error }.

Definition Trace : Type := list Event.

Definition sent {A : Type} (c : Call) (res : connect.Result A) : Trace :=
  [ {| Sent := c; Failed := connect.err_of res |} ].

(** Some call of the trace came back with an error. *)
Definition call_failed (tr : Trace) : bool :=
  existsb (fun ev => match Failed ev with Some _ => true | None => false end) tr.

(* ------------------------------------------------------------------ *)
(** ** terraform-plugin-framework/resource and /datasource

    The framework hands a method its request and a response to fill in.
    For Create the response state starts out null; for Read, Update and
    Delete it starts out as the prior state. *)

Module resource.

Record CreateRequest (M : Type) : Type := { CreateRequest_Plan : tfsdk.Plan M }.
Record ReadRequest (M : Type) : Type := { ReadRequest_State : tfsdk.PriorState M }.
Record UpdateRequest (M : Type) : Type :=
  { UpdateRequest_Plan : tfsdk.Plan M; UpdateRequest_State : tfsdk.PriorState M }.
Record DeleteRequest (M : Type) : Type := { DeleteRequest_State : tfsdk.PriorState M }.

Arguments CreateRequest_Plan {M} _.
Arguments ReadRequest_State {M} _.
Arguments UpdateRequest_Plan {M} _.
Arguments UpdateRequest_State {M} _.
Arguments DeleteRequest_State {M} _.

(** [CreateResponse], [ReadResponse], [UpdateResponse] and
    [DeleteResponse] have the same two fields the provider touches. *)
Record Response (M : Type) : Type :=
  { State : tfsdk.State M; Diagnostics : diag.Diagnostics }.
Arguments State {M} _.
Arguments Diagnostics {M} _.

Definition CreateResponse := Response.
Definition ReadResponse := Response.
Definition UpdateResponse := Response.
Definition DeleteResponse := Response.

End resource.

Module datasource.

Record ReadRequest (M : Type) : Type := { ReadRequest_Config : tfsdk.Config M }.
Arguments ReadRequest_Config {M} _.

Definition ReadResponse := resource.Response.

End datasource.

Import resource.

(** [resp.Diagnostics.Append(ds...)] *)
Definition Diagnostics_Append {M : Type} (resp : Response M) (ds : diag.Diagnostics)
  : Response M :=
  {| State := State resp; Diagnostics := diag.Append (Diagnostics resp) ds |}.

(** [resp.Diagnostics.AddError(summary, detail)] *)
Definition Diagnostics_AddError {M : Type} (resp : Response M) (summary detail : string)
  : Response M :=
  {| State := State resp; Diagnostics := diag.AddError (Diagnostics resp) summary detail |}.

(** [resp.Diagnostics.HasError()] *)
Definition Diagnostics_HasError {M : Type} (resp : Response M) : bool :=
  diag.HasError (Diagnostics resp).

(** [resp.Diagnostics.Append(resp.State.Set(ctx, &data)...)] *)
Definition State_Set {M : Type} (resp : Response M) (data : M) : Response M :=
  let (st, ds) := tfsdk.Set_ (State resp) data in
  {| State := st; Diagnostics := diag.Append (Diagnostics resp) ds |}.

(** [resp.State.RemoveResource(ctx)] *)
Definition State_RemoveResource {M : Type} (resp : Response M) : Response M :=
  {| State := tfsdk.RemoveResource (State resp); Diagnostics := Diagnostics resp |}.

(** [fmt.Sprintf(format, s)] for a format that ends in its one [%s]. *)
Definition Sprintf (prefix s : string) : string := String.append prefix s.

(* ------------------------------------------------------------------ *)
(** ** package provider: the DNS record resource *)

Import deploymentv1alpha1connect.

(** The resource after [Configure] has stored the client. *)
Record DNSRecordResource : Type :=
  { DNSRecordResource_client : DeploymentServiceClient }.

Module DNSRecordResourceModel.
Record t : Type :=
  { ID : types.String;
    Name : types.String;
    Type_ : types.String;
    ZoneName : types.String;
    Values : types.Set_ }.
End DNSRecordResourceModel.

(** The [switch data.Type.ValueString()] of Create; [None] is its
    [default] branch. *)
Definition rrType_of (ty : string) : option deploymentv1alpha1.DNSRecordType :=
  if String.eqb ty "TXT" then Some deploymentv1alpha1.DNSRecordType_DNS_RECORD_TYPE_TXT
  else if String.eqb ty "CNAME" then Some deploymentv1alpha1.DNSRecordType_DNS_RECORD_TYPE_CNAME
  else None.

Definition DNSRecordResource_Create (r : DNSRecordResource)
    (req : CreateRequest DNSRecordResourceModel.t)
    (resp : CreateResponse DNSRecordResourceModel.t)
  : CreateResponse DNSRecordResourceModel.t * Trace :=
  let (diags, data) := tfsdk.Get (CreateRequest_Plan req) in
  let resp := Diagnostics_Append resp diags in
  if Diagnostics_HasError resp then (resp, []) else
  let (diags, values) := types.ElementsAs (DNSRecordResourceModel.Values data) in
  let resp := Diagnostics_Append resp diags in
  if Diagnostics_HasError resp then (resp, []) else
  match rrType_of (types.ValueString (DNSRecordResourceModel.Type_ data)) with
  | None =>
      (Diagnostics_AddError resp "Invalid DNS record type"
         (String.append "the DNS record type '"
            (String.append (types.ValueString (DNSRecordResourceModel.Type_ data))
               "' is invalid. Valid values are ['TXT', 'CNAME']")), [])
  | Some rrType =>
      let m :=
        {| deploymentv1alpha1.CreateDNSRecordRequest.Name :=
             types.ValueString (DNSRecordResourceModel.Name data);
           deploymentv1alpha1.CreateDNSRecordRequest.DnsZoneName :=
             types.ValueString (DNSRecordResourceModel.ZoneName data);
           deploymentv1alpha1.CreateDNSRecordRequest.Type_ := rrType;
           deploymentv1alpha1.CreateDNSRecordRequest.Values := values |} in
      let result := CreateDNSRecord (DNSRecordResource_client r) m in
      let tr := sent (Call_CreateDNSRecord m) result in
      match result with
      | inr err =>
          (Diagnostics_AddError resp "Common Fate Deployment API error"
             (Sprintf "Unable to create a DNS record for the deployment, got error: "
                (connect.Error err)), tr)
      | inl res =>
          let data :=
            {| DNSRecordResourceModel.ID :=
                 types.StringValue
                   (deploymentv1alpha1.DNSRecord.Id
                      (deploymentv1alpha1.CreateDNSRecordResponse.Created res));
               DNSRecordResourceModel.Name := DNSRecordResourceModel.Name data;
               DNSRecordResourceModel.Type_ := DNSRecordResourceModel.Type_ data;
               DNSRecordResourceModel.ZoneName := DNSRecordResourceModel.ZoneName data;
               DNSRecordResourceModel.Values := DNSRecordResourceModel.Values data |} in
          (State_Set resp data, tr)
      end
  end.

Definition DNSRecordResource_Read (r : DNSRecordResource)
    (req : ReadRequest DNSRecordResourceModel.t)
    (resp : ReadResponse DNSRecordResourceModel.t)
  : ReadResponse DNSRecordResourceModel.t * Trace :=
  let (diags, data) := tfsdk.Get (ReadRequest_State req) in
  let resp := Diagnostics_Append resp diags in
  if Diagnostics_HasError resp then (resp, []) else
  let m :=
    {| deploymentv1alpha1.GetDNSRecordRequest.Id :=
         types.ValueString (DNSRecordResourceModel.ID data) |} in
  let result := GetDNSRecord (DNSRecordResource_client r) m in
  let tr := sent (Call_GetDNSRecord m) result in
  if connect.Code_eqb (connect.CodeOf (connect.err_of result)) connect.CodeNotFound
  then (State_RemoveResource resp, tr)
  else
    match result with
    | inr err =>
        (Diagnostics_AddError resp "Client Error"
           (Sprintf "Unable to read Common Fate DNS record, got error: "
              (connect.Error err)), tr)
    | inl apiRes =>
        let record := deploymentv1alpha1.GetDNSRecordResponse.Record_ apiRes in
        let (values, diags) :=
          types.SetValueFrom (deploymentv1alpha1.DNSRecord.Values record) in
        let resp := Diagnostics_Append resp diags in
        if Diagnostics_HasError resp then (resp, tr) else
        let data :=
          {| DNSRecordResourceModel.ID :=
               types.StringValue (deploymentv1alpha1.DNSRecord.Id record);
             DNSRecordResourceModel.Name := DNSRecordResourceModel.Name data;
             DNSRecordResourceModel.Type_ := DNSRecordResourceModel.Type_ data;
             DNSRecordResourceModel.ZoneName := DNSRecordResourceModel.ZoneName data;
             DNSRecordResourceModel.Values := values |} in
        (State_Set resp data, tr)
    end.

Definition DNSRecordResource_Update (r : DNSRecordResource)
    (req : UpdateRequest DNSRecordResourceModel.t)
    (resp : UpdateResponse DNSRecordResourceModel.t)
  : UpdateResponse DNSRecordResourceModel.t * Trace :=
  let (diags, data) := tfsdk.Get (UpdateRequest_Plan req) in
  let resp := Diagnostics_Append resp diags in
  if Diagnostics_HasError resp then (resp, []) else
  let (diags, values) := types.ElementsAs (DNSRecordResourceModel.Values data) in
  let resp := Diagnostics_Append resp diags in
  if Diagnostics_HasError resp then (resp, []) else
  let m :=
    {| deploymentv1alpha1.UpdateDNSRecordRequest.Id :=
         types.ValueString (DNSRecordResourceModel.ID data);
       deploymentv1alpha1.UpdateDNSRecordRequest.Values := values |} in
  let result := UpdateDNSRecord (DNSRecordResource_client r) m in
  let tr := sent (Call_UpdateDNSRecord m) result in
  match result with
  | inr err =>
      (Diagnostics_AddError resp "Common Fate Deployment API error"
         (Sprintf "Unable to update a DNS record for the deployment, got error: "
            (connect.Error err)), tr)
  | inl res =>
      let data :=
        {| DNSRecordResourceModel.ID :=
             types.StringValue
               (deploymentv1alpha1.DNSRecord.Id
                  (deploymentv1alpha1.UpdateDNSRecordResponse.Updated res));
           DNSRecordResourceModel.Name := DNSRecordResourceModel.Name data;
           DNSRecordResourceModel.Type_ := DNSRecordResourceModel.Type_ data;
           DNSRecordResourceModel.ZoneName := DNSRecordResourceModel.ZoneName data;
           DNSRecordResourceModel.Values := DNSRecordResourceModel.Values data |} in
      (State_Set resp data, tr)
  end.

Definition DNSRecordResource_Delete (r : DNSRecordResource)
    (req : DeleteRequest DNSRecordResourceModel.t)
    (resp : DeleteResponse DNSRecordResourceModel.t)
  : DeleteResponse DNSRecordResourceModel.t * Trace :=
  let (diags, data) := tfsdk.Get (DeleteRequest_State req) in
  let resp := Diagnostics_Append resp diags in
  if Diagnostics_HasError resp then (resp, []) else
  let (diags, values) := types.ElementsAs (DNSRecordResourceModel.Values data) in
  let resp := Diagnostics_Append resp diags in
  if Diagnostics_HasError resp then (resp, []) else
  let m :=
    {| deploymentv1alpha1.DeleteDNSRecordRequest.Id :=
         types.ValueString (DNSRecordResourceModel.ID data) |} in
  let result := DeleteDNSRecord (DNSRecordResource_client r) m in
  let tr := sent (Call_DeleteDNSRecord m) result in
  match result with
  | inr err =>
      (Diagnostics_AddError resp "Common Fate Deployment API error"
         (Sprintf "Unable to delete DNS record for the deployment, got error: "
            (connect.Error err)), tr)
  | inl _ => (resp, tr)
  end.

(* ------------------------------------------------------------------ *)
(** ** The AWS ACM certificate resource *)

Record AWSACMCertificateResource : Type :=
  { AWSACMCertificateResource_client : DeploymentServiceClient }.

Module AWSACMCertificateResourceModel.
Record t : Type :=
  { ID : types.String;
    ARN : types.String;
    DomainName : types.String;
    ValidationCNameName : types.String;
    ValidationCNameValue : types.String;
    Status : types.String }.
End AWSACMCertificateResourceModel.

(** [data.ID = types.StringValue(id)] on a certificate model. *)
Definition AWSACMCertificate_with_ID (data : AWSACMCertificateResourceModel.t) (id : string)
  : AWSACMCertificateResourceModel.t :=
  {| AWSACMCertificateResourceModel.ID := types.StringValue id;
     AWSACMCertificateResourceModel.ARN := AWSACMCertificateResourceModel.ARN data;
     AWSACMCertificateResourceModel.DomainName :=
       AWSACMCertificateResourceModel.DomainName data;
     AWSACMCertificateResourceModel.ValidationCNameName :=
       AWSACMCertificateResourceModel.ValidationCNameName data;
     AWSACMCertificateResourceModel.ValidationCNameValue :=
       AWSACMCertificateResourceModel.ValidationCNameValue data;
     AWSACMCertificateResourceModel.Status := AWSACMCertificateResourceModel.Status data |}.

Definition AWSACMCertificateResource_Create (r : AWSACMCertificateResource)
    (req : CreateRequest AWSACMCertificateResourceModel.t)
    (resp : CreateResponse AWSACMCertificateResourceModel.t)
  : CreateResponse AWSACMCertificateResourceModel.t * Trace :=
  let (diags, data) := tfsdk.Get (CreateRequest_Plan req) in
  let resp := Diagnostics_Append resp diags in
  if Diagnostics_HasError resp then (resp, []) else
  let m :=
    {| deploymentv1alpha1.RegisterAWSACMCertificateRequest.Arn :=
         types.ValueString (AWSACMCertificateResourceModel.ARN data);
       deploymentv1alpha1.RegisterAWSACMCertificateRequest.DomainName :=
         types.ValueString (AWSACMCertificateResourceModel.DomainName data);
       deploymentv1alpha1.RegisterAWSACMCertificateRequest.ValidationCnameName :=
         types.ValueString (AWSACMCertificateResourceModel.ValidationCNameName data);
       deploymentv1alpha1.RegisterAWSACMCertificateRequest.ValidationCnameValue :=
         types.ValueString (AWSACMCertificateResourceModel.ValidationCNameValue data);
       deploymentv1alpha1.RegisterAWSACMCertificateRequest.Status :=
         types.ValueString (AWSACMCertificateResourceModel.Status data) |} in
  let result := RegisterAWSACMCertificate (AWSACMCertificateResource_client r) m in
  let tr := sent (Call_RegisterAWSACMCertificate m) result in
  match result with
  | inr err =>
      (Diagnostics_AddError resp "Common Fate Deployment API error"
         (Sprintf "Unable to register AWS ACM certificate for the deployment, got error: "
            (connect.Error err)), tr)
  | inl res =>
      let data :=
        AWSACMCertificate_with_ID data
          (deploymentv1alpha1.AWSACMCertificate.Id
             (deploymentv1alpha1.RegisterAWSACMCertificateResponse.Certificate res)) in
      (State_Set resp data, tr)
  end.

Definition AWSACMCertificateResource_Read (r : AWSACMCertificateResource)
    (req : ReadRequest AWSACMCertificateResourceModel.t)
    (resp : ReadResponse AWSACMCertificateResourceModel.t)
  : ReadResponse AWSACMCertificateResourceModel.t * Trace :=
  let (diags, data) := tfsdk.Get (ReadRequest_State req) in
  let resp := Diagnostics_Append resp diags in
  if Diagnostics_HasError resp then (resp, []) else
  let m :=
    {| deploymentv1alpha1.GetAWSACMCertificateRequest.Id :=
         types.ValueString (AWSACMCertificateResourceModel.ID data) |} in
  let result := GetAWSACMCertificate (AWSACMCertificateResource_client r) m in
  let tr := sent (Call_GetAWSACMCertificate m) result in
  if connect.Code_eqb (connect.CodeOf (connect.err_of result)) connect.CodeNotFound
  then (State_RemoveResource resp, tr)
  else
    match result with
    | inr err =>
        (Diagnostics_AddError resp "Client Error"
           (Sprintf "Unable to read Common Fate DNS record, got error: "
              (connect.Error err)), tr)
    | inl apiRes =>
        let cert := deploymentv1alpha1.GetAWSACMCertificateResponse.Certificate apiRes in
        let data :=
          {| AWSACMCertificateResourceModel.ID :=
               types.StringValue (deploymentv1alpha1.AWSACMCertificate.Id cert);
             AWSACMCertificateResourceModel.ARN :=
               types.StringValue (deploymentv1alpha1.AWSACMCertificate.Arn cert);
             AWSACMCertificateResourceModel.DomainName :=
               types.StringValue (deploymentv1alpha1.AWSACMCertificate.DomainName cert);
             AWSACMCertificateResourceModel.ValidationCNameName :=
               types.StringValue
                 (deploymentv1alpha1.AWSACMCertificate.ValidationCnameName cert);
             AWSACMCertificateResourceModel.ValidationCNameValue :=
               types.StringValue
                 (deploymentv1alpha1.AWSACMCertificate.ValidationCnameValue cert);
             AWSACMCertificateResourceModel.Status :=
               types.StringValue (deploymentv1alpha1.AWSACMCertificate.Status cert) |} in
        (State_Set resp data, tr)
    end.

Definition AWSACMCertificateResource_Update (r : AWSACMCertificateResource)
    (req : UpdateRequest AWSACMCertificateResourceModel.t)
    (resp : UpdateResponse AWSACMCertificateResourceModel.t)
  : UpdateResponse AWSACMCertificateResourceModel.t * Trace :=
  let (diags, data) := tfsdk.Get (UpdateRequest_Plan req) in
  let resp := Diagnostics_Append resp diags in
  if Diagnostics_HasError resp then (resp, []) else
  let m :=
    {| deploymentv1alpha1.UpdateAWSACMCertificateRequest.Certificate :=
         {| deploymentv1alpha1.AWSACMCertificate.Id :=
              types.ValueString (AWSACMCertificateResourceModel.ID data);
            deploymentv1alpha1.AWSACMCertificate.Arn :=
              types.ValueString (AWSACMCertificateResourceModel.ARN data);
            deploymentv1alpha1.AWSACMCertificate.DomainName :=
              types.ValueString (AWSACMCertificateResourceModel.DomainName data);
            deploymentv1alpha1.AWSACMCertificate.ValidationCnameName :=
              types.ValueString (AWSACMCertificateResourceModel.ValidationCNameName data);
            deploymentv1alpha1.AWSACMCertificate.ValidationCnameValue :=
              types.ValueString (AWSACMCertificateResourceModel.ValidationCNameValue data);
            deploymentv1alpha1.AWSACMCertificate.Status :=
              types.ValueString (AWSACMCertificateResourceModel.Status data) |} |} in
  let result := UpdateAWSACMCertificate (AWSACMCertificateResource_client r) m in
  let tr := sent (Call_UpdateAWSACMCertificate m) result in
  match result with
  | inr err =>
      (Diagnostics_AddError resp "Common Fate Deployment API error"
         (Sprintf "Unable to update AWS ACM certificate for the deployment, got error: "
            (connect.Error err)), tr)
  | inl res =>
      let data :=
        AWSACMCertificate_with_ID data
          (deploymentv1alpha1.AWSACMCertificate.Id
             (deploymentv1alpha1.UpdateAWSACMCertificateResponse.Certificate res)) in
      (State_Set resp data, tr)
  end.

(** Delete appends what reading the prior state reported and goes on to
    the remote call without looking at it. *)
Definition AWSACMCertificateResource_Delete (r : AWSACMCertificateResource)
    (req : DeleteRequest AWSACMCertificateResourceModel.t)
    (resp : DeleteResponse AWSACMCertificateResourceModel.t)
  : DeleteResponse AWSACMCertificateResourceModel.t * Trace :=
  let (diags, data) := tfsdk.Get (DeleteRequest_State req) in
  let resp := Diagnostics_Append resp diags in
  let m :=
    {| deploymentv1alpha1.DeregisterAWSACMCertificateRequest.Id :=
         types.ValueString (AWSACMCertificateResourceModel.ID data) |} in
  let result := DeregisterAWSACMCertificate (AWSACMCertificateResource_client r) m in
  let tr := sent (Call_DeregisterAWSACMCertificate m) result in
  if connect.Code_eqb (connect.CodeOf (connect.err_of result)) connect.CodeNotFound
  then (resp, tr)
  else
    match result with
    | inr err =>
        (Diagnostics_AddError resp "Common Fate Deployment API error"
           (Sprintf "Unable to delete ACM certificate for the deployment, got error: "
              (connect.Error err)), tr)
    | inl _ => (resp, tr)
    end.

(* ------------------------------------------------------------------ *)
(** ** The nameservers resource *)

Record NameserversResource : Type :=
  { NameserversResource_client : DeploymentServiceClient }.

Module NameserversResourceModel.
Record t : Type := { Records : types.Set_ }.
End NameserversResourceModel.

Definition NameserversResource_Create (r : NameserversResource)
    (req : CreateRequest NameserversResourceModel.t)
    (resp : CreateResponse NameserversResourceModel.t)
  : CreateResponse NameserversResourceModel.t * Trace :=
  let (diags, data) := tfsdk.Get (CreateRequest_Plan req) in
  let resp := Diagnostics_Append resp diags in
  if Diagnostics_HasError resp then (resp, []) else
  let (diags, records) := types.ElementsAs (NameserversResourceModel.Records data) in
  let resp := Diagnostics_Append resp diags in
  if Diagnostics_HasError resp then (resp, []) else
  let m := {| deploymentv1alpha1.RegisterNameserversRequest.Nameservers := records |} in
  let result := RegisterNameservers (NameserversResource_client r) m in
  let tr := sent (Call_RegisterNameservers m) result in
  match result with
  | inr err =>
      (Diagnostics_AddError resp "Common Fate Deployment API error"
         (Sprintf "Unable to create register a DNS namespace for the deployment, got error: "
            (connect.Error err)), tr)
  | inl _ => (State_Set resp data, tr)
  end.

Definition NameserversResource_Read (r : NameserversResource)
    (req : ReadRequest NameserversResourceModel.t)
    (resp : ReadResponse NameserversResourceModel.t)
  : ReadResponse NameserversResourceModel.t * Trace :=
  let (diags, data) := tfsdk.Get (ReadRequest_State req) in
  let resp := Diagnostics_Append resp diags in
  if Diagnostics_HasError resp then (resp, []) else
  let result := GetDeployment (NameserversResource_client r) tt in
  let tr := sent Call_GetDeployment result in
  if connect.Code_eqb (connect.CodeOf (connect.err_of result)) connect.CodeNotFound
  then (State_RemoveResource resp, tr)
  else
    match result with
    | inr err =>
        (Diagnostics_AddError resp "Client Error"
           (Sprintf "Unable to read Common Fate deployment metadata, got error: "
              (connect.Error err)), tr)
    | inl apiRes =>
        let (records, diags) :=
          types.SetValueFrom
            (deploymentv1alpha1.Deployment.Nameservers
               (deploymentv1alpha1.GetDeploymentResponse.Deployment_ apiRes)) in
        let resp := Diagnostics_Append resp diags in
        if Diagnostics_HasError resp then (resp, tr) else
        let data := {| NameserversResourceModel.Records := records |} in
        (State_Set resp data, tr)
    end.

Definition NameserversResource_Update (r : NameserversResource)
    (req : UpdateRequest NameserversResourceModel.t)
    (resp : UpdateResponse NameserversResourceModel.t)
  : UpdateResponse NameserversResourceModel.t * Trace :=
  let (diags, data) := tfsdk.Get (UpdateRequest_Plan req) in
  let resp := Diagnostics_Append resp diags in
  if Diagnostics_HasError resp then (resp, []) else
  let (diags, records) := types.ElementsAs (NameserversResourceModel.Records data) in
  let resp := Diagnostics_Append resp diags in
  if Diagnostics_HasError resp then (resp, []) else
  let m := {| deploymentv1alpha1.RegisterNameserversRequest.Nameservers := records |} in
  let result := RegisterNameservers (NameserversResource_client r) m in
  let tr := sent (Call_RegisterNameservers m) result in
  match result with
  | inr err =>
      (Diagnostics_AddError resp "Common Fate Deployment API error"
         (Sprintf "Unable to create register a DNS namespace for the deployment, got error: "
            (connect.Error err)), tr)
  | inl _ => (State_Set resp data, tr)
  end.

(** "deleting is currently a no-op, the nameservers need to be
    deregistered by the Common Fate team." *)
Definition NameserversResource_Delete (r : NameserversResource)
    (req : DeleteRequest NameserversResourceModel.t)
    (resp : DeleteResponse NameserversResourceModel.t)
  : DeleteResponse NameserversResourceModel.t * Trace :=
  (resp, []).

(* ------------------------------------------------------------------ *)
(** ** The monitoring write token resource *)

Record MonitoringWriteTokenResource : Type :=
  { MonitoringWriteTokenResource_client : monitoring.Client }.

Module MonitoringWriteTokenResourceModel.
Record t : Type := { ID : types.String; Token : types.String }.
End MonitoringWriteTokenResourceModel.

Definition MonitoringWriteTokenResource_Create (r : MonitoringWriteTokenResource)
    (req : CreateRequest MonitoringWriteTokenResourceModel.t)
    (resp : CreateResponse MonitoringWriteTokenResourceModel.t)
  : CreateResponse MonitoringWriteTokenResourceModel.t * Trace :=
  let (diags, data) := tfsdk.Get (CreateRequest_Plan req) in
  let resp := Diagnostics_Append resp diags in
  if Diagnostics_HasError resp then (resp, []) else
  let result := monitoring.CreateWriteToken (MonitoringWriteTokenResource_client r) tt in
  let tr := sent Call_CreateWriteToken result in
  match result with
  | inr err =>
      (Diagnostics_AddError resp "Common Fate Deployment API error"
         (Sprintf "Unable to create a monitoring write token for the deployment, got error: "
            (connect.Error err)), tr)
  | inl res =>
      let data :=
        {| MonitoringWriteTokenResourceModel.ID :=
             types.StringValue (monitoringv1alpha1.CreateWriteTokenResponse.Id res);
           MonitoringWriteTokenResourceModel.Token :=
             types.StringValue (monitoringv1alpha1.CreateWriteTokenResponse.WriteToken res) |} in
      (State_Set resp data, tr)
  end.

(** Read loads the prior state and stops there: the validity check
    against the token service is commented out in the source. *)
Definition MonitoringWriteTokenResource_Read (r : MonitoringWriteTokenResource)
    (req : ReadRequest MonitoringWriteTokenResourceModel.t)
    (resp : ReadResponse MonitoringWriteTokenResourceModel.t)
  : ReadResponse MonitoringWriteTokenResourceModel.t * Trace :=
  let (diags, data) := tfsdk.Get (ReadRequest_State req) in
  let resp := Diagnostics_Append resp diags in
  if Diagnostics_HasError resp then (resp, []) else
  (resp, []).

(** "resource is immutable once created, so this is a no-op." *)
Definition MonitoringWriteTokenResource_Update (r : MonitoringWriteTokenResource)
    (req : UpdateRequest MonitoringWriteTokenResourceModel.t)
    (resp : UpdateResponse MonitoringWriteTokenResourceModel.t)
  : UpdateResponse MonitoringWriteTokenResourceModel.t * Trace :=
  (resp, []).

(** The whole body of Delete is commented out in the source. *)
Definition MonitoringWriteTokenResource_Delete (r : MonitoringWriteTokenResource)
    (req : DeleteRequest MonitoringWriteTokenResourceModel.t)
    (resp : DeleteResponse MonitoringWriteTokenResourceModel.t)
  : DeleteResponse MonitoringWriteTokenResourceModel.t * Trace :=
  (resp, []).

(* ------------------------------------------------------------------ *)
(** ** The Terraform output resource *)

Record TerraformOutputResource : Type :=
  { TerraformOutputResource_client : DeploymentServiceClient }.

Module TerraformOutputResourceModel.
Record t : Type :=
  { SAMLSSOACSURL : types.String;
    SAMLSSOEntityID : types.String;
    CognitoUserPoolID : types.String;
    DNSCNAMERecordForAppDomain : types.String;
    DNSCNAMERecordForAuthDomain : types.String;
    WebClientID : types.String;
    CLIClientID : types.String;
    TerraformClientID : types.String;
    ReadOnlyClientID : types.String;
    ProvisionerClientID : types.String;
    VPCID : types.String }.
End TerraformOutputResourceModel.

(** The [SetTerraformOutputRequest] literal that Create and Update each
    build from the plan. *)
Definition SetTerraformOutputRequest_of (data : TerraformOutputResourceModel.t)
  : deploymentv1alpha1.SetTerraformOutputRequest.t :=
  {| deploymentv1alpha1.SetTerraformOutputRequest.Output :=
       {| deploymentv1alpha1.TerraformOutput.SamlSsoAcsUrl :=
            types.ValueString (TerraformOutputResourceModel.SAMLSSOACSURL data);
          deploymentv1alpha1.TerraformOutput.SamlSsoEntityId :=
            types.ValueString (TerraformOutputResourceModel.SAMLSSOEntityID data);
          deploymentv1alpha1.TerraformOutput.CognitoUserPoolId :=
            types.ValueString (TerraformOutputResourceModel.CognitoUserPoolID data);
          deploymentv1alpha1.TerraformOutput.DnsCnameRecordForAppDomain :=
            types.ValueString (TerraformOutputResourceModel.DNSCNAMERecordForAppDomain data);
          deploymentv1alpha1.TerraformOutput.DnsCnameRecordForAuthDomain :=
            types.ValueString (TerraformOutputResourceModel.DNSCNAMERecordForAuthDomain data);
          deploymentv1alpha1.TerraformOutput.WebClientId :=
            types.ValueString (TerraformOutputResourceModel.WebClientID data);
          deploymentv1alpha1.TerraformOutput.CliClientId :=
            types.ValueString (TerraformOutputResourceModel.CLIClientID data);
          deploymentv1alpha1.TerraformOutput.TerraformClientId :=
            types.ValueString (TerraformOutputResourceModel.TerraformClientID data);
          deploymentv1alpha1.TerraformOutput.ReadOnlyClientId :=
            types.ValueString (TerraformOutputResourceModel.ReadOnlyClientID data);
          deploymentv1alpha1.TerraformOutput.ProvisionerClientId :=
            types.ValueString (TerraformOutputResourceModel.ProvisionerClientID data);
          deploymentv1alpha1.TerraformOutput.VpcId :=
            types.ValueString (TerraformOutputResourceModel.VPCID data) |} |}.

Definition TerraformOutputResource_Create (r : TerraformOutputResource)
    (req : CreateRequest TerraformOutputResourceModel.t)
    (resp : CreateResponse TerraformOutputResourceModel.t)
  : CreateResponse TerraformOutputResourceModel.t * Trace :=
  let (diags, data) := tfsdk.Get (CreateRequest_Plan req) in
  let resp := Diagnostics_Append resp diags in
  if Diagnostics_HasError resp then (resp, []) else
  let m := SetTerraformOutputRequest_of data in
  let result := SetTerraformOutput (TerraformOutputResource_client r) m in
  let tr := sent (Call_SetTerraformOutput m) result in
  match result with
  | inr err =>
      (Diagnostics_AddError resp "Common Fate Deployment API error"
         (Sprintf "Unable to set Terraform outputs for the deployment, got error: "
            (connect.Error err)), tr)
  | inl _ => (State_Set resp data, tr)
  end.

Definition TerraformOutputResource_Read (r : TerraformOutputResource)
    (req : ReadRequest TerraformOutputResourceModel.t)
    (resp : ReadResponse TerraformOutputResourceModel.t)
  : ReadResponse TerraformOutputResourceModel.t * Trace :=
  let (diags, data) := tfsdk.Get (ReadRequest_State req) in
  let resp := Diagnostics_Append resp diags in
  if Diagnostics_HasError resp then (resp, []) else
  let result := GetTerraformOutput (TerraformOutputResource_client r) tt in
  let tr := sent Call_GetTerraformOutput result in
  if connect.Code_eqb (connect.CodeOf (connect.err_of result)) connect.CodeNotFound
  then (State_RemoveResource resp, tr)
  else
    match result with
    | inr err =>
        (Diagnostics_AddError resp "Client Error"
           (Sprintf "Unable to read Common Fate DNS record, got error: "
              (connect.Error err)), tr)
    | inl apiRes =>
        let out := deploymentv1alpha1.GetTerraformOutputResponse.Output apiRes in
        let data :=
          {| TerraformOutputResourceModel.SAMLSSOACSURL :=
               types.StringValue (deploymentv1alpha1.TerraformOutput.SamlSsoAcsUrl out);
             TerraformOutputResourceModel.SAMLSSOEntityID :=
               types.StringValue (deploymentv1alpha1.TerraformOutput.SamlSsoEntityId out);
             TerraformOutputResourceModel.CognitoUserPoolID :=
               types.StringValue (deploymentv1alpha1.TerraformOutput.CognitoUserPoolId out);
             TerraformOutputResourceModel.DNSCNAMERecordForAppDomain :=
               types.StringValue
                 (deploymentv1alpha1.TerraformOutput.DnsCnameRecordForAppDomain out);
             TerraformOutputResourceModel.DNSCNAMERecordForAuthDomain :=
               types.StringValue
                 (deploymentv1alpha1.TerraformOutput.DnsCnameRecordForAuthDomain out);
             TerraformOutputResourceModel.WebClientID :=
               types.StringValue (deploymentv1alpha1.TerraformOutput.WebClientId out);
             TerraformOutputResourceModel.CLIClientID :=
               types.StringValue (deploymentv1alpha1.TerraformOutput.CliClientId out);
             TerraformOutputResourceModel.TerraformClientID :=
               types.StringValue (deploymentv1alpha1.TerraformOutput.TerraformClientId out);
             TerraformOutputResourceModel.ReadOnlyClientID :=
               types.StringValue (deploymentv1alpha1.TerraformOutput.ReadOnlyClientId out);
             TerraformOutputResourceModel.ProvisionerClientID :=
               types.StringValue (deploymentv1alpha1.TerraformOutput.ProvisionerClientId out);
             TerraformOutputResourceModel.VPCID :=
               types.StringValue (deploymentv1alpha1.TerraformOutput.VpcId out) |} in
        (State_Set resp data, tr)
    end.

Definition TerraformOutputResource_Update (r : TerraformOutputResource)
    (req : UpdateRequest TerraformOutputResourceModel.t)
    (resp : UpdateResponse TerraformOutputResourceModel.t)
  : UpdateResponse TerraformOutputResourceModel.t * Trace :=
  let (diags, data) := tfsdk.Get (UpdateRequest_Plan req) in
  let resp := Diagnostics_Append resp diags in
  if Diagnostics_HasError resp then (resp, []) else
  let m := SetTerraformOutputRequest_of data in
  let result := SetTerraformOutput (TerraformOutputResource_client r) m in
  let tr := sent (Call_SetTerraformOutput m) result in
  match result with
  | inr err =>
      (Diagnostics_AddError resp "Common Fate Deployment API error"
         (Sprintf "Unable to set Terraform outputs for the deployment, got error: "
            (connect.Error err)), tr)
  | inl _ => (State_Set resp data, tr)
  end.

(** "no-op at the moment." *)
Definition TerraformOutputResource_Delete (r : TerraformOutputResource)
    (req : DeleteRequest TerraformOutputResourceModel.t)
    (resp : DeleteResponse TerraformOutputResourceModel.t)
  : DeleteResponse TerraformOutputResourceModel.t * Trace :=
  (resp, []).

(* ------------------------------------------------------------------ *)
(** ** The deployment data source *)

Record DeploymentDataSource : Type :=
  { DeploymentDataSource_client : DeploymentServiceClient }.

Module DeploymentDataSourceModel.
Record t : Type :=
  { DNSZoneName : types.String;
    DefaultSubdomain : types.String;
    Id : types.String }.
End DeploymentDataSourceModel.

Definition DeploymentDataSource_Read (d : DeploymentDataSource)
    (req : datasource.ReadRequest DeploymentDataSourceModel.t)
    (resp : datasource.ReadResponse DeploymentDataSourceModel.t)
  : datasource.ReadResponse DeploymentDataSourceModel.t * Trace :=
  let (diags, data) := tfsdk.Get (datasource.ReadRequest_Config req) in
  let resp := Diagnostics_Append resp diags in
  if Diagnostics_HasError resp then (resp, []) else
  let result := GetDeployment (DeploymentDataSource_client d) tt in
  let tr := sent Call_GetDeployment result in
  match result with
  | inr err =>
      (Diagnostics_AddError resp "Client Error"
         (Sprintf "Unable to read Common Fate deployment metadata, got error: "
            (connect.Error err)), tr)
  | inl apiRes =>
      let dep := deploymentv1alpha1.GetDeploymentResponse.Deployment_ apiRes in
      let data :=
        {| DeploymentDataSourceModel.DNSZoneName :=
             types.StringValue (deploymentv1alpha1.Deployment.DnsZoneName dep);
           DeploymentDataSourceModel.DefaultSubdomain :=
             types.StringValue (deploymentv1alpha1.Deployment.DefaultSubdomain dep);
           DeploymentDataSourceModel.Id :=
             types.StringValue (deploymentv1alpha1.Deployment.Id dep) |} in
      (State_Set resp data, tr)
  end.

(* ------------------------------------------------------------------ *)
(** ** The provider: what it registers

    A constructor returns a fresh, unconfigured value of one of the
    implementations of [resource.Resource] (or [datasource.DataSource]);
    the interface value is told apart by its dynamic type. *)

Inductive resource_Resource : Type :=
| Is_DNSRecordResource
| Is_AWSACMCertificateResource
| Is_NameserversResource
| Is_MonitoringWriteTokenResource
| Is_TerraformOutputResource.

Inductive datasource_DataSource : Type :=
| Is_DeploymentDataSource.

Definition NewDNSRecordResource (_ : unit) : resource_Resource := Is_DNSRecordResource.
Definition NewAWSACMCertificateResource (_ : unit) : resource_Resource :=
  Is_AWSACMCertificateResource.
Definition NewNameserversResource (_ : unit) : resource_Resource := Is_NameserversResource.
Definition NewMonitoringWriteTokenResource (_ : unit) : resource_Resource :=
  Is_MonitoringWriteTokenResource.
Definition NewTerraformOutputResource (_ : unit) : resource_Resource :=
  Is_TerraformOutputResource.
Definition NewDeploymentDataSource (_ : unit) : datasource_DataSource :=
  Is_DeploymentDataSource.

Record DeploymentProvider : Type := { version : string }.

Definition DeploymentProvider_Resources (p : DeploymentProvider)
  : list (unit -> resource_Resource) :=
  [ NewNameserversResource ].

Definition DeploymentProvider_DataSources (p : DeploymentProvider)
  : list (unit -> datasource_DataSource) :=
  [ NewDeploymentDataSource ].

Definition resource_Resource_eqb (a b : resource_Resource) : bool :=
  match a, b with
  | Is_DNSRecordResource, Is_DNSRecordResource => true
  | Is_AWSACMCertificateResource, Is_AWSACMCertificateResource => true
  | Is_NameserversResource, Is_NameserversResource => true
  | Is_MonitoringWriteTokenResource, Is_MonitoringWriteTokenResource => true
  | Is_TerraformOutputResource, Is_TerraformOutputResource => true
  | _, _ => false
  end.

(** The six resource kinds the specification names. *)
Inductive Kind : Type :=
| DNSRecord
| NameserverSet
| AWSCertificateRecord
| MonitoringWriteToken
| OutputBundle
| DeploymentMetadata.

(** Some registered constructor builds a resource of this implementation. *)
Definition registers_resource (p : DeploymentProvider) (impl : resource_Resource) : bool :=
  existsb (fun new => resource_Resource_eqb (new tt) impl) (DeploymentProvider_Resources p).

Definition registers_datasource (p : DeploymentProvider) : bool :=
  existsb (fun new => match new tt with Is_DeploymentDataSource => true end)
    (DeploymentProvider_DataSources p).

(** The provider exposes a kind when its registration functions return
    a constructor for it: [Resources] for the first five, [DataSources]
    for deployment metadata. *)
Definition exposes (p : DeploymentProvider) (k : Kind) : bool :=
  match k with
  | DNSRecord => registers_resource p Is_DNSRecordResource
  | NameserverSet => registers_resource p Is_NameserversResource
  | AWSCertificateRecord => registers_resource p Is_AWSACMCertificateResource
  | MonitoringWriteToken => registers_resource p Is_MonitoringWriteTokenResource
  | OutputBundle => registers_resource p Is_TerraformOutputResource
  | DeploymentMetadata => registers_datasource p
  end.

(* ------------------------------------------------------------------ *)
(** ** The [resource.Resource] interface

    The framework calls Create, Read, Update and Delete through the
    interface; which body runs depends on the implementation behind it.
    [Model] is the struct an implementation reads its plan and state
    into, [Receiver] its configured value. *)

Definition Model (i : resource_Resource) : Type :=
  match i with
  | Is_DNSRecordResource => DNSRecordResourceModel.t
  | Is_AWSACMCertificateResource => AWSACMCertificateResourceModel.t
  | Is_NameserversResource => NameserversResourceModel.t
  | Is_MonitoringWriteTokenResource => MonitoringWriteTokenResourceModel.t
  | Is_TerraformOutputResource => TerraformOutputResourceModel.t
  end.

Definition Receiver (i : resource_Resource) : Type :=
  match i with
  | Is_DNSRecordResource => DNSRecordResource
  | Is_AWSACMCertificateResource => AWSACMCertificateResource
  | Is_NameserversResource => NameserversResource
  | Is_MonitoringWriteTokenResource => MonitoringWriteTokenResource
  | Is_TerraformOutputResource => TerraformOutputResource
  end.

(** [Configure]: each resource keeps the client built from the provider
    configuration, [deployment.NewFromConfig(cfg)] or, for the write
    token, [monitoring.NewFromConfig(cfg)]. *)
Definition Configure (i : resource_Resource)
    (dep : DeploymentServiceClient) (mon : monitoring.Client) : Receiver i :=
  match i with
  | Is_DNSRecordResource => {| DNSRecordResource_client := dep |}
  | Is_AWSACMCertificateResource => {| AWSACMCertificateResource_client := dep |}
  | Is_NameserversResource => {| NameserversResource_client := dep |}
  | Is_MonitoringWriteTokenResource => {| MonitoringWriteTokenResource_client := mon |}
  | Is_TerraformOutputResource => {| TerraformOutputResource_client := dep |}
  end.

Definition Resource_Create (i : resource_Resource)
  : Receiver i -> CreateRequest (Model i) -> CreateResponse (Model i)
    -> CreateResponse (Model i) * Trace :=
  match i with
  | Is_DNSRecordResource => DNSRecordResource_Create
  | Is_AWSACMCertificateResource => AWSACMCertificateResource_Create
  | Is_NameserversResource => NameserversResource_Create
  | Is_MonitoringWriteTokenResource => MonitoringWriteTokenResource_Create
  | Is_TerraformOutputResource => TerraformOutputResource_Create
  end.

Definition Resource_Read (i : resource_Resource)
  : Receiver i -> ReadRequest (Model i) -> ReadResponse (Model i)
    -> ReadResponse (Model i) * Trace :=
  match i with
  | Is_DNSRecordResource => DNSRecordResource_Read
  | Is_AWSACMCertificateResource => AWSACMCertificateResource_Read
  | Is_NameserversResource => NameserversResource_Read
  | Is_MonitoringWriteTokenResource => MonitoringWriteTokenResource_Read
  | Is_TerraformOutputResource => TerraformOutputResource_Read
  end.

Definition Resource_Update (i : resource_Resource)
  : Receiver i -> UpdateRequest (Model i) -> UpdateResponse (Model i)
    -> UpdateResponse (Model i) * Trace :=
  match i with
  | Is_DNSRecordResource => DNSRecordResource_Update
  | Is_AWSACMCertificateResource => AWSACMCertificateResource_Update
  | Is_NameserversResource => NameserversResource_Update
  | Is_MonitoringWriteTokenResource => MonitoringWriteTokenResource_Update
  | Is_TerraformOutputResource => TerraformOutputResource_Update
  end.

Definition Resource_Delete (i : resource_Resource)
  : Receiver i -> DeleteRequest (Model i) -> DeleteResponse (Model i)
    -> DeleteResponse (Model i) * Trace :=
  match i with
  | Is_DNSRecordResource => DNSRecordResource_Delete
  | Is_AWSACMCertificateResource => AWSACMCertificateResource_Delete
  | Is_NameserversResource => NameserversResource_Delete
  | Is_MonitoringWriteTokenResource => MonitoringWriteTokenResource_Delete
  | Is_TerraformOutputResource => TerraformOutputResource_Delete
  end.

(* ------------------------------------------------------------------ *)
(** ** What an operation lets its caller see *)

(** The outcome of an operation up to the wording of its diagnostics:
    the state it leaves, whether it reports an error, and the requests
    it sent. *)
Definition outcome {M : Type} (o : Response M * Trace)
  : tfsdk.State M * bool * list Call :=
  (State (fst o), Diagnostics_HasError (fst o), map Sent (snd o)).

(** Two results of a call that differ at most in the text of the error:
    the same response, or errors with the same structured code. *)
Definition same_code {A : Type} (x y : connect.Result A) : Prop :=
  match x, y with
  | inl a, inl b => a = b
  | inr e1, inr e2 => connect.CodeOf (Some e1) = connect.CodeOf (Some e2)
  | _, _ => False
  end.

Record same_codes_deployment (c1 c2 : DeploymentServiceClient) : Prop :=
  { sc_CreateDNSRecord : forall m, same_code (CreateDNSRecord c1 m) (CreateDNSRecord c2 m);
    sc_GetDNSRecord : forall m, same_code (GetDNSRecord c1 m) (GetDNSRecord c2 m);
    sc_UpdateDNSRecord : forall m, same_code (UpdateDNSRecord c1 m) (UpdateDNSRecord c2 m);
    sc_DeleteDNSRecord : forall m, same_code (DeleteDNSRecord c1 m) (DeleteDNSRecord c2 m);
    sc_RegisterAWSACMCertificate :
      forall m, same_code (RegisterAWSACMCertificate c1 m) (RegisterAWSACMCertificate c2 m);
    sc_GetAWSACMCertificate :
      forall m, same_code (GetAWSACMCertificate c1 m) (GetAWSACMCertificate c2 m);
    sc_UpdateAWSACMCertificate :
      forall m, same_code (UpdateAWSACMCertificate c1 m) (UpdateAWSACMCertificate c2 m);
    sc_DeregisterAWSACMCertificate :
      forall m, same_code (DeregisterAWSACMCertificate c1 m) (DeregisterAWSACMCertificate c2 m);
    sc_RegisterNameservers :
      forall m, same_code (RegisterNameservers c1 m) (RegisterNameservers c2 m);
    sc_GetDeployment : forall m, same_code (GetDeployment c1 m) (GetDeployment c2 m);
    sc_SetTerraformOutput :
      forall m, same_code (SetTerraformOutput c1 m) (SetTerraformOutput c2 m);
    sc_GetTerraformOutput :
      forall m, same_code (GetTerraformOutput c1 m) (GetTerraformOutput c2 m) }.

Record same_codes_monitoring (c1 c2 : monitoring.Client) : Prop :=
  { sc_CreateWriteToken :
      forall m, same_code (monitoring.CreateWriteToken c1 m) (monitoring.CreateWriteToken c2 m);
    sc_GetWriteToken :
      forall m, same_code (monitoring.GetWriteToken c1 m) (monitoring.GetWriteToken c2 m) }.

(** An error diagnostic with the given summary is among [ds]. *)
Definition reports_error (ds : diag.Diagnostics) (summary : string) : Prop :=
  exists d, In d ds /\ diag.Severity_ d = diag.SeverityError /\ diag.Summary d = summary.

(* ------------------------------------------------------------------ *)
(** ** Concrete requests, responses and clients

    Used below to run the operations on explicit inputs. *)

Definition not_found : connect.error :=
  connect.ConnectError connect.CodeNotFound "resource not found".

(** The same code as [not_found] under another message. *)
Definition not_found_reworded : connect.error :=
  connect.ConnectError connect.CodeNotFound "no record with this identifier".

Definition unavailable : connect.error :=
  connect.ConnectError connect.CodeUnavailable "connection refused".

(** A deployment service that fails every call with [err]. *)
Definition failing_deployment (err : connect.error) : DeploymentServiceClient :=
  {| CreateDNSRecord := fun _ => inr err;
     GetDNSRecord := fun _ => inr err;
     UpdateDNSRecord := fun _ => inr err;
     DeleteDNSRecord := fun _ => inr err;
     RegisterAWSACMCertificate := fun _ => inr err;
     GetAWSACMCertificate := fun _ => inr err;
     UpdateAWSACMCertificate := fun _ => inr err;
     DeregisterAWSACMCertificate := fun _ => inr err;
     RegisterNameservers := fun _ => inr err;
     GetDeployment := fun _ => inr err;
     SetTerraformOutput := fun _ => inr err;
     GetTerraformOutput := fun _ => inr err |}.

(** A token service that fails every call with [err]. *)
Definition failing_monitoring (err : connect.error) : monitoring.Client :=
  {| monitoring.CreateWriteToken := fun _ => inr err;
     monitoring.GetWriteToken := fun _ => inr err |}.

(** A plan or state that [Get] reads without complaint. *)
Definition readable {M : Type} (m : M) : tfsdk.Readable M :=
  {| tfsdk.Get_diags := []; tfsdk.Get_data := m |}.

(** A plan or state that [Get] rejects, leaving the target struct at
    its zero value. *)
Definition unreadable {M : Type} (zero : M) : tfsdk.Readable M :=
  {| tfsdk.Get_diags := [types.conversion_error]; tfsdk.Get_data := zero |}.

(** The response as the framework hands it over: no diagnostics yet,
    and the given state. *)
Definition fresh {M : Type} (st : option M) : Response M :=
  {| State := {| tfsdk.Raw := st |}; Diagnostics := [] |}.

Definition example_provider : DeploymentProvider := {| version := "0.1.0" |}.

Definition example_dns : DNSRecordResourceModel.t :=
  {| DNSRecordResourceModel.ID := types.StringValue "dns-1";
     DNSRecordResourceModel.Name := types.StringValue "www";
     DNSRecordResourceModel.Type_ := types.StringValue "CNAME";
     DNSRecordResourceModel.ZoneName := types.StringValue "example.com";
     DNSRecordResourceModel.Values :=
       types.SetValue [types.StringValue "target.example.com"] |}.

Definition example_certificate : AWSACMCertificateResourceModel.t :=
  {| AWSACMCertificateResourceModel.ID := types.StringValue "cert-1";
     AWSACMCertificateResourceModel.ARN :=
       types.StringValue "arn:aws:acm:us-east-1:123456789012:certificate/abc";
     AWSACMCertificateResourceModel.DomainName := types.StringValue "www.example.com";
     AWSACMCertificateResourceModel.ValidationCNameName := types.StringValue "_x.example.com";
     AWSACMCertificateResourceModel.ValidationCNameValue :=
       types.StringValue "_y.acm-validations.aws";
     AWSACMCertificateResourceModel.Status := types.StringValue "ISSUED" |}.

(** [var data AWSACMCertificateResourceModel]: every field null. *)
Definition zero_certificate : AWSACMCertificateResourceModel.t :=
  {| AWSACMCertificateResourceModel.ID := types.StringNull;
     AWSACMCertificateResourceModel.ARN := types.StringNull;
     AWSACMCertificateResourceModel.DomainName := types.StringNull;
     AWSACMCertificateResourceModel.ValidationCNameName := types.StringNull;
     AWSACMCertificateResourceModel.ValidationCNameValue := types.StringNull;
     AWSACMCertificateResourceModel.Status := types.StringNull |}.

(** [var data DNSRecordResourceModel]: every field null. *)
Definition zero_dns : DNSRecordResourceModel.t :=
  {| DNSRecordResourceModel.ID := types.StringNull;
     DNSRecordResourceModel.Name := types.StringNull;
     DNSRecordResourceModel.Type_ := types.StringNull;
     DNSRecordResourceModel.ZoneName := types.StringNull;
     DNSRecordResourceModel.Values := types.SetNull |}.

Definition example_token : MonitoringWriteTokenResourceModel.t :=
  {| MonitoringWriteTokenResourceModel.ID := types.StringValue "tok-1";
     MonitoringWriteTokenResourceModel.Token := types.StringValue "secret-1" |}.

(** The same token resource with another token value planned. *)
Definition example_token_changed : MonitoringWriteTokenResourceModel.t :=
  {| MonitoringWriteTokenResourceModel.ID := types.StringValue "tok-1";
     MonitoringWriteTokenResourceModel.Token := types.StringValue "secret-2" |}.

Definition example_nameservers : NameserversResourceModel.t :=
  {| NameserversResourceModel.Records :=
       types.SetValue [types.StringValue "ns1.example.com"; types.StringValue "ns2.example.com"] |}.

Definition example_deployment_config : DeploymentDataSourceModel.t :=
  {| DeploymentDataSourceModel.DNSZoneName := types.StringNull;
     DeploymentDataSourceModel.DefaultSubdomain := types.StringNull;
     DeploymentDataSourceModel.Id := types.StringNull |}.

(** A deployment service that knows one DNS record and one certificate
    and fails every other call with [unavailable]. *)
Definition serving_deployment : DeploymentServiceClient :=
  {| CreateDNSRecord := fun _ => inr unavailable;
     GetDNSRecord := fun _ =>
       inl {| deploymentv1alpha1.GetDNSRecordResponse.Record_ :=
                {| deploymentv1alpha1.DNSRecord.Id := "dns-1";
                   deploymentv1alpha1.DNSRecord.Values := ["other.example.com"] |} |};
     UpdateDNSRecord := fun _ => inr unavailable;
     DeleteDNSRecord := fun _ => inr unavailable;
     RegisterAWSACMCertificate := fun _ => inr unavailable;
     GetAWSACMCertificate := fun _ =>
       inl {| deploymentv1alpha1.GetAWSACMCertificateResponse.Certificate :=
                {| deploymentv1alpha1.AWSACMCertificate.Id := "cert-1";
                   deploymentv1alpha1.AWSACMCertificate.Arn := "arn:new";
                   deploymentv1alpha1.AWSACMCertificate.DomainName := "www.example.com";
                   deploymentv1alpha1.AWSACMCertificate.ValidationCnameName := "_x.example.com";
                   deploymentv1alpha1.AWSACMCertificate.ValidationCnameValue :=
                     "_y.acm-validations.aws";
                   deploymentv1alpha1.AWSACMCertificate.Status := "PENDING" |} |};
     UpdateAWSACMCertificate := fun _ => inr unavailable;
     DeregisterAWSACMCertificate := fun _ => inr unavailable;
     RegisterNameservers := fun _ => inr unavailable;
     GetDeployment := fun _ => inr unavailable;
     SetTerraformOutput := fun _ => inr unavailable;
     GetTerraformOutput := fun _ => inr unavailable |}.

(* ------------------------------------------------------------------ *)
(** ** Metadata: the type names

    [resp.TypeName = req.ProviderTypeName + suffix] *)

Record MetadataRequest : Type := { ProviderTypeName : string }.
Record MetadataResponse : Type := { TypeName : string }.

Definition DNSRecordResource_Metadata (req : MetadataRequest) : MetadataResponse :=
  {| TypeName := String.append (ProviderTypeName req) "_dns_record" |}.

Definition AWSACMCertificateResource_Metadata (req : MetadataRequest) : MetadataResponse :=
  {| TypeName := String.append (ProviderTypeName req) "_aws_acm_certificate" |}.

Definition NameserversResource_Metadata (req : MetadataRequest) : MetadataResponse :=
  {| TypeName := String.append (ProviderTypeName req) "_nameservers" |}.

Definition MonitoringWriteTokenResource_Metadata (req : MetadataRequest) : MetadataResponse :=
  {| TypeName := String.append (ProviderTypeName req) "_nameservers" |}.

Definition TerraformOutputResource_Metadata (req : MetadataRequest) : MetadataResponse :=
  {| TypeName := String.append (ProviderTypeName req) "_terraform_output" |}.

Definition DeploymentDataSource_Metadata (req : MetadataRequest) : MetadataResponse :=
  {| TypeName := String.append (ProviderTypeName req) "_deployment" |}.

Definition Resource_Metadata (i : resource_Resource) : MetadataRequest -> MetadataResponse :=
  match i with
  | Is_DNSRecordResource => DNSRecordResource_Metadata
  | Is_AWSACMCertificateResource => AWSACMCertificateResource_Metadata
  | Is_NameserversResource => NameserversResource_Metadata
  | Is_MonitoringWriteTokenResource => MonitoringWriteTokenResource_Metadata
  | Is_TerraformOutputResource => TerraformOutputResource_Metadata
  end.

(** [DeploymentProvider.Metadata] *)
Record provider_MetadataResponse : Type :=
  { provider_TypeName : string; provider_Version : string }.

Definition DeploymentProvider_Metadata (p : DeploymentProvider) : provider_MetadataResponse :=
  {| provider_TypeName := "deploymeta"; provider_Version := version p |}.

(** [New(version)]: the constructor of the provider. *)
Definition New (version_ : string) (_ : unit) : DeploymentProvider :=
  {| version := version_ |}.

(** [DeploymentProvider.Functions]: the provider defines none. *)
Definition DeploymentProvider_Functions (p : DeploymentProvider) : list (unit -> unit) := [].

(** Two implementations that report one type name: the write token
    answers with the nameservers' name. *)
Definition type_name_owner (i : resource_Resource) : resource_Resource :=
  match i with
  | Is_MonitoringWriteTokenResource => Is_NameserversResource
  | other => other
  end.

(* ------------------------------------------------------------------ *)
(** ** ImportState

    [resource.ImportStatePassthroughID(ctx, path.Root("id"), req, resp)]
    writes the identifier of the request to the "id" attribute of the
    response state.  The framework hands ImportState a null state, in
    which every other attribute then is null; a state that holds a value
    keeps its other attributes. *)










(* ------------------------------------------------------------------ *)
(** ** Requests by what they do to the remote service *)

(** The calls that only ask. *)
Definition is_get (c : Call) : bool :=
  match c with
  | Call_GetDNSRecord _ | Call_GetAWSACMCertificate _ | Call_GetDeployment
  | Call_GetTerraformOutput | Call_GetWriteToken _ => true
  | _ => false
  end.

(* ------------------------------------------------------------------ *)
(** ** Configure

    The provider loads a [*factoryconfig.Context] and hands it to every
    resource and data source as [ProviderData]; each of them builds its
    client from it.  The context type, [factoryconfig.Load] and the two
    [NewFromConfig] functions belong to the SDK and are left open. *)

Module factoryconfig.
Record Opts : Type :=
  { LicenceKey : string; DeploymentName : string; BaseURL : string; OIDCIssuer : string }.
End factoryconfig.

Module DeploymentProviderModel.
Record t : Type :=
  { BaseURL : types.String;
    OIDCIssuer : types.String;
    LicenceKey : types.String;
    DeploymentName : types.String }.
End DeploymentProviderModel.

(** A Go [any] as Configure sees it: nil, a [*factoryconfig.Context], or
    a value of some other type (named as [%T] prints it). *)
Inductive any (Context : Type) : Type :=
| any_nil
| any_Context (cfg : Context)
| any_other (T : string).
Arguments any_nil {Context}.
Arguments any_Context {Context} cfg.
Arguments any_other {Context} T.

Record ConfigureRequest (Context : Type) : Type := { ProviderData : any Context }.
Arguments ProviderData {Context} _.

Record provider_ConfigureRequest : Type :=
  { provider_Config : tfsdk.Config DeploymentProviderModel.t }.

Record provider_ConfigureResponse (Context : Type) : Type :=
  { DataSourceData : any Context;
    ResourceData : any Context;
    provider_Diagnostics : diag.Diagnostics }.
Arguments DataSourceData {Context} _.
Arguments ResourceData {Context} _.
Arguments provider_Diagnostics {Context} _.

Section Configure.

Variable Context : Type.
Variable factoryconfig_Load : factoryconfig.Opts -> connect.Result Context.
Variable deployment_NewFromConfig : Context -> DeploymentServiceClient.
Variable monitoring_NewFromConfig : Context -> monitoring.Client.

(** The body the four deployment-service resources share, with the
    summary of the error as the one thing that varies: the client field
    before, the request and the diagnostics so far give the client field
    and the diagnostics after. *)
Definition configure_with {Client : Type} (NewFromConfig : Context -> Client)
    (summary : string) (client : option Client)
    (req : ConfigureRequest Context) (diags : diag.Diagnostics)
  : option Client * diag.Diagnostics :=
  match ProviderData req with
  | any_nil => (client, diags)
  | any_Context cfg => (Some (NewFromConfig cfg), diags)
  | any_other T =>
      (client,
       diag.AddError diags summary
         (String.append "Expected *factoryconfig.Context, got: "
            (String.append T ". Please report this issue to the provider developers.")))
  end.

Definition DNSRecordResource_Configure :=
  configure_with deployment_NewFromConfig "Unexpected Resource Configure Type".

Definition AWSACMCertificateResource_Configure :=
  configure_with deployment_NewFromConfig "Unexpected Resource Configure Type".

Definition NameserversResource_Configure :=
  configure_with deployment_NewFromConfig "Unexpected Resource Configure Type".

Definition MonitoringWriteTokenResource_Configure :=
  configure_with monitoring_NewFromConfig "Unexpected Resource Configure Type".

Definition TerraformOutputResource_Configure :=
  configure_with deployment_NewFromConfig "Unexpected Resource Configure Type".

Definition DeploymentDataSource_Configure :=
  configure_with deployment_NewFromConfig "Unexpected Data Source Configure Type".

(** [DeploymentProvider.Configure]; the second component is the list of
    options [factoryconfig.Load] was called with. *)
Definition DeploymentProvider_Configure (p : DeploymentProvider)
    (req : provider_ConfigureRequest) (resp : provider_ConfigureResponse Context)
  : provider_ConfigureResponse Context * list factoryconfig.Opts :=
  let (diags, data) := tfsdk.Get (provider_Config req) in
  let resp :=
    {| DataSourceData := DataSourceData resp;
       ResourceData := ResourceData resp;
       provider_Diagnostics := diag.Append (provider_Diagnostics resp) diags |} in
  if diag.HasError (provider_Diagnostics resp) then (resp, []) else
  let opts :=
    {| factoryconfig.LicenceKey :=
         types.ValueString (DeploymentProviderModel.LicenceKey data);
       factoryconfig.DeploymentName :=
         types.ValueString (DeploymentProviderModel.DeploymentName data);
       factoryconfig.BaseURL := types.ValueString (DeploymentProviderModel.BaseURL data);
       factoryconfig.OIDCIssuer :=
         types.ValueString (DeploymentProviderModel.OIDCIssuer data) |} in
  match factoryconfig_Load opts with
  | inr err =>
      ({| DataSourceData := DataSourceData resp;
          ResourceData := ResourceData resp;
          provider_Diagnostics :=
            diag.AddError (provider_Diagnostics resp)
              "Error loading Common Fate deployment configuration" (connect.Error err) |},
       [opts])
  | inl cfg =>
      ({| DataSourceData := any_Context cfg;
          ResourceData := any_Context cfg;
          provider_Diagnostics := provider_Diagnostics resp |},
       [opts])
  end.

(** The client each implementation holds once the framework has passed
    it the provider's [ResourceData]. *)
Definition Resource_Configure (i : resource_Resource)
    (req : ConfigureRequest Context) (diags : diag.Diagnostics)
  : option (Receiver i) * diag.Diagnostics :=
  match i return option (Receiver i) * diag.Diagnostics with
  | Is_DNSRecordResource =>
      let (c, ds) := DNSRecordResource_Configure None req diags in
      (option_map (fun c => {| DNSRecordResource_client := c |}) c, ds)
  | Is_AWSACMCertificateResource =>
      let (c, ds) := AWSACMCertificateResource_Configure None req diags in
      (option_map (fun c => {| AWSACMCertificateResource_client := c |}) c, ds)
  | Is_NameserversResource =>
      let (c, ds) := NameserversResource_Configure None req diags in
      (option_map (fun c => {| NameserversResource_client := c |}) c, ds)
  | Is_MonitoringWriteTokenResource =>
      let (c, ds) := MonitoringWriteTokenResource_Configure None req diags in
      (option_map (fun c => {| MonitoringWriteTokenResource_client := c |}) c, ds)
  | Is_TerraformOutputResource =>
      let (c, ds) := TerraformOutputResource_Configure None req diags in
      (option_map (fun c => {| TerraformOutputResource_client := c |}) c, ds)
  end.

End Configure.

(* ------------------------------------------------------------------ *)
(** ** More concrete inputs *)

Definition example_output : TerraformOutputResourceModel.t :=
  {| TerraformOutputResourceModel.SAMLSSOACSURL := types.StringValue "https://auth.example.com/saml2/idpresponse";
     TerraformOutputResourceModel.SAMLSSOEntityID := types.StringValue "urn:amazon:cognito:sp:pool-1";
     TerraformOutputResourceModel.CognitoUserPoolID := types.StringValue "pool-1";
     TerraformOutputResourceModel.DNSCNAMERecordForAppDomain := types.StringValue "app.example.com";
     TerraformOutputResourceModel.DNSCNAMERecordForAuthDomain := types.StringValue "auth.example.com";
     TerraformOutputResourceModel.WebClientID := types.StringValue "web";
     TerraformOutputResourceModel.CLIClientID := types.StringValue "cli";
     TerraformOutputResourceModel.TerraformClientID := types.StringValue "terraform";
     TerraformOutputResourceModel.ReadOnlyClientID := types.StringValue "read-only";
     TerraformOutputResourceModel.ProvisionerClientID := types.StringValue "provisioner";
     TerraformOutputResourceModel.VPCID := types.StringValue "vpc-1" |}.

(** [example_dns] renamed, with its type in lower case. *)
Definition example_dns_lowercase : DNSRecordResourceModel.t :=
  {| DNSRecordResourceModel.ID := types.StringValue "dns-1";
     DNSRecordResourceModel.Name := types.StringValue "www2";
     DNSRecordResourceModel.Type_ := types.StringValue "cname";
     DNSRecordResourceModel.ZoneName := types.StringValue "example.com";
     DNSRecordResourceModel.Values :=
       types.SetValue [types.StringValue "target.example.com"] |}.

(** A certificate as planned: the identifier is not known yet. *)
Definition example_certificate_plan : AWSACMCertificateResourceModel.t :=
  {| AWSACMCertificateResourceModel.ID := types.StringUnknown;
     AWSACMCertificateResourceModel.ARN :=
       types.StringValue "arn:aws:acm:us-east-1:123456789012:certificate/abc";
     AWSACMCertificateResourceModel.DomainName := types.StringValue "www.example.com";
     AWSACMCertificateResourceModel.ValidationCNameName := types.StringValue "_x.example.com";
     AWSACMCertificateResourceModel.ValidationCNameValue :=
       types.StringValue "_y.acm-validations.aws";
     AWSACMCertificateResourceModel.Status := types.StringValue "ISSUED" |}.

(** The certificate message with the fields of a register request under
    the identifier [id]. *)
Definition registered_as (id : string)
    (m : deploymentv1alpha1.RegisterAWSACMCertificateRequest.t)
  : deploymentv1alpha1.AWSACMCertificate.t :=
  {| deploymentv1alpha1.AWSACMCertificate.Id := id;
     deploymentv1alpha1.AWSACMCertificate.Arn :=
       deploymentv1alpha1.RegisterAWSACMCertificateRequest.Arn m;
     deploymentv1alpha1.AWSACMCertificate.DomainName :=
       deploymentv1alpha1.RegisterAWSACMCertificateRequest.DomainName m;
     deploymentv1alpha1.AWSACMCertificate.ValidationCnameName :=
       deploymentv1alpha1.RegisterAWSACMCertificateRequest.ValidationCnameName m;
     deploymentv1alpha1.AWSACMCertificate.ValidationCnameValue :=
       deploymentv1alpha1.RegisterAWSACMCertificateRequest.ValidationCnameValue m;
     deploymentv1alpha1.AWSACMCertificate.Status :=
       deploymentv1alpha1.RegisterAWSACMCertificateRequest.Status m |}.

(** The register request Create builds from a certificate model. *)
Definition RegisterAWSACMCertificateRequest_of (data : AWSACMCertificateResourceModel.t)
  : deploymentv1alpha1.RegisterAWSACMCertificateRequest.t :=
  {| deploymentv1alpha1.RegisterAWSACMCertificateRequest.Arn :=
       types.ValueString (AWSACMCertificateResourceModel.ARN data);
     deploymentv1alpha1.RegisterAWSACMCertificateRequest.DomainName :=
       types.ValueString (AWSACMCertificateResourceModel.DomainName data);
     deploymentv1alpha1.RegisterAWSACMCertificateRequest.ValidationCnameName :=
       types.ValueString (AWSACMCertificateResourceModel.ValidationCNameName data);
     deploymentv1alpha1.RegisterAWSACMCertificateRequest.ValidationCnameValue :=
       types.ValueString (AWSACMCertificateResourceModel.ValidationCNameValue data);
     deploymentv1alpha1.RegisterAWSACMCertificateRequest.Status :=
       types.ValueString (AWSACMCertificateResourceModel.Status data) |}.

(** A deployment service that registers every certificate as "cert-7",
    answers the get of a certificate with the planned example under the
    identifier asked for, accepts nameservers and outputs, and reports
    the nameservers of the example. *)
Definition registering_deployment : DeploymentServiceClient :=
  {| CreateDNSRecord := fun m =>
       inl {| deploymentv1alpha1.CreateDNSRecordResponse.Created :=
                {| deploymentv1alpha1.DNSRecord.Id := "dns-7";
                   deploymentv1alpha1.DNSRecord.Values :=
                     deploymentv1alpha1.CreateDNSRecordRequest.Values m |} |};
     GetDNSRecord := fun m =>
       inl {| deploymentv1alpha1.GetDNSRecordResponse.Record_ :=
                {| deploymentv1alpha1.DNSRecord.Id :=
                     deploymentv1alpha1.GetDNSRecordRequest.Id m;
                   deploymentv1alpha1.DNSRecord.Values := ["target.example.com"] |} |};
     UpdateDNSRecord := fun _ => inr unavailable;
     DeleteDNSRecord := fun _ => inl tt;
     RegisterAWSACMCertificate := fun m =>
       inl {| deploymentv1alpha1.RegisterAWSACMCertificateResponse.Certificate :=
                registered_as "cert-7" m |};
     GetAWSACMCertificate := fun m =>
       inl {| deploymentv1alpha1.GetAWSACMCertificateResponse.Certificate :=
                registered_as (deploymentv1alpha1.GetAWSACMCertificateRequest.Id m)
                  (RegisterAWSACMCertificateRequest_of example_certificate_plan) |};
     UpdateAWSACMCertificate := fun _ => inr unavailable;
     DeregisterAWSACMCertificate := fun _ => inl tt;
     RegisterNameservers := fun _ => inl tt;
     GetDeployment := fun _ =>
       inl {| deploymentv1alpha1.GetDeploymentResponse.Deployment_ :=
                {| deploymentv1alpha1.Deployment.Id := "dep-1";
                   deploymentv1alpha1.Deployment.DnsZoneName := "example.com";
                   deploymentv1alpha1.Deployment.DefaultSubdomain := "dev";
                   deploymentv1alpha1.Deployment.Nameservers :=
                     ["ns1.example.com"; "ns2.example.com"] |} |};
     SetTerraformOutput := fun _ => inl tt;
     GetTerraformOutput := fun _ => inr unavailable |}.

(** A [types.String] that holds a value (neither null nor unknown). *)
Definition is_known (v : types.String) : bool :=
  match v with
  | types.StringValue _ => true
  | types.StringNull | types.StringUnknown => false
  end.

(** Every field a certificate plan sends to the remote service is known. *)
Definition certificate_fields_known (data : AWSACMCertificateResourceModel.t) : bool :=
  is_known (AWSACMCertificateResourceModel.ARN data)
  && is_known (AWSACMCertificateResourceModel.DomainName data)
  && is_known (AWSACMCertificateResourceModel.ValidationCNameName data)
  && is_known (AWSACMCertificateResourceModel.ValidationCNameValue data)
  && is_known (AWSACMCertificateResourceModel.Status data).

(** [example_dns] with the values [serving_deployment] reports. *)
Definition example_dns_observed : DNSRecordResourceModel.t :=
  {| DNSRecordResourceModel.ID := types.StringValue "dns-1";
     DNSRecordResourceModel.Name := types.StringValue "www";
     DNSRecordResourceModel.Type_ := types.StringValue "CNAME";
     DNSRecordResourceModel.ZoneName := types.StringValue "example.com";
     DNSRecordResourceModel.Values :=
       types.SetValue [types.StringValue "other.example.com"] |}.

(** The response the framework hands to the provider's Configure:
    nothing set, no diagnostics. *)
Definition fresh_configure (Context : Type) : provider_ConfigureResponse Context :=
  {| DataSourceData := any_nil; ResourceData := any_nil; provider_Diagnostics := [] |}.

(** Every field of a Terraform output model is known. *)
Definition output_fields_known (data : TerraformOutputResourceModel.t) : bool :=
  is_known (TerraformOutputResourceModel.SAMLSSOACSURL data)
  && is_known (TerraformOutputResourceModel.SAMLSSOEntityID data)
  && is_known (TerraformOutputResourceModel.CognitoUserPoolID data)
  && is_known (TerraformOutputResourceModel.DNSCNAMERecordForAppDomain data)
  && is_known (TerraformOutputResourceModel.DNSCNAMERecordForAuthDomain data)
  && is_known (TerraformOutputResourceModel.WebClientID data)
  && is_known (TerraformOutputResourceModel.CLIClientID data)
  && is_known (TerraformOutputResourceModel.TerraformClientID data)
  && is_known (TerraformOutputResourceModel.ReadOnlyClientID data)
  && is_known (TerraformOutputResourceModel.ProvisionerClientID data)
  && is_known (TerraformOutputResourceModel.VPCID data).

(** A deployment service that stores the example output: it accepts
    every set request and answers the get with the output Create sends
    for [example_output]. *)
Definition output_deployment : DeploymentServiceClient :=
  {| CreateDNSRecord := fun _ => inr unavailable;
     GetDNSRecord := fun _ => inr unavailable;
     UpdateDNSRecord := fun _ => inr unavailable;
     DeleteDNSRecord := fun _ => inr unavailable;
     RegisterAWSACMCertificate := fun _ => inr unavailable;
     GetAWSACMCertificate := fun _ => inr unavailable;
     UpdateAWSACMCertificate := fun _ => inr unavailable;
     DeregisterAWSACMCertificate := fun _ => inr unavailable;
     RegisterNameservers := fun _ => inr unavailable;
     GetDeployment := fun _ => inr unavailable;
     SetTerraformOutput := fun _ => inl tt;
     GetTerraformOutput := fun _ =>
       inl {| deploymentv1alpha1.GetTerraformOutputResponse.Output :=
                deploymentv1alpha1.SetTerraformOutputRequest.Output
                  (SetTerraformOutputRequest_of example_output) |} |}.

(** What Configure owes its caller, for a function [f] from the client
    field before, the request and the diagnostics so far to the client
    field and the diagnostics after: an error is reported exactly when
    one was there or the provider data are of a foreign type; the client
    changes only to the one built from a context handed over; no
    diagnostic is lost; a foreign type is answered with an error under
    [summary] and an unchanged client. *)
Definition Configure_contract {Context Client : Type}
    (f : option Client -> ConfigureRequest Context -> diag.Diagnostics
         -> option Client * diag.Diagnostics)
    (NewFromConfig : Context -> Client) (summary : string) : Prop :=
  forall client req diags,
    (diag.HasError (snd (f client req diags)) = true
     <-> diag.HasError diags = true \/ exists T, ProviderData req = any_other T)
    /\ (fst (f client req diags) = client
        \/ exists cfg, ProviderData req = any_Context cfg
                       /\ fst (f client req diags) = Some (NewFromConfig cfg))
    /\ incl diags (snd (f client req diags))
    /\ (forall T, ProviderData req = any_other T ->
          reports_error (snd (f client req diags)) summary
          /\ fst (f client req diags) = client).

(* ------------------------------------------------------------------ *)
(** ** Schema

    [schema.Schema.Attributes] is a Go map from attribute name to
    attribute; it is kept as the list of its entries.  An attribute is a
    [schema.StringAttribute] or a [schema.SetAttribute] of strings, with
    the flags the provider sets (a flag left out is false). *)

Module schema.

Inductive AttributeType : Type := StringType | SetType_of_String.

Inductive PlanModifier : Type := UseStateForUnknown.

Record Attribute : Type :=
  { Type_ : AttributeType;
    MarkdownDescription : string;
    Required : bool;
    Optional : bool;
    Computed : bool;
    Sensitive : bool;
    PlanModifiers : list PlanModifier }.

Record Schema : Type :=
  { Schema_MarkdownDescription : string; Attributes : list (string * Attribute) }.

Definition StringAttribute (description : string) (required optional computed sensitive : bool)
    (modifiers : list PlanModifier) : Attribute :=
  {| Type_ := StringType; MarkdownDescription := description; Required := required;
     Optional := optional; Computed := computed; Sensitive := sensitive;
     PlanModifiers := modifiers |}.

Definition SetAttribute (description : string) (required : bool) : Attribute :=
  {| Type_ := SetType_of_String; MarkdownDescription := description; Required := required;
     Optional := false; Computed := false; Sensitive := false; PlanModifiers := [] |}.

End schema.

Definition required_string (description : string) : schema.Attribute :=
  schema.StringAttribute description true false false false [].

Definition computed_string (description : string) : schema.Attribute :=
  schema.StringAttribute description false false true false [].

Definition DNSRecordResource_Schema : schema.Schema :=
  {| schema.Schema_MarkdownDescription := "Registers DNS records for a Common Fate deployment.";
     schema.Attributes :=
       [ ("id", computed_string "The DNS record ID");
         ("name", required_string "The DNS record name");
         ("zone_name", required_string "The DNS zone name");
         ("type", required_string "The DNS record type. Must be one of ['TXT', 'CNAME']");
         ("values", schema.SetAttribute "The DNS record values" true) ] |}.

Definition AWSACMCertificateResource_Schema : schema.Schema :=
  {| schema.Schema_MarkdownDescription :=
       "Registers an AWS ACM certificate for a Common Fate deployment.";
     schema.Attributes :=
       [ ("id", schema.StringAttribute "The certificate ID" false false true false
                  [schema.UseStateForUnknown]);
         ("arn", required_string "The Amazon Resource Name (ARN) of the certificate");
         ("domain_name",
          required_string "The domain name for the certificate, for example: 'www.example.com'");
         ("validation_cname_name", required_string "The CNAME name used for domain validation");
         ("validation_cname_value", required_string "The CNAME value used for domain validation");
         ("status", required_string "The status of the certificate") ] |}.

Definition NameserversResource_Schema : schema.Schema :=
  {| schema.Schema_MarkdownDescription :=
       "Registers DNS nameservers for the Common Fate deployment default deployment domain.";
     schema.Attributes :=
       [ ("ns_records",
          schema.SetAttribute "The NS records to associate with the deployment." true) ] |}.

Definition MonitoringWriteTokenResource_Schema : schema.Schema :=
  {| schema.Schema_MarkdownDescription :=
       "A write token used to send events to Common Fate's centralised monitoring service.";
     schema.Attributes :=
       [ ("token", schema.StringAttribute "The write token" false false true true
                     [schema.UseStateForUnknown]);
         ("id", schema.StringAttribute "The token ID" false false true false
                  [schema.UseStateForUnknown]) ] |}.

Definition TerraformOutputResource_Schema : schema.Schema :=
  {| schema.Schema_MarkdownDescription :=
       "Registers Terraform outputs for a Common Fate deployment.";
     schema.Attributes :=
       [ ("saml_sso_acs_url", required_string "The SAML SSO ACS URL");
         ("saml_sso_entity_id", required_string "The SAML SSO Entity ID");
         ("cognito_user_pool_id", required_string "The Cognito user pool ID");
         ("dns_cname_record_for_app_domain",
          required_string "The DNS CNAME record for the app domain");
         ("dns_cname_record_for_auth_domain",
          required_string "The DNS CNAME record for the auth domain");
         ("web_client_id", required_string "The web console client ID");
         ("cli_client_id", required_string "The CLI client ID");
         ("terraform_client_id", required_string "The Terraform client ID");
         ("read_only_client_id", required_string "The Read-Only client ID");
         ("provisioner_client_id", required_string "The Provisioner client ID");
         ("vpc_id", required_string "The VPC ID") ] |}.

Definition DeploymentDataSource_Schema : schema.Schema :=
  {| schema.Schema_MarkdownDescription := "Metadata about the current Common Fate deployment.";
     schema.Attributes :=
       [ ("id", computed_string "The deployment ID");
         ("dns_zone_name",
          computed_string "The default DNS zone name associated with the deployment");
         ("default_subdomain",
          computed_string "The default DNS subdomain associated with the deployment") ] |}.

Definition DeploymentProvider_Schema : schema.Schema :=
  {| schema.Schema_MarkdownDescription := "";
     schema.Attributes :=
       [ ("base_url",
          schema.StringAttribute
            "The Common Fate Factory base URL. Defaults to https://factory.commonfate.io."
            false true false false []);
         ("oidc_issuer",
          schema.StringAttribute
            "The Common Fate Factory OIDC issuer. Defaults to https://factory.commonfate.io."
            false true false false []);
         ("licence_key", required_string "The Common Fate licence key.");
         ("deployment_name", required_string "The Common Fate deployment name.") ] |}.

Definition Resource_Schema (i : resource_Resource) : schema.Schema :=
  match i with
  | Is_DNSRecordResource => DNSRecordResource_Schema
  | Is_AWSACMCertificateResource => AWSACMCertificateResource_Schema
  | Is_NameserversResource => NameserversResource_Schema
  | Is_MonitoringWriteTokenResource => MonitoringWriteTokenResource_Schema
  | Is_TerraformOutputResource => TerraformOutputResource_Schema
  end.

(** The [tfsdk:"..."] tags of a model struct, in field order, each with
    the attribute type its Go field type stands for ([types.String],
    [types.Set]). *)
Definition Model_tags (i : resource_Resource) : list (string * schema.AttributeType) :=
  match i with
  | Is_DNSRecordResource =>
      [ ("id", schema.StringType); ("name", schema.StringType); ("type", schema.StringType);
        ("zone_name", schema.StringType); ("values", schema.SetType_of_String) ]
  | Is_AWSACMCertificateResource =>
      [ ("id", schema.StringType); ("arn", schema.StringType);
        ("domain_name", schema.StringType); ("validation_cname_name", schema.StringType);
        ("validation_cname_value", schema.StringType); ("status", schema.StringType) ]
  | Is_NameserversResource => [ ("ns_records", schema.SetType_of_String) ]
  | Is_MonitoringWriteTokenResource =>
      [ ("id", schema.StringType); ("token", schema.StringType) ]
  | Is_TerraformOutputResource =>
      [ ("saml_sso_acs_url", schema.StringType); ("saml_sso_entity_id", schema.StringType);
        ("cognito_user_pool_id", schema.StringType);
        ("dns_cname_record_for_app_domain", schema.StringType);
        ("dns_cname_record_for_auth_domain", schema.StringType);
        ("web_client_id", schema.StringType); ("cli_client_id", schema.StringType);
        ("terraform_client_id", schema.StringType); ("read_only_client_id", schema.StringType);
        ("provisioner_client_id", schema.StringType); ("vpc_id", schema.StringType) ]
  end.

Definition DeploymentDataSourceModel_tags : list (string * schema.AttributeType) :=
  [ ("dns_zone_name", schema.StringType); ("default_subdomain", schema.StringType);
    ("id", schema.StringType) ].

Definition DeploymentProviderModel_tags : list (string * schema.AttributeType) :=
  [ ("base_url", schema.StringType); ("oidc_issuer", schema.StringType);
    ("licence_key", schema.StringType); ("deployment_name", schema.StringType) ].

(** The typed attribute names a schema declares. *)
Definition declared (s : schema.Schema) : list (string * schema.AttributeType) :=
  map (fun na => (fst na, schema.Type_ (snd na))) (schema.Attributes s).

(** A DNS record whose values are not known yet. *)
Definition example_dns_unknown_values : DNSRecordResourceModel.t :=
  {| DNSRecordResourceModel.ID := types.StringValue "dns-1";
     DNSRecordResourceModel.Name := types.StringValue "www";
     DNSRecordResourceModel.Type_ := types.StringValue "CNAME";
     DNSRecordResourceModel.ZoneName := types.StringValue "example.com";
     DNSRecordResourceModel.Values := types.SetUnknown |}.

(** A deployment service that accepts every update of a certificate and
    answers with the certificate it was sent. *)
Definition updating_deployment : DeploymentServiceClient :=
  {| CreateDNSRecord := fun _ => inr unavailable;
     GetDNSRecord := fun _ => inr unavailable;
     UpdateDNSRecord := fun _ => inr unavailable;
     DeleteDNSRecord := fun _ => inr unavailable;
     RegisterAWSACMCertificate := fun _ => inr unavailable;
     GetAWSACMCertificate := fun _ => inr unavailable;
     UpdateAWSACMCertificate := fun m =>
       inl {| deploymentv1alpha1.UpdateAWSACMCertificateResponse.Certificate :=
                deploymentv1alpha1.UpdateAWSACMCertificateRequest.Certificate m |};
     DeregisterAWSACMCertificate := fun _ => inr unavailable;
     RegisterNameservers := fun _ => inr unavailable;
     GetDeployment := fun _ => inr unavailable;
     SetTerraformOutput := fun _ => inr unavailable;
     GetTerraformOutput := fun _ => inr unavailable |}.

(* ------------------------------------------------------------------ *)
(** ** Facts about diagnostics *)

Lemma Equal_Severity (a b : diag.Diagnostic) :
  diag.Equal a b = true -> diag.Severity_ a = diag.Severity_ b.
Proof.
  unfold diag.Equal. intros H.
  apply andb_prop in H. destruct H as [H _].
  apply andb_prop in H. destruct H as [H _].
  destruct (diag.Severity_ a), (diag.Severity_ b); simpl in H; congruence.
Qed.

Lemma Equal_eq (a b : diag.Diagnostic) : diag.Equal a b = true -> a = b.
Proof.
  intros H. pose proof (Equal_Severity _ _ H) as Hs.
  unfold diag.Equal in H.
  apply andb_prop in H. destruct H as [H Hd].
  apply andb_prop in H. destruct H as [_ Hm].
  apply String.eqb_eq in Hd. apply String.eqb_eq in Hm.
  destruct a, b; simpl in *. congruence.
Qed.

Lemma Contains_In (ds : diag.Diagnostics) (d : diag.Diagnostic) :
  diag.Contains ds d = true -> In d ds.
Proof.
  unfold diag.Contains. intros H.
  apply existsb_exists in H. destruct H as [x [Hin Heq]].
  apply Equal_eq in Heq. subst. exact Hin.
Qed.

Lemma HasError_In (ds : diag.Diagnostics) (d : diag.Diagnostic) :
  In d ds -> diag.Severity_ d = diag.SeverityError -> diag.HasError ds = true.
Proof.
  intros Hin Hs. unfold diag.HasError. apply existsb_exists.
  exists d. split; [exact Hin | rewrite Hs; reflexivity].
Qed.

Lemma HasError_app (a b : diag.Diagnostics) :
  diag.HasError (a ++ b) = diag.HasError a || diag.HasError b.
Proof. unfold diag.HasError. apply existsb_app. Qed.

Lemma HasError_Append (ds new : diag.Diagnostics) :
  diag.HasError (diag.Append ds new) = diag.HasError ds || diag.HasError new.
Proof.
  revert ds. induction new as [|d rest IH]; intros ds; simpl.
  - now rewrite orb_false_r.
  - rewrite IH. destruct (diag.Contains ds d) eqn:Hc.
    + destruct (diag.Severity_eqb (diag.Severity_ d) diag.SeverityError) eqn:Hs; simpl.
      * rewrite (HasError_In ds d); [reflexivity | now apply Contains_In |].
        destruct (diag.Severity_ d); [reflexivity | discriminate].
      * reflexivity.
    + rewrite HasError_app. simpl. rewrite orb_false_r. now rewrite orb_assoc.
Qed.

Lemma AddError_In (ds : diag.Diagnostics) (summary detail : string) :
  In (diag.NewErrorDiagnostic summary detail) (diag.AddError ds summary detail).
Proof.
  unfold diag.AddError. simpl.
  destruct (diag.Contains ds _) eqn:Hc.
  - now apply Contains_In.
  - apply in_or_app. right. now left.
Qed.

Lemma HasError_AddError (ds : diag.Diagnostics) (summary detail : string) :
  diag.HasError (diag.AddError ds summary detail) = true.
Proof.
  apply (HasError_In _ (diag.NewErrorDiagnostic summary detail)).
  - apply AddError_In.
  - reflexivity.
Qed.

Lemma AddError_reports (ds : diag.Diagnostics) (summary detail : string) :
  reports_error (diag.AddError ds summary detail) summary.
Proof.
  exists (diag.NewErrorDiagnostic summary detail).
  split; [apply AddError_In | split; reflexivity].
Qed.

Lemma Append_nil (ds : diag.Diagnostics) : diag.Append ds [] = ds.
Proof. reflexivity. Qed.

(* ------------------------------------------------------------------ *)
(** ** Registration *)

(** C1, as the code has it: whatever its version, the provider registers a
    constructor for exactly two of the six kinds, the nameserver set (in
    [Resources]) and the deployment metadata (in [DataSources]).  The
    DNS record, certificate, write token and output bundle constructors
    exist in the package but are not returned by [Resources]. *)
Theorem C1_registered_kinds (p : DeploymentProvider) (k : Kind) :
  exposes p k =
  match k with
  | NameserverSet | DeploymentMetadata => true
  | DNSRecord | AWSCertificateRecord | MonitoringWriteToken | OutputBundle => false
  end.
Proof. destruct k; reflexivity. Qed.

(** C1, counterexample to "all six kinds are exposed": the DNS record
    kind has no constructor among the registered resources. *)
Lemma C1_dns_record_not_registered :
  exposes example_provider DNSRecord = false
  /\ map (fun new => new tt) (DeploymentProvider_Resources example_provider)
     = [Is_NameserversResource].
Proof. split; reflexivity. Qed.

(* ------------------------------------------------------------------ *)
(** ** Delete without a remote call *)

(** C4: Delete of the nameserver set, the monitoring write token and the
    output bundle hands the response back as it came (no diagnostic
    added, state untouched) and sends nothing to the remote service,
    whatever the client, the prior state and the incoming response. *)
Theorem C4_local_noop_delete :
  (forall r req resp, NameserversResource_Delete r req resp = (resp, []))
  /\ (forall r req resp, MonitoringWriteTokenResource_Delete r req resp = (resp, []))
  /\ (forall r req resp, TerraformOutputResource_Delete r req resp = (resp, [])).
Proof. repeat split. Qed.

(* ------------------------------------------------------------------ *)
(** ** Proof steps shared by the operations *)

(** Case analysis along the control flow of an operation whose result
    is named by the equation [H]: the destructuring of a pair a call
    returned, an early return on [HasError], the result of the remote
    call. *)
Ltac branch_in H :=
  match type of H with
  | context [let (_, _) := ?p in _] => destruct p eqn:?
  | context [if ?b then _ else _] => destruct b eqn:?
  | context [match ?r with inl _ => _ | inr _ => _ end] => destruct r eqn:?
  | context [match ?o with Some _ => _ | None => _ end] => destruct o eqn:?
  end.

Ltac fields :=
  cbn [CreateRequest_Plan ReadRequest_State UpdateRequest_Plan UpdateRequest_State
       DeleteRequest_State datasource.ReadRequest_Config tfsdk.Get_diags tfsdk.Get_data
       DNSRecordResource_client AWSACMCertificateResource_client
       NameserversResource_client MonitoringWriteTokenResource_client
       TerraformOutputResource_client DeploymentDataSource_client
       types.SetValueFrom fst snd] in *.

Ltac run_in H :=
  cbn beta iota zeta delta [tfsdk.Get fst snd sent] in H; fields;
  repeat (branch_in H; cbn beta iota zeta in H; fields).

(** Rewrite with the equations the case analysis left behind. *)
Ltac use_eqs :=
  repeat match goal with
         | H : ?x = _ |- context [?x] => rewrite H
         end.

(** Name the result of the operation [op] in the goal, unfold [op] and
    split along its control flow; every case comes back with the result
    replaced by what that path returns. *)
Ltac exec op :=
  match goal with
  | |- context [op ?r ?req ?resp] =>
      let out := fresh "out" in
      let Hout := fresh "Hout" in
      remember (op r req resp) as out eqn:Hout;
      unfold op in Hout; run_in Hout; subst out; cbn [fst snd]
  end.

(** Push the known results of calls and tests into the equations of the
    current path, so that an impossible path shows as [true = false]. *)
Ltac known :=
  repeat match goal with
         | H : ?x = inl _, H' : context [?x] |- _ => rewrite H in H'
         | H : ?x = inr _, H' : context [?x] |- _ => rewrite H in H'
         end;
  repeat match goal with
         | H : inl _ = inl _ |- _ => injection H as H; subst
         | H : inr _ = inr _ |- _ => injection H as H; subst
         | H : inl _ = inr _ |- _ => discriminate H
         | H : inr _ = inl _ |- _ => discriminate H
         end;
  cbn [connect.err_of] in *;
  repeat match goal with
         | H : connect.CodeOf ?x = _, H' : context [connect.CodeOf ?x] |- _ =>
             rewrite H in H'
         end;
  cbn [connect.CodeOf connect.Code_eqb connect.Code_value Nat.eqb] in *.

(** Bring responses to their two fields and diagnostics to [diag]'s
    own operations. *)
Ltac settle :=
  unfold Diagnostics_HasError in *;
  cbn [State Diagnostics Diagnostics_AddError Diagnostics_Append State_Set
       State_RemoveResource tfsdk.Set_ tfsdk.RemoveResource tfsdk.Raw] in *;
  rewrite ?Append_nil in *;
  rewrite ?HasError_AddError.

(* ------------------------------------------------------------------ *)
(** ** Update as a second Create *)

(** C5: for the nameserver set and the output bundle, Update on a plan is
    Create on that plan: given the same incoming response they return
    the same response and the same trace.  Every request either of them
    sends is the create-equivalent call (RegisterNameservers,
    SetTerraformOutput) carrying the payload built from the plan, and
    the state afterwards is the planned record when no error is
    reported, the incoming state otherwise. *)
Theorem C5_update_is_create :
  (forall r plan prior resp,
      let out :=
        NameserversResource_Update r
          {| UpdateRequest_Plan := plan; UpdateRequest_State := prior |} resp in
      out = NameserversResource_Create r {| CreateRequest_Plan := plan |} resp
      /\ Forall (fun ev =>
           Sent ev =
           Call_RegisterNameservers
             {| deploymentv1alpha1.RegisterNameserversRequest.Nameservers :=
                  snd (types.ElementsAs
                         (NameserversResourceModel.Records (tfsdk.Get_data plan))) |})
           (snd out)
      /\ State (fst out) =
         (if Diagnostics_HasError (fst out) then State resp
          else {| tfsdk.Raw := Some (tfsdk.Get_data plan) |}))
  /\ (forall r plan prior resp,
      let out :=
        TerraformOutputResource_Update r
          {| UpdateRequest_Plan := plan; UpdateRequest_State := prior |} resp in
      out = TerraformOutputResource_Create r {| CreateRequest_Plan := plan |} resp
      /\ Forall (fun ev =>
           Sent ev = Call_SetTerraformOutput (SetTerraformOutputRequest_of (tfsdk.Get_data plan)))
           (snd out)
      /\ State (fst out) =
         (if Diagnostics_HasError (fst out) then State resp
          else {| tfsdk.Raw := Some (tfsdk.Get_data plan) |})).
Proof.
  split; intros r plan prior resp out; subst out.
  - split; [reflexivity|]. split.
    + exec NameserversResource_Update; repeat constructor.
    + exec NameserversResource_Update; settle; use_eqs; reflexivity.
  - split; [reflexivity|]. split.
    + exec TerraformOutputResource_Update; repeat constructor.
    + exec TerraformOutputResource_Update; settle; use_eqs; reflexivity.
Qed.

(* ------------------------------------------------------------------ *)
(** ** The monitoring write token: Update *)

(** C6, as the code has it: Update of the monitoring write token, the one
    kind the code calls immutable, does nothing at all.  Whatever the
    prior state and the plan, changed token value included, it sends no
    request, adds no diagnostic and leaves the state as it came; a
    changed immutable field is not rejected. *)
Theorem C6_token_update_is_noop :
  forall (r : MonitoringWriteTokenResource)
         (req : UpdateRequest MonitoringWriteTokenResourceModel.t)
         (resp : UpdateResponse MonitoringWriteTokenResourceModel.t),
    MonitoringWriteTokenResource_Update r req resp = (resp, []).
Proof. reflexivity. Qed.

(** C6, counterexample to "a changed immutable field makes Update
    fail": the plan changes the token value, and Update reports no error
    (it keeps the prior state and sends nothing). *)
Lemma C6_changed_token_is_not_rejected :
  MonitoringWriteTokenResourceModel.Token example_token_changed
  <> MonitoringWriteTokenResourceModel.Token example_token
  /\ outcome
       (MonitoringWriteTokenResource_Update
          {| MonitoringWriteTokenResource_client := failing_monitoring unavailable |}
          {| UpdateRequest_Plan := readable example_token_changed;
             UpdateRequest_State := readable example_token |}
          (fresh (Some example_token)))
     = ({| tfsdk.Raw := Some example_token |}, false, []).
Proof. split; [discriminate | reflexivity]. Qed.

(* ------------------------------------------------------------------ *)
(** ** Delete and the remote NotFound *)

(** Delete of a DNS record does not look at the code of a failure: any
    failed remote call, whatever its code, ends with an error reported
    and the state as it came. *)
Lemma dns_delete_failure_is_error
    (r : DNSRecordResource) (req : DeleteRequest DNSRecordResourceModel.t)
    (resp : DeleteResponse DNSRecordResourceModel.t) :
  call_failed (snd (DNSRecordResource_Delete r req resp)) = true ->
  Diagnostics_HasError (fst (DNSRecordResource_Delete r req resp)) = true
  /\ State (fst (DNSRecordResource_Delete r req resp)) = State resp.
Proof.
  exec DNSRecordResource_Delete.
  all: cbn [call_failed existsb Failed connect.err_of orb]; intros Hf; try discriminate Hf.
  settle. split; reflexivity.
Qed.

(** C3, the code at the failing input: the remote service answers the
    delete of DNS record "dns-1" with NotFound, and
    [DNSRecordResource.Delete] reports an error, where the specification
    has success.  [AWSACMCertificateResource.Delete], next to it, checks the
    code first and returns without an error on the same answer. *)
Lemma C3_dns_delete_reports_NotFound_as_error :
  outcome
    (DNSRecordResource_Delete
       {| DNSRecordResource_client := failing_deployment not_found |}
       {| DeleteRequest_State := readable example_dns |}
       (fresh (Some example_dns)))
  = ({| tfsdk.Raw := Some example_dns |}, true,
     [Call_DeleteDNSRecord {| deploymentv1alpha1.DeleteDNSRecordRequest.Id := "dns-1" |}])
  /\ outcome
       (AWSACMCertificateResource_Delete
          {| AWSACMCertificateResource_client := failing_deployment not_found |}
          {| DeleteRequest_State := readable example_certificate |}
          (fresh (Some example_certificate)))
     = ({| tfsdk.Raw := Some example_certificate |}, false,
        [Call_DeregisterAWSACMCertificate
           {| deploymentv1alpha1.DeregisterAWSACMCertificateRequest.Id := "cert-1" |}]).
Proof. split; reflexivity. Qed.

(* ------------------------------------------------------------------ *)
(** ** Unreadable input and the remote call *)

(** Once the diagnostics that came with reading the input hold an error,
    the response holds one. *)
Lemma unreadable_HasError {M : Type} (resp : Response M) (ds : diag.Diagnostics) :
  diag.HasError ds = true ->
  Diagnostics_HasError (Diagnostics_Append resp ds) = true.
Proof.
  intros H. unfold Diagnostics_HasError, Diagnostics_Append. cbn [Diagnostics].
  rewrite HasError_Append, H. apply orb_true_r.
Qed.

(** The early return, where it is written: Create, Read and Update of
    every resource, and Delete of every resource but the certificate,
    send nothing when reading their input reported an error. *)
Lemma unreadable_input_sends_nothing (i : resource_Resource) (r : Receiver i) :
  (forall req resp,
      diag.HasError (tfsdk.Get_diags (CreateRequest_Plan req)) = true ->
      snd (Resource_Create i r req resp) = [])
  /\ (forall req resp,
      diag.HasError (tfsdk.Get_diags (ReadRequest_State req)) = true ->
      snd (Resource_Read i r req resp) = [])
  /\ (forall req resp,
      diag.HasError (tfsdk.Get_diags (UpdateRequest_Plan req)) = true ->
      snd (Resource_Update i r req resp) = [])
  /\ (i <> Is_AWSACMCertificateResource ->
      forall req resp,
        diag.HasError (tfsdk.Get_diags (DeleteRequest_State req)) = true ->
        snd (Resource_Delete i r req resp) = []).
Proof.
  repeat split; intros; destruct i; try congruence;
    cbn [Resource_Create Resource_Read Resource_Update Resource_Delete];
    try reflexivity.
  all: match goal with
       | H : diag.HasError ?ds = true |- context [?op ?r ?req ?resp] =>
           pose proof (unreadable_HasError resp ds H)
       end.
  all: first
         [ exec DNSRecordResource_Create | exec AWSACMCertificateResource_Create
         | exec NameserversResource_Create | exec MonitoringWriteTokenResource_Create
         | exec TerraformOutputResource_Create
         | exec DNSRecordResource_Read | exec AWSACMCertificateResource_Read
         | exec NameserversResource_Read | exec MonitoringWriteTokenResource_Read
         | exec TerraformOutputResource_Read
         | exec DNSRecordResource_Update | exec AWSACMCertificateResource_Update
         | exec NameserversResource_Update | exec TerraformOutputResource_Update
         | exec DNSRecordResource_Delete ].
  all: try reflexivity.
  all: exfalso;
    match goal with
    | H1 : _ = true, H2 : _ = false |- _ => exact (eq_true_false_abs _ H1 H2)
    end.
Qed.

(** C7, the code at the failing input: the prior state cannot be read
    (Get returns an error diagnostic and leaves the model at its zero
    value).  [AWSACMCertificateResource.Delete] does not test the
    diagnostics and sends a Deregister request with the empty
    identifier; [DNSRecordResource.Delete], which does test them, sends
    nothing on the same kind of input. *)
Lemma C7_certificate_delete_calls_remote_after_failed_read :
  outcome
    (AWSACMCertificateResource_Delete
       {| AWSACMCertificateResource_client := failing_deployment unavailable |}
       {| DeleteRequest_State := unreadable zero_certificate |}
       (fresh (Some example_certificate)))
  = ({| tfsdk.Raw := Some example_certificate |}, true,
     [Call_DeregisterAWSACMCertificate
        {| deploymentv1alpha1.DeregisterAWSACMCertificateRequest.Id := "" |}])
  /\ outcome
       (DNSRecordResource_Delete
          {| DNSRecordResource_client := failing_deployment unavailable |}
          {| DeleteRequest_State := unreadable zero_dns |}
          (fresh (Some example_dns)))
     = ({| tfsdk.Raw := Some example_dns |}, true, []).
Proof. split; reflexivity. Qed.

(* ------------------------------------------------------------------ *)
(** ** Read and drift *)




(* ------------------------------------------------------------------ *)
(** ** Create and Update when the remote call fails *)

(** C9: for every resource implementation, Create and Update alike: when
    the remote call the operation made came back with an error, the
    response carries an error diagnostic ("Common Fate Deployment API
    error") and its state is the state the response came in with;
    nothing new is written. *)
Theorem C9_failed_call_writes_no_state :
  forall (i : resource_Resource) (r : Receiver i),
    (forall req resp,
        call_failed (snd (Resource_Create i r req resp)) = true ->
        reports_error (Diagnostics (fst (Resource_Create i r req resp)))
          "Common Fate Deployment API error"
        /\ Diagnostics_HasError (fst (Resource_Create i r req resp)) = true
        /\ State (fst (Resource_Create i r req resp)) = State resp)
    /\ (forall req resp,
        call_failed (snd (Resource_Update i r req resp)) = true ->
        reports_error (Diagnostics (fst (Resource_Update i r req resp)))
          "Common Fate Deployment API error"
        /\ Diagnostics_HasError (fst (Resource_Update i r req resp)) = true
        /\ State (fst (Resource_Update i r req resp)) = State resp).
Proof.
  intros i r. split; intros req resp; destruct i; cbn [Resource_Create Resource_Update].
  all: first
         [ exec DNSRecordResource_Create | exec AWSACMCertificateResource_Create
         | exec NameserversResource_Create | exec MonitoringWriteTokenResource_Create
         | exec TerraformOutputResource_Create
         | exec DNSRecordResource_Update | exec AWSACMCertificateResource_Update
         | exec NameserversResource_Update | exec MonitoringWriteTokenResource_Update
         | exec TerraformOutputResource_Update ].
  all: cbn [call_failed existsb Failed connect.err_of orb]; intros Hf; try discriminate Hf.
  all: settle; repeat split; try apply AddError_reports.
Qed.

(** C9 at a concrete input: the deployment service is unavailable, so
    Create of a DNS record reports the error and leaves the (null)
    state of the response alone. *)
Lemma C9_failed_call_witness :
  reports_error
    (Diagnostics
       (fst (DNSRecordResource_Create
               {| DNSRecordResource_client := failing_deployment unavailable |}
               {| CreateRequest_Plan := readable example_dns |}
               (fresh None))))
    "Common Fate Deployment API error"
  /\ Diagnostics_HasError
       (fst (DNSRecordResource_Create
               {| DNSRecordResource_client := failing_deployment unavailable |}
               {| CreateRequest_Plan := readable example_dns |}
               (fresh None)))
     = true
  /\ State
       (fst (DNSRecordResource_Create
               {| DNSRecordResource_client := failing_deployment unavailable |}
               {| CreateRequest_Plan := readable example_dns |}
               (fresh None)))
     = {| tfsdk.Raw := None |}.
Proof.
  exact (proj1 (C9_failed_call_writes_no_state Is_DNSRecordResource
                  {| DNSRecordResource_client := failing_deployment unavailable |})
           {| CreateRequest_Plan := readable example_dns |}
           (fresh None)
           eq_refl).
Defined.

(* ------------------------------------------------------------------ *)
(** ** The data source's Read *)

(** C10: when the deployment service fails GetDeployment with any error,
    NotFound included, the data source's Read ends with an error
    reported and the state it was handed; when it got as far as the
    call, the error it adds is the "Client Error" diagnostic quoting the
    remote error.  The nameservers resource, whose Read makes the same
    call, instead removes its state and reports nothing when that error
    has code NotFound. *)
Theorem C10_datasource_read_has_no_drift_handling :
  forall (dep : DeploymentServiceClient) (e : connect.error)
         (req : datasource.ReadRequest DeploymentDataSourceModel.t)
         (resp : datasource.ReadResponse DeploymentDataSourceModel.t)
         (nreq : ReadRequest NameserversResourceModel.t)
         (nresp : ReadResponse NameserversResourceModel.t),
    GetDeployment dep tt = inr e ->
    let out := DeploymentDataSource_Read {| DeploymentDataSource_client := dep |} req resp in
    let nout := NameserversResource_Read {| NameserversResource_client := dep |} nreq nresp in
    Diagnostics_HasError (fst out) = true
    /\ State (fst out) = State resp
    /\ (if Diagnostics_HasError
            (Diagnostics_Append resp (tfsdk.Get_diags (datasource.ReadRequest_Config req)))
        then snd out = []
        else In (diag.NewErrorDiagnostic "Client Error"
                   (Sprintf "Unable to read Common Fate deployment metadata, got error: "
                      (connect.Error e)))
                (Diagnostics (fst out))
             /\ snd out = [ {| Sent := Call_GetDeployment; Failed := Some e |} ])
    /\ (if Diagnostics_HasError
            (Diagnostics_Append nresp (tfsdk.Get_diags (ReadRequest_State nreq)))
        then True
        else if connect.Code_eqb (connect.CodeOf (Some e)) connect.CodeNotFound
             then tfsdk.Raw (State (fst nout)) = None
                  /\ Diagnostics_HasError (fst nout) = false
             else State (fst nout) = State nresp
                  /\ Diagnostics_HasError (fst nout) = true).
Proof.
  intros dep e req resp nreq nresp He out nout. subst out nout.
  repeat split.
  - exec DeploymentDataSource_Read; known; settle; congruence.
  - exec DeploymentDataSource_Read; known; settle; reflexivity.
  - exec DeploymentDataSource_Read; known; settle; use_eqs.
    + reflexivity.
    + split; [apply AddError_In | reflexivity].
  - exec NameserversResource_Read; known; settle; use_eqs; try exact I.
    all: repeat split; try congruence.
    all: apply HasError_AddError.
Qed.

(** C10 at a concrete input: the deployment is not found.  The data
    source reports an error and keeps the state it was handed; the
    nameservers resource removes its state without an error. *)
Lemma C10_datasource_read_witness :
  let out :=
    DeploymentDataSource_Read
      {| DeploymentDataSource_client := failing_deployment not_found |}
      {| datasource.ReadRequest_Config := readable example_deployment_config |}
      (fresh None) in
  let nout :=
    NameserversResource_Read
      {| NameserversResource_client := failing_deployment not_found |}
      {| ReadRequest_State := readable example_nameservers |}
      (fresh (Some example_nameservers)) in
  Diagnostics_HasError (fst out) = true
  /\ State (fst out) = {| tfsdk.Raw := None |}
  /\ (In (diag.NewErrorDiagnostic "Client Error"
            (Sprintf "Unable to read Common Fate deployment metadata, got error: "
               (connect.Error not_found)))
         (Diagnostics (fst out))
      /\ snd out = [ {| Sent := Call_GetDeployment; Failed := Some not_found |} ])
  /\ (tfsdk.Raw (State (fst nout)) = None /\ Diagnostics_HasError (fst nout) = false).
Proof.
  exact (C10_datasource_read_has_no_drift_handling
           (failing_deployment not_found) not_found
           {| datasource.ReadRequest_Config := readable example_deployment_config |}
           (fresh None)
           {| ReadRequest_State := readable example_nameservers |}
           (fresh (Some example_nameservers))
           eq_refl).
Defined.

(* ------------------------------------------------------------------ *)
(** ** Classification looks at the code alone *)

Lemma same_codes_failing_deployment (e1 e2 : connect.error) :
  connect.CodeOf (Some e1) = connect.CodeOf (Some e2) ->
  same_codes_deployment (failing_deployment e1) (failing_deployment e2).
Proof. intros H. constructor; intros m; exact H. Qed.

Lemma same_codes_failing_monitoring (e1 e2 : connect.error) :
  connect.CodeOf (Some e1) = connect.CodeOf (Some e2) ->
  same_codes_monitoring (failing_monitoring e1) (failing_monitoring e2).
Proof. intros H. constructor; intros m; exact H. Qed.

(** Split along the tests both runs share. *)
Ltac shared :=
  repeat (match goal with
          | |- context [let (_, _) := ?p in _] => destruct p eqn:?
          | |- context [if Diagnostics_HasError ?x then _ else _] =>
              destruct (Diagnostics_HasError x) eqn:?
          | |- context [match rrType_of ?x with Some _ => _ | None => _ end] =>
              destruct (rrType_of x) eqn:?
          end; cbn beta iota zeta; fields).

(** Pair the answers the two clients give to the request both runs send. *)
Ltac relate :=
  match goal with
  | Hs : (forall m, same_code (?f ?c1 m) (?f ?c2 m)) |- context [?f ?c1 ?m0] =>
      let Hx := fresh "Hsame" in
      pose proof (Hs m0) as Hx; unfold same_code in Hx;
      destruct (f c1 m0) eqn:?; destruct (f c2 m0) eqn:?;
      try contradiction; subst
  end.

(** C8: take two deployment services and two token services that answer
    every request alike except for the text of their errors: the same
    response, or errors with the same structured code.  Then every
    operation of every resource, and the data source's Read, has the
    same outcome against either: the same state, the same verdict on
    whether an error is reported, the same requests sent.  Which branch
    an operation takes never depends on the message. *)
Theorem C8_outcome_depends_on_code_only :
  forall (dep1 dep2 : DeploymentServiceClient) (mon1 mon2 : monitoring.Client),
    same_codes_deployment dep1 dep2 ->
    same_codes_monitoring mon1 mon2 ->
    (forall i req resp,
        outcome (Resource_Create i (Configure i dep1 mon1) req resp)
        = outcome (Resource_Create i (Configure i dep2 mon2) req resp))
    /\ (forall i req resp,
        outcome (Resource_Read i (Configure i dep1 mon1) req resp)
        = outcome (Resource_Read i (Configure i dep2 mon2) req resp))
    /\ (forall i req resp,
        outcome (Resource_Update i (Configure i dep1 mon1) req resp)
        = outcome (Resource_Update i (Configure i dep2 mon2) req resp))
    /\ (forall i req resp,
        outcome (Resource_Delete i (Configure i dep1 mon1) req resp)
        = outcome (Resource_Delete i (Configure i dep2 mon2) req resp))
    /\ (forall req resp,
        outcome (DeploymentDataSource_Read {| DeploymentDataSource_client := dep1 |} req resp)
        = outcome (DeploymentDataSource_Read {| DeploymentDataSource_client := dep2 |} req resp)).
Proof.
  intros dep1 dep2 mon1 mon2 Hd Hm.
  destruct Hd, Hm.
  repeat split; intros; try destruct i;
    cbn [Resource_Create Resource_Read Resource_Update Resource_Delete Configure].
  all: unfold DNSRecordResource_Create, DNSRecordResource_Read, DNSRecordResource_Update,
         DNSRecordResource_Delete, AWSACMCertificateResource_Create,
         AWSACMCertificateResource_Read, AWSACMCertificateResource_Update,
         AWSACMCertificateResource_Delete, NameserversResource_Create,
         NameserversResource_Read, NameserversResource_Update, NameserversResource_Delete,
         MonitoringWriteTokenResource_Create, MonitoringWriteTokenResource_Read,
         MonitoringWriteTokenResource_Update, MonitoringWriteTokenResource_Delete,
         TerraformOutputResource_Create, TerraformOutputResource_Read,
         TerraformOutputResource_Update, TerraformOutputResource_Delete,
         DeploymentDataSource_Read.
  all: cbn beta iota zeta delta [tfsdk.Get sent]; fields; shared; try reflexivity.
  all: try relate.
  all: cbn [connect.err_of].
  all: try match goal with
           | H : connect.CodeOf _ = connect.CodeOf _ |- _ => rewrite H
           end.
  all: repeat match goal with
              | |- context [if ?b then _ else _] => destruct b eqn:?
              end.
  all: shared.
  all: unfold outcome, sent; cbn [fst snd map Sent]; settle; reflexivity.
Qed.

(** C8 at a concrete input: two deployment services refuse every request
    with code NotFound and different messages; Read of a DNS record has
    the same outcome against both (the state is removed, no error). *)
Lemma C8_outcome_depends_on_code_only_witness :
  outcome
    (DNSRecordResource_Read
       {| DNSRecordResource_client := failing_deployment not_found |}
       {| ReadRequest_State := readable example_dns |}
       (fresh (Some example_dns)))
  = outcome
      (DNSRecordResource_Read
         {| DNSRecordResource_client := failing_deployment not_found_reworded |}
         {| ReadRequest_State := readable example_dns |}
         (fresh (Some example_dns))).
Proof.
  exact (proj1 (proj2
           (C8_outcome_depends_on_code_only
              (failing_deployment not_found) (failing_deployment not_found_reworded)
              (failing_monitoring not_found) (failing_monitoring not_found_reworded)
              (same_codes_failing_deployment not_found not_found_reworded eq_refl)
              (same_codes_failing_monitoring not_found not_found_reworded eq_refl)))
           Is_DNSRecordResource
           {| ReadRequest_State := readable example_dns |}
           (fresh (Some example_dns))).
Defined.

(* ------------------------------------------------------------------ *)
(** ** The remote footprint of an operation *)

Lemma HasError_Append_false (a b : diag.Diagnostics) :
  diag.HasError (diag.Append a b) = false ->
  diag.HasError a = false /\ diag.HasError b = false.
Proof. rewrite HasError_Append. apply orb_false_elim. Qed.

(** Run whichever operation of whichever resource the goal is about. *)
Ltac exec_any :=
  cbn [Resource_Create Resource_Read Resource_Update Resource_Delete];
  first
    [ exec DNSRecordResource_Create | exec AWSACMCertificateResource_Create
    | exec NameserversResource_Create | exec MonitoringWriteTokenResource_Create
    | exec TerraformOutputResource_Create
    | exec DNSRecordResource_Read | exec AWSACMCertificateResource_Read
    | exec NameserversResource_Read | exec MonitoringWriteTokenResource_Read
    | exec TerraformOutputResource_Read
    | exec DNSRecordResource_Update | exec AWSACMCertificateResource_Update
    | exec NameserversResource_Update | exec MonitoringWriteTokenResource_Update
    | exec TerraformOutputResource_Update
    | exec DNSRecordResource_Delete | exec AWSACMCertificateResource_Delete
    | exec NameserversResource_Delete | exec MonitoringWriteTokenResource_Delete
    | exec TerraformOutputResource_Delete
    | exec DeploymentDataSource_Read ].

(** X1: no operation talks to the remote service twice: Create, Read,
    Update and Delete of every resource, and the data source's Read,
    send at most one request, on every path. *)
Theorem X1_at_most_one_request :
  (forall (i : resource_Resource) (r : Receiver i),
      (forall req resp, length (snd (Resource_Create i r req resp)) <= 1)
      /\ (forall req resp, length (snd (Resource_Read i r req resp)) <= 1)
      /\ (forall req resp, length (snd (Resource_Update i r req resp)) <= 1)
      /\ (forall req resp, length (snd (Resource_Delete i r req resp)) <= 1))
  /\ (forall d req resp, length (snd (DeploymentDataSource_Read d req resp)) <= 1).
Proof.
  split; [intros i r; repeat split; intros req resp; destruct i | intros d req resp].
  all: exec_any; cbn [length]; auto.
Qed.

(** X2: Read only asks.  Every request a resource's Read or the data
    source's Read sends is one of the get calls (GetDNSRecord,
    GetAWSACMCertificate, GetDeployment, GetTerraformOutput); no Read
    ever creates, updates or deletes anything remotely. *)
Theorem X2_read_sends_only_gets :
  (forall (i : resource_Resource) (r : Receiver i) req resp,
      Forall (fun ev => is_get (Sent ev) = true) (snd (Resource_Read i r req resp)))
  /\ (forall d req resp,
      Forall (fun ev => is_get (Sent ev) = true) (snd (DeploymentDataSource_Read d req resp))).
Proof.
  split; [intros i r req resp; destruct i | intros d req resp].
  all: exec_any; repeat constructor.
Qed.

(** X3: a request goes out only from a clean slate.  When Create, Read or
    Update of any resource, Delete of any resource but the certificate,
    or the data source's Read has sent a request, the response came in
    without an error and reading the plan, state or configuration
    reported none. *)
Theorem X3_request_needs_clean_input :
  (forall (i : resource_Resource) (r : Receiver i),
      (forall req resp,
          snd (Resource_Create i r req resp) <> [] ->
          Diagnostics_HasError resp = false
          /\ diag.HasError (tfsdk.Get_diags (CreateRequest_Plan req)) = false)
      /\ (forall req resp,
          snd (Resource_Read i r req resp) <> [] ->
          Diagnostics_HasError resp = false
          /\ diag.HasError (tfsdk.Get_diags (ReadRequest_State req)) = false)
      /\ (forall req resp,
          snd (Resource_Update i r req resp) <> [] ->
          Diagnostics_HasError resp = false
          /\ diag.HasError (tfsdk.Get_diags (UpdateRequest_Plan req)) = false)
      /\ (forall req resp,
          i <> Is_AWSACMCertificateResource ->
          snd (Resource_Delete i r req resp) <> [] ->
          Diagnostics_HasError resp = false
          /\ diag.HasError (tfsdk.Get_diags (DeleteRequest_State req)) = false))
  /\ (forall d req resp,
      snd (DeploymentDataSource_Read d req resp) <> [] ->
      Diagnostics_HasError resp = false
      /\ diag.HasError (tfsdk.Get_diags (datasource.ReadRequest_Config req)) = false).
Proof.
  split; [intros i r; repeat apply conj; intros req resp; destruct i | intros d req resp].
  all: try match goal with
           | |- _ <> Is_AWSACMCertificateResource -> _ => intros Hi; try congruence
           end.
  all: exec_any; intros Hsent; try congruence.
  all: settle;
    match goal with
    | H : diag.HasError (diag.Append (Diagnostics ?resp) ?ds) = false |- _ =>
        exact (HasError_Append_false _ _ H)
    end.
Qed.

(** X3 at a concrete input: Create of a DNS record against a service
    that is unavailable did send its request, and its input was clean. *)
Lemma X3_request_needs_clean_input_witness :
  snd (DNSRecordResource_Create
         {| DNSRecordResource_client := failing_deployment unavailable |}
         {| CreateRequest_Plan := readable example_dns |} (fresh None)) <> []
  /\ Diagnostics_HasError (fresh (@None DNSRecordResourceModel.t)) = false
  /\ diag.HasError (tfsdk.Get_diags (readable example_dns)) = false.
Proof.
  assert (H : snd (DNSRecordResource_Create
                     {| DNSRecordResource_client := failing_deployment unavailable |}
                     {| CreateRequest_Plan := readable example_dns |} (fresh None)) <> [])
    by discriminate.
  split; [exact H |].
  exact (proj1 (proj1 X3_request_needs_clean_input Is_DNSRecordResource
                  {| DNSRecordResource_client := failing_deployment unavailable |})
           {| CreateRequest_Plan := readable example_dns |} (fresh None) H).
Defined.

(* ------------------------------------------------------------------ *)
(** ** Read: what a failed get does to the state *)

(** X4: a failed get that is not a NotFound never costs the state.  When
    the Read of any resource sent its request and the request failed
    with an error whose code is not NotFound (unavailable, permission
    denied, an error that is no connect error at all), the state in the
    response is the state it came with, and the response carries a
    "Client Error" diagnostic whose detail ends in the text of the
    remote error. *)
Theorem X4_read_failure_keeps_state :
  forall (i : resource_Resource) (r : Receiver i) req resp c e,
    snd (Resource_Read i r req resp) = [ {| Sent := c; Failed := Some e |} ] ->
    connect.Code_eqb (connect.CodeOf (Some e)) connect.CodeNotFound = false ->
    State (fst (Resource_Read i r req resp)) = State resp
    /\ exists prefix,
        In (diag.NewErrorDiagnostic "Client Error" (String.append prefix (connect.Error e)))
          (Diagnostics (fst (Resource_Read i r req resp))).
Proof.
  intros i r req resp c e. destruct i.
  all: exec_any; intros Htr Hcode; try discriminate Htr.
  all: injection Htr as _ Hf.
  all: try (rewrite Hf in *; congruence).
  all: cbn [connect.err_of] in Hf; try discriminate Hf; try injection Hf as Hf; subst.
  all: settle; split; [reflexivity | eexists; apply AddError_In].
Qed.

(** X4 at a concrete input: the deployment service is unavailable while
    the certificate is read. *)
Lemma X4_read_failure_keeps_state_witness :
  snd (AWSACMCertificateResource_Read
         {| AWSACMCertificateResource_client := failing_deployment unavailable |}
         {| ReadRequest_State := readable example_certificate |}
         (fresh (Some example_certificate)))
  = [ {| Sent :=
           Call_GetAWSACMCertificate
             {| deploymentv1alpha1.GetAWSACMCertificateRequest.Id := "cert-1" |};
         Failed := Some unavailable |} ]
  /\ State
       (fst (AWSACMCertificateResource_Read
               {| AWSACMCertificateResource_client := failing_deployment unavailable |}
               {| ReadRequest_State := readable example_certificate |}
               (fresh (Some example_certificate))))
     = {| tfsdk.Raw := Some example_certificate |}.
Proof.
  split; [reflexivity |].
  exact (proj1 (X4_read_failure_keeps_state Is_AWSACMCertificateResource
                  {| AWSACMCertificateResource_client := failing_deployment unavailable |}
                  {| ReadRequest_State := readable example_certificate |}
                  (fresh (Some example_certificate)) _ unavailable eq_refl eq_refl)).
Defined.

(** X5: a NotFound on get drops the state and says nothing.  When the
    Read of any resource sent its request and the request failed with
    code NotFound, the response state is removed and the diagnostics are
    the incoming ones plus what reading the prior state reported:
    nothing is added for the missing remote object.  This covers the
    two singletons, nameservers and Terraform output, as well. *)
Theorem X5_read_NotFound_removes_state :
  forall (i : resource_Resource) (r : Receiver i) req resp c e,
    snd (Resource_Read i r req resp) = [ {| Sent := c; Failed := Some e |} ] ->
    connect.CodeOf (Some e) = connect.CodeNotFound ->
    tfsdk.Raw (State (fst (Resource_Read i r req resp))) = None
    /\ Diagnostics (fst (Resource_Read i r req resp))
       = diag.Append (Diagnostics resp) (tfsdk.Get_diags (ReadRequest_State req))
    /\ Diagnostics_HasError (fst (Resource_Read i r req resp)) = false.
Proof.
  intros i r req resp c e. destruct i.
  all: exec_any; intros Htr Hcode; try discriminate Htr.
  all: injection Htr as _ Hf.
  all: try (cbn [connect.err_of] in Hf; try discriminate Hf; try injection Hf as Hf; subst;
            cbn [connect.err_of] in *; rewrite Hcode in *; discriminate).
  all: settle; repeat split; assumption.
Qed.

(** X5 at a concrete input: the Terraform output of the deployment is
    gone remotely. *)
Lemma X5_read_NotFound_removes_state_witness :
  snd (TerraformOutputResource_Read
         {| TerraformOutputResource_client := failing_deployment not_found |}
         {| ReadRequest_State := readable example_output |}
         (fresh (Some example_output)))
  = [ {| Sent := Call_GetTerraformOutput; Failed := Some not_found |} ]
  /\ tfsdk.Raw
       (State
          (fst (TerraformOutputResource_Read
                  {| TerraformOutputResource_client := failing_deployment not_found |}
                  {| ReadRequest_State := readable example_output |}
                  (fresh (Some example_output)))))
     = None.
Proof.
  split; [reflexivity |].
  exact (proj1 (X5_read_NotFound_removes_state Is_TerraformOutputResource
                  {| TerraformOutputResource_client := failing_deployment not_found |}
                  {| ReadRequest_State := readable example_output |}
                  (fresh (Some example_output)) _ not_found eq_refl eq_refl)).
Defined.

(* ------------------------------------------------------------------ *)
(** ** The DNS record: what Create checks and Update leaves out *)

Lemma rrType_of_Some (ty : string) (t : deploymentv1alpha1.DNSRecordType) :
  rrType_of ty = Some t ->
  (ty = "TXT" /\ t = deploymentv1alpha1.DNSRecordType_DNS_RECORD_TYPE_TXT)
  \/ (ty = "CNAME" /\ t = deploymentv1alpha1.DNSRecordType_DNS_RECORD_TYPE_CNAME).
Proof.
  unfold rrType_of.
  destruct (String.eqb ty "TXT") eqn:E1.
  - apply String.eqb_eq in E1. intros H. injection H as <-. now left.
  - destruct (String.eqb ty "CNAME") eqn:E2; [|discriminate].
    apply String.eqb_eq in E2. intros H. injection H as <-. now right.
Qed.

Lemma rrType_of_None (ty : string) :
  ty <> "TXT" -> ty <> "CNAME" -> rrType_of ty = None.
Proof.
  intros H1 H2. unfold rrType_of.
  apply String.eqb_neq in H1. apply String.eqb_neq in H2.
  now rewrite H1, H2.
Qed.

Lemma rrType_of_exact (ty : string) (t : deploymentv1alpha1.DNSRecordType) :
  (ty = "TXT" /\ t = deploymentv1alpha1.DNSRecordType_DNS_RECORD_TYPE_TXT)
  \/ (ty = "CNAME" /\ t = deploymentv1alpha1.DNSRecordType_DNS_RECORD_TYPE_CNAME) ->
  rrType_of ty = Some t.
Proof. intros [[-> ->] | [-> ->]]; reflexivity. Qed.

(** X6: Create of a DNS record admits exactly two record types, spelled
    "TXT" and "CNAME".  With any other type in the plan (another case, a
    null or unknown value, which reads as the empty string) Create sends
    nothing, ends with an error and leaves the state alone; whatever
    request Create does send carries the type the plan names; and with
    one of the two types, a response that came in without an error, a
    plan read without an error and values that convert, Create does send
    its request: exactly one CreateDNSRecord, with the name, the zone
    name and the values of the plan and the type the plan names. *)
Theorem X6_dns_create_checks_record_type :
  forall (r : DNSRecordResource) (req : CreateRequest DNSRecordResourceModel.t)
         (resp : CreateResponse DNSRecordResourceModel.t),
    let plan := tfsdk.Get_data (CreateRequest_Plan req) in
    let ty := types.ValueString (DNSRecordResourceModel.Type_ plan) in
    let out := DNSRecordResource_Create r req resp in
    (ty <> "TXT" -> ty <> "CNAME" ->
     snd out = []
     /\ Diagnostics_HasError (fst out) = true
     /\ State (fst out) = State resp)
    /\ Forall (fun ev =>
         exists m, Sent ev = Call_CreateDNSRecord m
           /\ ((ty = "TXT"
                /\ deploymentv1alpha1.CreateDNSRecordRequest.Type_ m
                   = deploymentv1alpha1.DNSRecordType_DNS_RECORD_TYPE_TXT)
               \/ (ty = "CNAME"
                   /\ deploymentv1alpha1.CreateDNSRecordRequest.Type_ m
                      = deploymentv1alpha1.DNSRecordType_DNS_RECORD_TYPE_CNAME)))
         (snd out)
    /\ (forall t : deploymentv1alpha1.DNSRecordType,
         (ty = "TXT" /\ t = deploymentv1alpha1.DNSRecordType_DNS_RECORD_TYPE_TXT)
         \/ (ty = "CNAME" /\ t = deploymentv1alpha1.DNSRecordType_DNS_RECORD_TYPE_CNAME) ->
         Diagnostics_HasError resp = false ->
         diag.HasError (tfsdk.Get_diags (CreateRequest_Plan req)) = false ->
         diag.HasError (fst (types.ElementsAs (DNSRecordResourceModel.Values plan))) = false ->
         map Sent (snd out)
         = [ Call_CreateDNSRecord
               {| deploymentv1alpha1.CreateDNSRecordRequest.Name :=
                    types.ValueString (DNSRecordResourceModel.Name plan);
                  deploymentv1alpha1.CreateDNSRecordRequest.DnsZoneName :=
                    types.ValueString (DNSRecordResourceModel.ZoneName plan);
                  deploymentv1alpha1.CreateDNSRecordRequest.Type_ := t;
                  deploymentv1alpha1.CreateDNSRecordRequest.Values :=
                    snd (types.ElementsAs (DNSRecordResourceModel.Values plan)) |} ]).
Proof.
  intros r req resp plan ty out. subst plan ty out. repeat apply conj.
  - intros H1 H2. pose proof (rrType_of_None _ H1 H2) as Hn.
    exec DNSRecordResource_Create; settle; try congruence.
    all: repeat split; auto.
  - exec DNSRecordResource_Create; repeat constructor.
    all: eexists; split; [reflexivity |]; cbn; now apply rrType_of_Some.
  - intros t Ht Hr Hp Hv. apply rrType_of_exact in Ht.
    exec DNSRecordResource_Create; settle; rewrite ?HasError_Append in *.
    all: try (rewrite Hr, Hp in *; cbn [orb] in *; congruence).
    all: try congruence.
    all: injection Ht as <-; reflexivity.
Qed.

(** X6 at concrete inputs: the type spelled "cname" is turned down, the
    type spelled "CNAME" goes out as the CNAME record type. *)
Lemma X6_dns_create_checks_record_type_witness :
  (snd (DNSRecordResource_Create
          {| DNSRecordResource_client := serving_deployment |}
          {| CreateRequest_Plan := readable example_dns_lowercase |}
          (fresh None)) = []
   /\ Diagnostics_HasError
        (fst (DNSRecordResource_Create
                {| DNSRecordResource_client := serving_deployment |}
                {| CreateRequest_Plan := readable example_dns_lowercase |}
                (fresh None))) = true
   /\ State
        (fst (DNSRecordResource_Create
                {| DNSRecordResource_client := serving_deployment |}
                {| CreateRequest_Plan := readable example_dns_lowercase |}
                (fresh None))) = {| tfsdk.Raw := None |})
  /\ map Sent
       (snd (DNSRecordResource_Create
               {| DNSRecordResource_client := serving_deployment |}
               {| CreateRequest_Plan := readable example_dns |}
               (fresh None)))
     = [ Call_CreateDNSRecord
           {| deploymentv1alpha1.CreateDNSRecordRequest.Name := "www";
              deploymentv1alpha1.CreateDNSRecordRequest.DnsZoneName := "example.com";
              deploymentv1alpha1.CreateDNSRecordRequest.Type_ :=
                deploymentv1alpha1.DNSRecordType_DNS_RECORD_TYPE_CNAME;
              deploymentv1alpha1.CreateDNSRecordRequest.Values :=
                ["target.example.com"] |} ].
Proof.
  split.
  - exact (proj1 (X6_dns_create_checks_record_type
                    {| DNSRecordResource_client := serving_deployment |}
                    {| CreateRequest_Plan := readable example_dns_lowercase |}
                    (fresh None))
             ltac:(discriminate) ltac:(discriminate)).
  - exact (proj2 (proj2 (X6_dns_create_checks_record_type
                           {| DNSRecordResource_client := serving_deployment |}
                           {| CreateRequest_Plan := readable example_dns |}
                           (fresh None)))
             deploymentv1alpha1.DNSRecordType_DNS_RECORD_TYPE_CNAME
             (or_intror (conj eq_refl eq_refl)) eq_refl eq_refl eq_refl).
Defined.

(** X7: Update of a DNS record tells the remote service the identifier
    and the values and nothing else.  Two plans that agree on these (and
    on what reading them reports) make Update send the same request,
    however they differ in name, type and zone name; the record type is
    not checked on Update. *)
Theorem X7_dns_update_sends_id_and_values_only :
  forall (r : DNSRecordResource) (req1 req2 : UpdateRequest DNSRecordResourceModel.t)
         (resp : UpdateResponse DNSRecordResourceModel.t),
    tfsdk.Get_diags (UpdateRequest_Plan req1) = tfsdk.Get_diags (UpdateRequest_Plan req2) ->
    DNSRecordResourceModel.ID (tfsdk.Get_data (UpdateRequest_Plan req1))
    = DNSRecordResourceModel.ID (tfsdk.Get_data (UpdateRequest_Plan req2)) ->
    DNSRecordResourceModel.Values (tfsdk.Get_data (UpdateRequest_Plan req1))
    = DNSRecordResourceModel.Values (tfsdk.Get_data (UpdateRequest_Plan req2)) ->
    snd (DNSRecordResource_Update r req1 resp) = snd (DNSRecordResource_Update r req2 resp)
    /\ Forall (fun ev =>
         Sent ev =
         Call_UpdateDNSRecord
           {| deploymentv1alpha1.UpdateDNSRecordRequest.Id :=
                types.ValueString
                  (DNSRecordResourceModel.ID (tfsdk.Get_data (UpdateRequest_Plan req1)));
              deploymentv1alpha1.UpdateDNSRecordRequest.Values :=
                snd (types.ElementsAs
                       (DNSRecordResourceModel.Values
                          (tfsdk.Get_data (UpdateRequest_Plan req1)))) |})
         (snd (DNSRecordResource_Update r req1 resp)).
Proof.
  intros r req1 req2 resp Hd Hi Hv. split.
  - unfold DNSRecordResource_Update. cbn beta iota zeta delta [tfsdk.Get].
    rewrite Hd, Hi, Hv.
    destruct (types.ElementsAs _) as [d values].
    destruct (Diagnostics_HasError _); [reflexivity|].
    destruct (Diagnostics_HasError _); [reflexivity|].
    destruct (UpdateDNSRecord _ _); reflexivity.
  - exec DNSRecordResource_Update; repeat constructor.
Qed.

(** X7 at a concrete input: the plan renames the record and asks for a
    type Create would refuse; Update sends what it would have sent for
    the unchanged plan. *)
Lemma X7_dns_update_sends_id_and_values_only_witness :
  snd (DNSRecordResource_Update
         {| DNSRecordResource_client := failing_deployment unavailable |}
         {| UpdateRequest_Plan := readable example_dns_lowercase;
            UpdateRequest_State := readable example_dns |}
         (fresh (Some example_dns)))
  = snd (DNSRecordResource_Update
           {| DNSRecordResource_client := failing_deployment unavailable |}
           {| UpdateRequest_Plan := readable example_dns;
              UpdateRequest_State := readable example_dns |}
           (fresh (Some example_dns))).
Proof.
  exact (proj1 (X7_dns_update_sends_id_and_values_only
                  {| DNSRecordResource_client := failing_deployment unavailable |}
                  {| UpdateRequest_Plan := readable example_dns_lowercase;
                     UpdateRequest_State := readable example_dns |}
                  {| UpdateRequest_Plan := readable example_dns;
                     UpdateRequest_State := readable example_dns |}
                  (fresh (Some example_dns)) eq_refl eq_refl eq_refl)).
Defined.

(* ------------------------------------------------------------------ *)
(** ** Create: what a successful call leaves in the state *)

(** X8: when Create sent its request and the request succeeded, no error
    is reported and the state is the plan with the identifier the remote
    service answered: for the DNS record and the certificate the planned
    fields with [id] taken from the response; for the nameservers and
    the Terraform output the plan as it is (they have no identifier);
    for the write token the identifier and token of the response. *)
Theorem X8_create_persists_plan_and_remote_id :
  (forall r req resp,
      let out := DNSRecordResource_Create r req resp in
      let plan := tfsdk.Get_data (CreateRequest_Plan req) in
      snd out <> [] -> call_failed (snd out) = false ->
      Diagnostics_HasError (fst out) = false
      /\ exists m res,
          CreateDNSRecord (DNSRecordResource_client r) m = inl res
          /\ tfsdk.Raw (State (fst out))
             = Some {| DNSRecordResourceModel.ID :=
                         types.StringValue
                           (deploymentv1alpha1.DNSRecord.Id
                              (deploymentv1alpha1.CreateDNSRecordResponse.Created res));
                       DNSRecordResourceModel.Name := DNSRecordResourceModel.Name plan;
                       DNSRecordResourceModel.Type_ := DNSRecordResourceModel.Type_ plan;
                       DNSRecordResourceModel.ZoneName := DNSRecordResourceModel.ZoneName plan;
                       DNSRecordResourceModel.Values := DNSRecordResourceModel.Values plan |})
  /\ (forall r req resp,
      let out := AWSACMCertificateResource_Create r req resp in
      let plan := tfsdk.Get_data (CreateRequest_Plan req) in
      snd out <> [] -> call_failed (snd out) = false ->
      Diagnostics_HasError (fst out) = false
      /\ exists m res,
          RegisterAWSACMCertificate (AWSACMCertificateResource_client r) m = inl res
          /\ tfsdk.Raw (State (fst out))
             = Some (AWSACMCertificate_with_ID plan
                       (deploymentv1alpha1.AWSACMCertificate.Id
                          (deploymentv1alpha1.RegisterAWSACMCertificateResponse.Certificate
                             res))))
  /\ (forall r req resp,
      let out := NameserversResource_Create r req resp in
      snd out <> [] -> call_failed (snd out) = false ->
      Diagnostics_HasError (fst out) = false
      /\ tfsdk.Raw (State (fst out)) = Some (tfsdk.Get_data (CreateRequest_Plan req)))
  /\ (forall r req resp,
      let out := TerraformOutputResource_Create r req resp in
      snd out <> [] -> call_failed (snd out) = false ->
      Diagnostics_HasError (fst out) = false
      /\ tfsdk.Raw (State (fst out)) = Some (tfsdk.Get_data (CreateRequest_Plan req)))
  /\ (forall r req resp,
      let out := MonitoringWriteTokenResource_Create r req resp in
      snd out <> [] -> call_failed (snd out) = false ->
      Diagnostics_HasError (fst out) = false
      /\ exists res,
          monitoring.CreateWriteToken (MonitoringWriteTokenResource_client r) tt = inl res
          /\ tfsdk.Raw (State (fst out))
             = Some {| MonitoringWriteTokenResourceModel.ID :=
                         types.StringValue (monitoringv1alpha1.CreateWriteTokenResponse.Id res);
                       MonitoringWriteTokenResourceModel.Token :=
                         types.StringValue
                           (monitoringv1alpha1.CreateWriteTokenResponse.WriteToken res) |}).
Proof.
  repeat apply conj; intros r req resp out; subst out; cbn zeta.
  all: exec_any; intros Hs Hf; try congruence; try discriminate Hf.
  all: settle; split; try assumption; try reflexivity.
  all: repeat eexists; eassumption.
Qed.

(** X8 at a concrete input: the deployment service registers a
    certificate and answers with the identifier "cert-7". *)
Lemma X8_create_persists_plan_and_remote_id_witness :
  snd (AWSACMCertificateResource_Create
         {| AWSACMCertificateResource_client := registering_deployment |}
         {| CreateRequest_Plan := readable example_certificate_plan |}
         (fresh None)) <> []
  /\ tfsdk.Raw
       (State
          (fst (AWSACMCertificateResource_Create
                  {| AWSACMCertificateResource_client := registering_deployment |}
                  {| CreateRequest_Plan := readable example_certificate_plan |}
                  (fresh None))))
     = Some (AWSACMCertificate_with_ID example_certificate_plan "cert-7").
Proof.
  assert (Hs : snd (AWSACMCertificateResource_Create
                      {| AWSACMCertificateResource_client := registering_deployment |}
                      {| CreateRequest_Plan := readable example_certificate_plan |}
                      (fresh None)) <> []) by discriminate.
  split; [exact Hs |].
  destruct (proj1 (proj2 X8_create_persists_plan_and_remote_id)
              {| AWSACMCertificateResource_client := registering_deployment |}
              {| CreateRequest_Plan := readable example_certificate_plan |}
              (fresh None) Hs eq_refl) as [_ [m [res [Hr Hst]]]].
  rewrite Hst. cbn in Hr. injection Hr as <-. reflexivity.
Defined.

(* ------------------------------------------------------------------ *)
(** ** Create, then Read *)

Lemma StringValue_ValueString (v : types.String) :
  is_known v = true -> types.StringValue (types.ValueString v) = v.
Proof. destruct v; simpl; congruence. Qed.

Lemma strings_of_Some (elems : list types.String) (l : list string) :
  types.strings_of elems = Some l -> map types.StringValue l = elems.
Proof.
  revert l. induction elems as [|v rest IH]; intros l H; simpl in H.
  - injection H as <-. reflexivity.
  - destruct v; try discriminate.
    destruct (types.strings_of rest) as [l'|]; [|discriminate].
    injection H as <-. simpl. now rewrite (IH l' eq_refl).
Qed.

(** X9: Create then Read of a certificate is a round trip.  Let every
    field of the plan that is sent be known, let the register call
    succeed, and let the remote service answer the get of the identifier
    it assigned with the certificate as it was registered.  Then Create
    persists the plan under that identifier, and a Read of that state
    gives the same state back and reports nothing. *)
Theorem X9_certificate_create_then_read :
  forall (r : AWSACMCertificateResource) (plan : AWSACMCertificateResourceModel.t)
         (resp : CreateResponse AWSACMCertificateResourceModel.t)
         (res : deploymentv1alpha1.RegisterAWSACMCertificateResponse.t),
    let id :=
      deploymentv1alpha1.AWSACMCertificate.Id
        (deploymentv1alpha1.RegisterAWSACMCertificateResponse.Certificate res) in
    let created :=
      fst (AWSACMCertificateResource_Create r {| CreateRequest_Plan := readable plan |} resp) in
    certificate_fields_known plan = true ->
    Diagnostics_HasError resp = false ->
    RegisterAWSACMCertificate (AWSACMCertificateResource_client r)
      (RegisterAWSACMCertificateRequest_of plan) = inl res ->
    GetAWSACMCertificate (AWSACMCertificateResource_client r)
      {| deploymentv1alpha1.GetAWSACMCertificateRequest.Id := id |}
    = inl {| deploymentv1alpha1.GetAWSACMCertificateResponse.Certificate :=
               registered_as id (RegisterAWSACMCertificateRequest_of plan) |} ->
    tfsdk.Raw (State created) = Some (AWSACMCertificate_with_ID plan id)
    /\ fst (AWSACMCertificateResource_Read r
              {| ReadRequest_State := readable (AWSACMCertificate_with_ID plan id) |}
              created)
       = created.
Proof.
  intros r plan resp res id created Hk Hc Hreg Hget. subst id created.
  unfold certificate_fields_known in Hk.
  repeat (apply andb_prop in Hk; destruct Hk as [Hk ?]).
  unfold RegisterAWSACMCertificateRequest_of, registered_as, readable in *.
  assert (Hcreate :
            fst (AWSACMCertificateResource_Create r
                   {| CreateRequest_Plan := {| tfsdk.Get_diags := []; tfsdk.Get_data := plan |} |}
                   resp)
            = {| State :=
                   {| tfsdk.Raw :=
                        Some (AWSACMCertificate_with_ID plan
                                (deploymentv1alpha1.AWSACMCertificate.Id
                                   (deploymentv1alpha1.RegisterAWSACMCertificateResponse.Certificate
                                      res))) |};
                 Diagnostics := Diagnostics resp |}).
  { exec AWSACMCertificateResource_Create; settle; congruence. }
  rewrite Hcreate. split; [reflexivity|].
  exec AWSACMCertificateResource_Read; settle; try congruence.
  all: cbn [AWSACMCertificate_with_ID AWSACMCertificateResourceModel.ID
            types.ValueString] in *.
  all: rewrite Hget in *; known; try discriminate.
  cbn. rewrite !StringValue_ValueString by assumption. reflexivity.
Qed.

(** X9 at a concrete input: the example plan against the service that
    registers it as "cert-7". *)
Lemma X9_certificate_create_then_read_witness :
  fst (AWSACMCertificateResource_Read
         {| AWSACMCertificateResource_client := registering_deployment |}
         {| ReadRequest_State :=
              readable (AWSACMCertificate_with_ID example_certificate_plan "cert-7") |}
         (fst (AWSACMCertificateResource_Create
                 {| AWSACMCertificateResource_client := registering_deployment |}
                 {| CreateRequest_Plan := readable example_certificate_plan |}
                 (fresh None))))
  = fst (AWSACMCertificateResource_Create
           {| AWSACMCertificateResource_client := registering_deployment |}
           {| CreateRequest_Plan := readable example_certificate_plan |}
           (fresh None)).
Proof.
  exact (proj2 (X9_certificate_create_then_read
                  {| AWSACMCertificateResource_client := registering_deployment |}
                  example_certificate_plan (fresh None)
                  {| deploymentv1alpha1.RegisterAWSACMCertificateResponse.Certificate :=
                       registered_as "cert-7"
                         (RegisterAWSACMCertificateRequest_of example_certificate_plan) |}
                  eq_refl eq_refl eq_refl eq_refl)).
Defined.

(** X10: Create then Read of the nameservers is a round trip.  Let the
    plan hold a non-empty set of known names, let the register call
    succeed, and let the deployment then report these nameservers.  Then
    Create persists the plan, and a Read of that state gives the same
    state back and reports nothing. *)
Theorem X10_nameservers_create_then_read :
  forall (r : NameserversResource) (elems : list types.String) (l : list string)
         (resp : CreateResponse NameserversResourceModel.t)
         (dep : deploymentv1alpha1.Deployment.t),
    let plan := {| NameserversResourceModel.Records := types.SetValue elems |} in
    let created :=
      fst (NameserversResource_Create r {| CreateRequest_Plan := readable plan |} resp) in
    types.strings_of elems = Some l ->
    l <> [] ->
    Diagnostics_HasError resp = false ->
    RegisterNameservers (NameserversResource_client r)
      {| deploymentv1alpha1.RegisterNameserversRequest.Nameservers := l |} = inl tt ->
    GetDeployment (NameserversResource_client r) tt
    = inl {| deploymentv1alpha1.GetDeploymentResponse.Deployment_ := dep |} ->
    deploymentv1alpha1.Deployment.Nameservers dep = l ->
    tfsdk.Raw (State created) = Some plan
    /\ fst (NameserversResource_Read r {| ReadRequest_State := readable plan |} created)
       = created.
Proof.
  intros r elems l resp dep plan created Hl Hne Hc Hreg Hget Hns. subst plan created.
  unfold readable in *.
  assert (Hcreate :
            fst (NameserversResource_Create r
                   {| CreateRequest_Plan :=
                        {| tfsdk.Get_diags := [];
                           tfsdk.Get_data :=
                             {| NameserversResourceModel.Records := types.SetValue elems |} |} |}
                   resp)
            = {| State :=
                   {| tfsdk.Raw :=
                        Some {| NameserversResourceModel.Records := types.SetValue elems |} |};
                 Diagnostics := Diagnostics resp |}).
  { unfold NameserversResource_Create.
    cbn beta iota zeta delta [tfsdk.Get CreateRequest_Plan tfsdk.Get_diags tfsdk.Get_data
                              NameserversResourceModel.Records types.ElementsAs].
    rewrite Hl. cbn beta iota zeta.
    unfold Diagnostics_HasError, Diagnostics_Append in *. cbn [Diagnostics diag.Append].
    rewrite Hc, Hreg. reflexivity. }
  rewrite Hcreate. split; [reflexivity|].
  exec NameserversResource_Read; settle; try congruence.
  all: rewrite Hget in *; known; try discriminate.
  all: cbn in Heql0; try congruence.
  rewrite <- Heql0, (strings_of_Some _ _ Hl). reflexivity.
Qed.

(** X10 at a concrete input: the two example nameservers. *)
Lemma X10_nameservers_create_then_read_witness :
  fst (NameserversResource_Read
         {| NameserversResource_client := registering_deployment |}
         {| ReadRequest_State := readable example_nameservers |}
         (fst (NameserversResource_Create
                 {| NameserversResource_client := registering_deployment |}
                 {| CreateRequest_Plan := readable example_nameservers |}
                 (fresh None))))
  = fst (NameserversResource_Create
           {| NameserversResource_client := registering_deployment |}
           {| CreateRequest_Plan := readable example_nameservers |}
           (fresh None)).
Proof.
  exact (proj2 (X10_nameservers_create_then_read
                  {| NameserversResource_client := registering_deployment |}
                  [types.StringValue "ns1.example.com"; types.StringValue "ns2.example.com"]
                  ["ns1.example.com"; "ns2.example.com"]
                  (fresh None)
                  {| deploymentv1alpha1.Deployment.Id := "dep-1";
                     deploymentv1alpha1.Deployment.DnsZoneName := "example.com";
                     deploymentv1alpha1.Deployment.DefaultSubdomain := "dev";
                     deploymentv1alpha1.Deployment.Nameservers :=
                       ["ns1.example.com"; "ns2.example.com"] |}
                  eq_refl ltac:(discriminate) eq_refl eq_refl eq_refl eq_refl)).
Defined.

(* ------------------------------------------------------------------ *)
(** ** Read, then Read again *)

(** X11: Read is idempotent.  Take any resource and a Read that ended
    without an error and left a state.  A second Read of that state,
    handed the response of the first, that sends the same request
    leaves the response exactly as the first did. *)
Theorem X11_read_is_idempotent :
  forall (i : resource_Resource) (r : Receiver i) (req : ReadRequest (Model i))
         (resp : ReadResponse (Model i)) (m1 : Model i),
    Diagnostics_HasError (fst (Resource_Read i r req resp)) = false ->
    tfsdk.Raw (State (fst (Resource_Read i r req resp))) = Some m1 ->
    map Sent (snd (Resource_Read i r {| ReadRequest_State := readable m1 |}
                     (fst (Resource_Read i r req resp))))
    = map Sent (snd (Resource_Read i r req resp)) ->
    fst (Resource_Read i r {| ReadRequest_State := readable m1 |}
           (fst (Resource_Read i r req resp)))
    = fst (Resource_Read i r req resp).
Proof.
  intros i r req resp m1.
  remember (Resource_Read i r req resp) as o1 eqn:H1.
  destruct i; cbn [Resource_Read Model Receiver] in *.
  all: unfold DNSRecordResource_Read, AWSACMCertificateResource_Read,
         NameserversResource_Read, MonitoringWriteTokenResource_Read,
         TerraformOutputResource_Read in H1.
  all: run_in H1; subst o1; cbn [fst snd]; intros Hne Hst Hsent.
  all: settle; try congruence; try discriminate Hst.
  all: try (rewrite HasError_AddError in Hne; discriminate Hne).
  all: try (injection Hst as <-); unfold readable in *; revert Hsent.
  all: exec_any; intros Hsent; cbn [map Sent sent types.ValueString
                                    DNSRecordResourceModel.ID
                                    AWSACMCertificateResourceModel.ID] in Hsent;
    try discriminate Hsent.
  all: cbn [types.ValueString DNSRecordResourceModel.ID AWSACMCertificateResourceModel.ID] in *.
  all: try (injection Hsent as Hreq; rewrite Hreq in *).
  all: known; try congruence; try discriminate.
  all: settle; try reflexivity; try congruence.
  all: cbn; congruence.
Qed.

(** X11 at a concrete input: reading the example DNS record twice from
    the service that knows it. *)
Lemma X11_read_is_idempotent_witness :
  let first :=
    DNSRecordResource_Read
      {| DNSRecordResource_client := serving_deployment |}
      {| ReadRequest_State := readable example_dns |}
      (fresh (Some example_dns)) in
  fst (DNSRecordResource_Read
         {| DNSRecordResource_client := serving_deployment |}
         {| ReadRequest_State := readable example_dns_observed |}
         (fst first))
  = fst first.
Proof.
  exact (X11_read_is_idempotent Is_DNSRecordResource
           {| DNSRecordResource_client := serving_deployment |}
           {| ReadRequest_State := readable example_dns |}
           (fresh (Some example_dns)) example_dns_observed
           eq_refl eq_refl eq_refl).
Defined.

(* ------------------------------------------------------------------ *)
(** ** Import *)



(* ------------------------------------------------------------------ *)
(** ** Configure *)

(** X14: the provider's Configure, case by case.  If the response already
    holds an error or the configuration cannot be read, the loader is
    not called and no provider data is set.  Otherwise the loader is
    called exactly once, with the four attributes as strings (a null or
    unknown attribute as the empty string).  If it fails, the response
    gains the error "Error loading Common Fate deployment configuration"
    with the loader's message and the provider data stay as they were;
    if it succeeds, the resources and the data sources are handed the
    same loaded context and no diagnostic is added. *)
Theorem X14_provider_configure :
  forall (Context : Type) (Load : factoryconfig.Opts -> connect.Result Context)
         (p : DeploymentProvider) (req : provider_ConfigureRequest)
         (resp : provider_ConfigureResponse Context),
    let data := tfsdk.Get_data (provider_Config req) in
    let opts :=
      {| factoryconfig.LicenceKey :=
           types.ValueString (DeploymentProviderModel.LicenceKey data);
         factoryconfig.DeploymentName :=
           types.ValueString (DeploymentProviderModel.DeploymentName data);
         factoryconfig.BaseURL := types.ValueString (DeploymentProviderModel.BaseURL data);
         factoryconfig.OIDCIssuer :=
           types.ValueString (DeploymentProviderModel.OIDCIssuer data) |} in
    let diags0 :=
      diag.Append (provider_Diagnostics resp) (tfsdk.Get_diags (provider_Config req)) in
    let out := DeploymentProvider_Configure Context Load p req resp in
    if diag.HasError diags0
    then snd out = []
         /\ ResourceData (fst out) = ResourceData resp
         /\ DataSourceData (fst out) = DataSourceData resp
         /\ provider_Diagnostics (fst out) = diags0
    else snd out = [opts]
         /\ match Load opts with
            | inl cfg =>
                ResourceData (fst out) = any_Context cfg
                /\ DataSourceData (fst out) = any_Context cfg
                /\ provider_Diagnostics (fst out) = diags0
            | inr err =>
                ResourceData (fst out) = ResourceData resp
                /\ DataSourceData (fst out) = DataSourceData resp
                /\ provider_Diagnostics (fst out)
                   = diag.AddError diags0
                       "Error loading Common Fate deployment configuration"
                       (connect.Error err)
                /\ diag.HasError (provider_Diagnostics (fst out)) = true
            end.
Proof.
  intros Context Load p req resp data opts diags0 out. subst data opts diags0 out.
  unfold DeploymentProvider_Configure.
  cbn beta iota zeta delta [tfsdk.Get provider_Diagnostics].
  destruct (diag.HasError _) eqn:He; cbn [fst snd].
  - repeat split.
  - destruct (Load _); cbn [fst snd ResourceData DataSourceData provider_Diagnostics];
      repeat split.
    apply HasError_AddError.
Qed.

(** X15: from the provider to the resources.  When the provider's
    Configure, started on a response without provider data and without
    diagnostics, ends without an error, then every resource handed the
    resulting [ResourceData] stores a client built from the loaded
    context and reports nothing.  When it ends with an error, the
    resources are handed nil: their Configure keeps them without a
    client and reports nothing either. *)
Theorem X15_provider_then_resource_configure :
  forall (Context : Type) (Load : factoryconfig.Opts -> connect.Result Context)
         (dNew : Context -> DeploymentServiceClient) (mNew : Context -> monitoring.Client)
         (p : DeploymentProvider) (req : provider_ConfigureRequest) (i : resource_Resource),
    let out := fst (DeploymentProvider_Configure Context Load p req (fresh_configure Context)) in
    let configured :=
      Resource_Configure Context dNew mNew i {| ProviderData := ResourceData out |} [] in
    if diag.HasError (provider_Diagnostics out)
    then configured = (None, [])
    else exists cfg,
        ResourceData out = any_Context cfg
        /\ configured = (Some (Configure i (dNew cfg) (mNew cfg)), []).
Proof.
  intros Context Load dNew mNew p req i out configured. subst out configured.
  unfold DeploymentProvider_Configure, fresh_configure.
  cbn beta iota zeta delta [tfsdk.Get provider_Diagnostics ResourceData DataSourceData].
  destruct (diag.HasError (diag.Append [] _)) eqn:He; cbn [fst].
  - cbn [provider_Diagnostics ResourceData]. rewrite He. destruct i; reflexivity.
  - destruct (Load _) as [cfg | err]; cbn [fst provider_Diagnostics ResourceData].
    + rewrite He. exists cfg. split; [reflexivity|]. destruct i; reflexivity.
    + rewrite HasError_AddError. destruct i; reflexivity.
Qed.

(* ------------------------------------------------------------------ *)
(** ** Type names *)

Lemma append_inj_l (p a b : string) : String.append p a = String.append p b -> a = b.
Proof.
  induction p as [|c p IH]; simpl; intros H.
  - exact H.
  - injection H as H. now apply IH.
Qed.

(** X16: the type names.  Under any provider type name, two resource
    implementations report the same type name exactly when they are the
    same implementation or are the write token and the nameservers: the
    write token's Metadata answers with the suffix "_nameservers".  The
    names of the other four are pairwise distinct.  With the provider's
    own type name, what the provider registers is the resource
    "deploymeta_nameservers" and the data source "deploymeta_deployment". *)
Theorem X16_type_names :
  (forall (req : MetadataRequest) (i j : resource_Resource),
      TypeName (Resource_Metadata i req) = TypeName (Resource_Metadata j req)
      <-> type_name_owner i = type_name_owner j)
  /\ (forall p : DeploymentProvider,
      let req := {| ProviderTypeName := provider_TypeName (DeploymentProvider_Metadata p) |} in
      map (fun new => TypeName (Resource_Metadata (new tt) req))
        (DeploymentProvider_Resources p)
      = ["deploymeta_nameservers"]
      /\ map (fun new => match new tt with
                         | Is_DeploymentDataSource =>
                             TypeName (DeploymentDataSource_Metadata req)
                         end)
           (DeploymentProvider_DataSources p)
         = ["deploymeta_deployment"]).
Proof.
  split.
  - intros req i j. split.
    + intros H. destruct i, j; cbn in H; apply append_inj_l in H;
        first [reflexivity | discriminate H].
    + intros H. destruct i, j; cbn in H; first [reflexivity | discriminate H].
  - intros p. split; reflexivity.
Qed.

(* ------------------------------------------------------------------ *)
(** ** What a failed call leaves in the diagnostics *)

(** X17: the remote error is quoted.  When Create, Update or Delete of any
    resource sent its request and the request failed (for the
    certificate's Delete: with a code other than NotFound), the response
    carries the error diagnostic "Common Fate Deployment API error"
    whose detail ends in the text of the remote error. *)
Theorem X17_remote_error_is_quoted :
  forall (i : resource_Resource) (r : Receiver i) (c : Call) (e : connect.error),
    (forall req resp,
        snd (Resource_Create i r req resp) = [ {| Sent := c; Failed := Some e |} ] ->
        exists prefix,
          In (diag.NewErrorDiagnostic "Common Fate Deployment API error"
                (String.append prefix (connect.Error e)))
            (Diagnostics (fst (Resource_Create i r req resp))))
    /\ (forall req resp,
        snd (Resource_Update i r req resp) = [ {| Sent := c; Failed := Some e |} ] ->
        exists prefix,
          In (diag.NewErrorDiagnostic "Common Fate Deployment API error"
                (String.append prefix (connect.Error e)))
            (Diagnostics (fst (Resource_Update i r req resp))))
    /\ (forall req resp,
        snd (Resource_Delete i r req resp) = [ {| Sent := c; Failed := Some e |} ] ->
        (i = Is_AWSACMCertificateResource ->
         connect.Code_eqb (connect.CodeOf (Some e)) connect.CodeNotFound = false) ->
        exists prefix,
          In (diag.NewErrorDiagnostic "Common Fate Deployment API error"
                (String.append prefix (connect.Error e)))
            (Diagnostics (fst (Resource_Delete i r req resp)))).
Proof.
  intros i r c e. repeat apply conj; intros req resp; destruct i.
  all: exec_any; intros Htr; try discriminate Htr.
  all: try intros Hcode.
  all: injection Htr as _ Hf.
  all: try (specialize (Hcode eq_refl); rewrite Hf in *; congruence).
  all: cbn [connect.err_of] in Hf; try discriminate Hf; try injection Hf as Hf; subst.
  all: settle; eexists; apply AddError_In.
Qed.

(** X17 at a concrete input: the update of a DNS record meets a service
    that is unavailable. *)
Lemma X17_remote_error_is_quoted_witness :
  exists prefix,
    In (diag.NewErrorDiagnostic "Common Fate Deployment API error"
          (String.append prefix "unavailable: connection refused"))
      (Diagnostics
         (fst (DNSRecordResource_Update
                 {| DNSRecordResource_client := failing_deployment unavailable |}
                 {| UpdateRequest_Plan := readable example_dns;
                    UpdateRequest_State := readable example_dns |}
                 (fresh (Some example_dns))))).
Proof.
  exact (proj1 (proj2 (X17_remote_error_is_quoted Is_DNSRecordResource
                         {| DNSRecordResource_client := failing_deployment unavailable |}
                         _ unavailable))
           {| UpdateRequest_Plan := readable example_dns;
              UpdateRequest_State := readable example_dns |}
           (fresh (Some example_dns)) eq_refl).
Defined.

Lemma Append_incl (ds new : diag.Diagnostics) (d : diag.Diagnostic) :
  In d ds -> In d (diag.Append ds new).
Proof.
  revert ds. induction new as [|x rest IH]; intros ds Hin; simpl.
  - exact Hin.
  - apply IH. destruct (diag.Contains ds x); [exact Hin | apply in_or_app; now left].
Qed.

(** X18: no operation loses a diagnostic.  Every diagnostic in the
    response an operation is handed is still in the response it
    returns: Create, Read, Update and Delete of every resource and the
    data source's Read only ever add to the diagnostics. *)
Theorem X18_diagnostics_are_kept :
  (forall (i : resource_Resource) (r : Receiver i),
      (forall req resp,
          incl (Diagnostics resp) (Diagnostics (fst (Resource_Create i r req resp))))
      /\ (forall req resp,
          incl (Diagnostics resp) (Diagnostics (fst (Resource_Read i r req resp))))
      /\ (forall req resp,
          incl (Diagnostics resp) (Diagnostics (fst (Resource_Update i r req resp))))
      /\ (forall req resp,
          incl (Diagnostics resp) (Diagnostics (fst (Resource_Delete i r req resp)))))
  /\ (forall d req resp,
      incl (Diagnostics resp) (Diagnostics (fst (DeploymentDataSource_Read d req resp)))).
Proof.
  split; [intros i r; repeat apply conj; intros req resp; destruct i | intros d req resp].
  all: exec_any; settle; intros x Hx; unfold diag.AddError;
    repeat apply Append_incl; exact Hx.
Qed.

(* ------------------------------------------------------------------ *)
(** ** Delete *)

(** X19: Delete never touches the state of its response.  For every
    resource, on every path (remote call made or not, succeeded or
    failed), the state in the response is the one it came with: the
    provider neither clears nor rewrites it. *)
Theorem X19_delete_leaves_state :
  forall (i : resource_Resource) (r : Receiver i) req resp,
    State (fst (Resource_Delete i r req resp)) = State resp.
Proof.
  intros i r req resp. destruct i; exec_any; settle; reflexivity.
Qed.

(** X20: for the certificate, Delete cannot tell a NotFound from a
    success.  If one deployment service deregisters the certificate and
    another answers the same request with an error of code NotFound,
    Delete returns the same response against both. *)
Theorem X20_certificate_delete_NotFound_is_success :
  forall (r1 r2 : AWSACMCertificateResource) req resp (e : connect.error),
    let m :=
      {| deploymentv1alpha1.DeregisterAWSACMCertificateRequest.Id :=
           types.ValueString
             (AWSACMCertificateResourceModel.ID (tfsdk.Get_data (DeleteRequest_State req))) |} in
    DeregisterAWSACMCertificate (AWSACMCertificateResource_client r1) m = inl tt ->
    DeregisterAWSACMCertificate (AWSACMCertificateResource_client r2) m = inr e ->
    connect.CodeOf (Some e) = connect.CodeNotFound ->
    fst (AWSACMCertificateResource_Delete r1 req resp)
    = fst (AWSACMCertificateResource_Delete r2 req resp)
    /\ Diagnostics (fst (AWSACMCertificateResource_Delete r2 req resp))
       = diag.Append (Diagnostics resp) (tfsdk.Get_diags (DeleteRequest_State req)).
Proof.
  intros r1 r2 req resp e m H1 H2 Hc. subst m.
  unfold AWSACMCertificateResource_Delete.
  cbn beta iota zeta delta [tfsdk.Get].
  rewrite H1, H2. cbn [connect.err_of]. rewrite Hc.
  split; reflexivity.
Qed.

(** X20 at a concrete input: the service that deregisters the example
    certificate against the one that has never heard of it. *)
Lemma X20_certificate_delete_NotFound_is_success_witness :
  fst (AWSACMCertificateResource_Delete
         {| AWSACMCertificateResource_client := registering_deployment |}
         {| DeleteRequest_State := readable example_certificate |}
         (fresh (Some example_certificate)))
  = fst (AWSACMCertificateResource_Delete
           {| AWSACMCertificateResource_client := failing_deployment not_found |}
           {| DeleteRequest_State := readable example_certificate |}
           (fresh (Some example_certificate))).
Proof.
  exact (proj1 (X20_certificate_delete_NotFound_is_success
                  {| AWSACMCertificateResource_client := registering_deployment |}
                  {| AWSACMCertificateResource_client := failing_deployment not_found |}
                  {| DeleteRequest_State := readable example_certificate |}
                  (fresh (Some example_certificate)) not_found eq_refl eq_refl eq_refl)).
Defined.

(* ------------------------------------------------------------------ *)
(** ** The Terraform output: Create or Update, then Read *)

(** X22: setting the Terraform output and reading it back is a round
    trip, field by field.  Let every field of the plan be known, let the
    set call succeed, and let the remote service then report the output
    it was sent.  Then Create (and Update, which is the same function)
    persists the plan, and a Read of that state gives the same state
    back: each of the eleven fields comes back in the attribute it was
    sent from. *)
Theorem X22_output_set_then_read :
  forall (r : TerraformOutputResource) (plan : TerraformOutputResourceModel.t)
         (resp : CreateResponse TerraformOutputResourceModel.t),
    let created :=
      fst (TerraformOutputResource_Create r {| CreateRequest_Plan := readable plan |} resp) in
    output_fields_known plan = true ->
    Diagnostics_HasError resp = false ->
    SetTerraformOutput (TerraformOutputResource_client r) (SetTerraformOutputRequest_of plan)
    = inl tt ->
    GetTerraformOutput (TerraformOutputResource_client r) tt
    = inl {| deploymentv1alpha1.GetTerraformOutputResponse.Output :=
               deploymentv1alpha1.SetTerraformOutputRequest.Output
                 (SetTerraformOutputRequest_of plan) |} ->
    tfsdk.Raw (State created) = Some plan
    /\ fst (TerraformOutputResource_Read r {| ReadRequest_State := readable plan |} created)
       = created.
Proof.
  intros r plan resp created Hk Hc Hset Hget. subst created.
  unfold output_fields_known in Hk.
  repeat (apply andb_prop in Hk; destruct Hk as [Hk ?]).
  unfold readable in *.
  assert (Hcreate :
            fst (TerraformOutputResource_Create r
                   {| CreateRequest_Plan := {| tfsdk.Get_diags := []; tfsdk.Get_data := plan |} |}
                   resp)
            = {| State := {| tfsdk.Raw := Some plan |}; Diagnostics := Diagnostics resp |}).
  { exec TerraformOutputResource_Create; settle; congruence. }
  rewrite Hcreate. split; [reflexivity|].
  exec TerraformOutputResource_Read; settle; try congruence.
  all: rewrite Hget in *; known; try discriminate.
  cbn. rewrite !StringValue_ValueString by assumption.
  destruct plan; reflexivity.
Qed.

(** X22 at a concrete input: the example output against the service
    that stores it. *)
Lemma X22_output_set_then_read_witness :
  fst (TerraformOutputResource_Read
         {| TerraformOutputResource_client := output_deployment |}
         {| ReadRequest_State := readable example_output |}
         (fst (TerraformOutputResource_Create
                 {| TerraformOutputResource_client := output_deployment |}
                 {| CreateRequest_Plan := readable example_output |}
                 (fresh None))))
  = fst (TerraformOutputResource_Create
           {| TerraformOutputResource_client := output_deployment |}
           {| CreateRequest_Plan := readable example_output |}
           (fresh None)).
Proof.
  exact (proj2 (X22_output_set_then_read
                  {| TerraformOutputResource_client := output_deployment |}
                  example_output (fresh None) eq_refl eq_refl eq_refl eq_refl)).
Defined.

(* ------------------------------------------------------------------ *)
(** ** What the result does not depend on *)

(** X21: data that is read and then ignored.  With the same diagnostics
    from reading them, two plans give the same Create of a write token,
    two configurations the same Read of the data source, and two prior
    states the same Read of the nameservers and of the Terraform output:
    response and trace are equal.  What these operations return is
    decided by the remote service alone. *)
Theorem X21_result_is_the_remote_one :
  (forall r (req1 req2 : CreateRequest MonitoringWriteTokenResourceModel.t) resp,
      tfsdk.Get_diags (CreateRequest_Plan req1) = tfsdk.Get_diags (CreateRequest_Plan req2) ->
      MonitoringWriteTokenResource_Create r req1 resp
      = MonitoringWriteTokenResource_Create r req2 resp)
  /\ (forall d (req1 req2 : datasource.ReadRequest DeploymentDataSourceModel.t) resp,
      tfsdk.Get_diags (datasource.ReadRequest_Config req1)
      = tfsdk.Get_diags (datasource.ReadRequest_Config req2) ->
      DeploymentDataSource_Read d req1 resp = DeploymentDataSource_Read d req2 resp)
  /\ (forall r (req1 req2 : ReadRequest NameserversResourceModel.t) resp,
      tfsdk.Get_diags (ReadRequest_State req1) = tfsdk.Get_diags (ReadRequest_State req2) ->
      NameserversResource_Read r req1 resp = NameserversResource_Read r req2 resp)
  /\ (forall r (req1 req2 : ReadRequest TerraformOutputResourceModel.t) resp,
      tfsdk.Get_diags (ReadRequest_State req1) = tfsdk.Get_diags (ReadRequest_State req2) ->
      TerraformOutputResource_Read r req1 resp = TerraformOutputResource_Read r req2 resp).
Proof.
  repeat apply conj; intros r req1 req2 resp Hd.
  all: unfold MonitoringWriteTokenResource_Create, DeploymentDataSource_Read,
         NameserversResource_Read, TerraformOutputResource_Read.
  all: cbn beta iota zeta delta [tfsdk.Get]; rewrite Hd; reflexivity.
Qed.

(** X21 at a concrete input: a write token is created from two different
    plans. *)
Lemma X21_result_is_the_remote_one_witness :
  MonitoringWriteTokenResource_Create
    {| MonitoringWriteTokenResource_client := failing_monitoring unavailable |}
    {| CreateRequest_Plan := readable example_token |} (fresh None)
  = MonitoringWriteTokenResource_Create
      {| MonitoringWriteTokenResource_client := failing_monitoring unavailable |}
      {| CreateRequest_Plan := readable example_token_changed |} (fresh None).
Proof.
  exact (proj1 X21_result_is_the_remote_one
           {| MonitoringWriteTokenResource_client := failing_monitoring unavailable |}
           {| CreateRequest_Plan := readable example_token |}
           {| CreateRequest_Plan := readable example_token_changed |}
           (fresh None) eq_refl).
Defined.

(* ------------------------------------------------------------------ *)
(** ** Schemas and the structs read from them *)

Ltac in_list := cbn; intuition (subst; auto 20; try congruence).

Ltac nodup_strings :=
  repeat (constructor; [cbn; intuition discriminate |]); constructor.

(** X23: every model struct fits its schema.  For each resource, for the
    data source and for the provider, the attributes the schema declares
    are exactly the [tfsdk] tags of the struct the code reads plans,
    states and configurations into, name by name and type by type
    (string or set of strings), no name twice.  In a resource or the
    data source every attribute is either required or computed, never
    both and never optional; the provider's are either required or
    optional and never computed. *)
Theorem X23_structs_fit_schemas :
  (forall i : resource_Resource,
      NoDup (map fst (schema.Attributes (Resource_Schema i)))
      /\ NoDup (map fst (Model_tags i))
      /\ (forall n t, In (n, t) (Model_tags i) <-> In (n, t) (declared (Resource_Schema i)))
      /\ Forall (fun na =>
           schema.Required (snd na) = negb (schema.Computed (snd na))
           /\ schema.Optional (snd na) = false)
           (schema.Attributes (Resource_Schema i)))
  /\ (NoDup (map fst (schema.Attributes DeploymentDataSource_Schema))
      /\ NoDup (map fst DeploymentDataSourceModel_tags)
      /\ (forall n t,
             In (n, t) DeploymentDataSourceModel_tags
             <-> In (n, t) (declared DeploymentDataSource_Schema))
      /\ Forall (fun na =>
           schema.Computed (snd na) = true
           /\ schema.Required (snd na) = false /\ schema.Optional (snd na) = false)
           (schema.Attributes DeploymentDataSource_Schema))
  /\ (NoDup (map fst (schema.Attributes DeploymentProvider_Schema))
      /\ NoDup (map fst DeploymentProviderModel_tags)
      /\ (forall n t,
             In (n, t) DeploymentProviderModel_tags
             <-> In (n, t) (declared DeploymentProvider_Schema))
      /\ Forall (fun na =>
           schema.Required (snd na) = negb (schema.Optional (snd na))
           /\ schema.Computed (snd na) = false)
           (schema.Attributes DeploymentProvider_Schema)).
Proof.
  split; [intros i; destruct i | split].
  all: split; [cbn; nodup_strings |].
  all: split; [cbn; nodup_strings |].
  all: split; [intros n t; split; in_list |].
  all: cbn; repeat constructor.
Qed.

(* ------------------------------------------------------------------ *)
(** ** Configure of a resource, by what it is handed *)

Lemma configure_with_contract (Context Client : Type) (NewFromConfig : Context -> Client)
    (summary : string) :
  Configure_contract (configure_with Context NewFromConfig summary) NewFromConfig summary.
Proof.
  intros client req diags.
  unfold configure_with. destruct (ProviderData req) as [|cfg|T]; cbn [fst snd].
  - split; [split; [intros H; now left | intros [H | [T H]]; [exact H | discriminate H]] |].
    split; [now left |]. split; [apply incl_refl |]. intros T H; discriminate H.
  - split; [split; [intros H; now left | intros [H | [T H]]; [exact H | discriminate H]] |].
    split; [right; exists cfg; split; reflexivity |].
    split; [apply incl_refl |]. intros T H; discriminate H.
  - split; [split; [intros _; right; now exists T | intros _; apply HasError_AddError] |].
    split; [now left |].
    split; [intros x Hx; unfold diag.AddError; now apply Append_incl |].
    intros T' _. split; [apply AddError_reports | reflexivity].
Qed.

(** X24: Configure of a resource or of the data source reports an error
    exactly when it is handed provider data that are neither nil nor a
    [*factoryconfig.Context] (or when an error was there before); the
    error is "Unexpected Resource Configure Type" ("Unexpected Data
    Source Configure Type" for the data source).  The client is replaced
    only when a context is handed over, by the client built from it; nil
    and a value of another type leave it as it was.  Diagnostics already
    present are kept. *)
Theorem X24_configure_by_provider_data :
  forall (Context : Type) (dNew : Context -> DeploymentServiceClient)
         (mNew : Context -> monitoring.Client),
    Configure_contract (DNSRecordResource_Configure Context dNew) dNew
      "Unexpected Resource Configure Type"
    /\ Configure_contract (AWSACMCertificateResource_Configure Context dNew) dNew
         "Unexpected Resource Configure Type"
    /\ Configure_contract (NameserversResource_Configure Context dNew) dNew
         "Unexpected Resource Configure Type"
    /\ Configure_contract (MonitoringWriteTokenResource_Configure Context mNew) mNew
         "Unexpected Resource Configure Type"
    /\ Configure_contract (TerraformOutputResource_Configure Context dNew) dNew
         "Unexpected Resource Configure Type"
    /\ Configure_contract (DeploymentDataSource_Configure Context dNew) dNew
         "Unexpected Data Source Configure Type".
Proof.
  intros Context dNew mNew. repeat apply conj; apply configure_with_contract.
Qed.

(* ------------------------------------------------------------------ *)
(** ** Set values that do not convert *)

(** X25: the values must convert before anything is sent.  When turning
    the set of the plan or state into Go strings reports an error (an
    unknown set, a null or unknown element), Create, Update and Delete
    of a DNS record and Create and Update of the nameservers send
    nothing, end with an error and leave the state alone.  This holds
    for the DNS record's Delete too, which converts the values although
    its request carries only the identifier. *)
Theorem X25_unconvertible_values_block_the_call :
  (forall r req resp,
      diag.HasError
        (fst (types.ElementsAs
                (DNSRecordResourceModel.Values (tfsdk.Get_data (CreateRequest_Plan req)))))
      = true ->
      snd (DNSRecordResource_Create r req resp) = []
      /\ Diagnostics_HasError (fst (DNSRecordResource_Create r req resp)) = true
      /\ State (fst (DNSRecordResource_Create r req resp)) = State resp)
  /\ (forall r req resp,
      diag.HasError
        (fst (types.ElementsAs
                (DNSRecordResourceModel.Values (tfsdk.Get_data (UpdateRequest_Plan req)))))
      = true ->
      snd (DNSRecordResource_Update r req resp) = []
      /\ Diagnostics_HasError (fst (DNSRecordResource_Update r req resp)) = true
      /\ State (fst (DNSRecordResource_Update r req resp)) = State resp)
  /\ (forall r req resp,
      diag.HasError
        (fst (types.ElementsAs
                (DNSRecordResourceModel.Values (tfsdk.Get_data (DeleteRequest_State req)))))
      = true ->
      snd (DNSRecordResource_Delete r req resp) = []
      /\ Diagnostics_HasError (fst (DNSRecordResource_Delete r req resp)) = true
      /\ State (fst (DNSRecordResource_Delete r req resp)) = State resp)
  /\ (forall r req resp,
      diag.HasError
        (fst (types.ElementsAs
                (NameserversResourceModel.Records (tfsdk.Get_data (CreateRequest_Plan req)))))
      = true ->
      snd (NameserversResource_Create r req resp) = []
      /\ Diagnostics_HasError (fst (NameserversResource_Create r req resp)) = true
      /\ State (fst (NameserversResource_Create r req resp)) = State resp)
  /\ (forall r req resp,
      diag.HasError
        (fst (types.ElementsAs
                (NameserversResourceModel.Records (tfsdk.Get_data (UpdateRequest_Plan req)))))
      = true ->
      snd (NameserversResource_Update r req resp) = []
      /\ Diagnostics_HasError (fst (NameserversResource_Update r req resp)) = true
      /\ State (fst (NameserversResource_Update r req resp)) = State resp).
Proof.
  repeat apply conj; intros r req resp Hv.
  all: exec_any; settle; cbn [fst] in Hv.
  all: try (repeat split; first [reflexivity | assumption]).
  all: exfalso;
    match goal with
    | H : diag.HasError (diag.Append ?a ?d) = false |- _ =>
        destruct (HasError_Append_false _ _ H); congruence
    end.
Qed.

(** X25 at a concrete input: a DNS record whose values are unknown is to
    be deleted. *)
Lemma X25_unconvertible_values_block_the_call_witness :
  snd (DNSRecordResource_Delete
         {| DNSRecordResource_client := registering_deployment |}
         {| DeleteRequest_State := readable example_dns_unknown_values |}
         (fresh (Some example_dns_unknown_values))) = []
  /\ Diagnostics_HasError
       (fst (DNSRecordResource_Delete
               {| DNSRecordResource_client := registering_deployment |}
               {| DeleteRequest_State := readable example_dns_unknown_values |}
               (fresh (Some example_dns_unknown_values)))) = true
  /\ State
       (fst (DNSRecordResource_Delete
               {| DNSRecordResource_client := registering_deployment |}
               {| DeleteRequest_State := readable example_dns_unknown_values |}
               (fresh (Some example_dns_unknown_values))))
     = {| tfsdk.Raw := Some example_dns_unknown_values |}.
Proof.
  exact (proj1 (proj2 (proj2 X25_unconvertible_values_block_the_call))
           {| DNSRecordResource_client := registering_deployment |}
           {| DeleteRequest_State := readable example_dns_unknown_values |}
           (fresh (Some example_dns_unknown_values)) eq_refl).
Defined.

(* ------------------------------------------------------------------ *)
(** ** Update and the data source: what a successful call leaves *)

(** X13: when Update of a DNS record or of a certificate sent its request
    and the request succeeded, no error is reported and the state is the
    plan with [id] replaced by the identifier in the remote answer; the
    planned fields are persisted as planned, without a look at what the
    remote service holds. *)
Theorem X13_update_persists_plan_and_remote_id :
  (forall r req resp,
      let out := DNSRecordResource_Update r req resp in
      let plan := tfsdk.Get_data (UpdateRequest_Plan req) in
      snd out <> [] -> call_failed (snd out) = false ->
      Diagnostics_HasError (fst out) = false
      /\ exists m res,
          UpdateDNSRecord (DNSRecordResource_client r) m = inl res
          /\ tfsdk.Raw (State (fst out))
             = Some {| DNSRecordResourceModel.ID :=
                         types.StringValue
                           (deploymentv1alpha1.DNSRecord.Id
                              (deploymentv1alpha1.UpdateDNSRecordResponse.Updated res));
                       DNSRecordResourceModel.Name := DNSRecordResourceModel.Name plan;
                       DNSRecordResourceModel.Type_ := DNSRecordResourceModel.Type_ plan;
                       DNSRecordResourceModel.ZoneName := DNSRecordResourceModel.ZoneName plan;
                       DNSRecordResourceModel.Values := DNSRecordResourceModel.Values plan |})
  /\ (forall r req resp,
      let out := AWSACMCertificateResource_Update r req resp in
      let plan := tfsdk.Get_data (UpdateRequest_Plan req) in
      snd out <> [] -> call_failed (snd out) = false ->
      Diagnostics_HasError (fst out) = false
      /\ exists m res,
          UpdateAWSACMCertificate (AWSACMCertificateResource_client r) m = inl res
          /\ deploymentv1alpha1.AWSACMCertificate.Id
               (deploymentv1alpha1.UpdateAWSACMCertificateRequest.Certificate m)
             = types.ValueString (AWSACMCertificateResourceModel.ID plan)
          /\ tfsdk.Raw (State (fst out))
             = Some (AWSACMCertificate_with_ID plan
                       (deploymentv1alpha1.AWSACMCertificate.Id
                          (deploymentv1alpha1.UpdateAWSACMCertificateResponse.Certificate
                             res)))).
Proof.
  repeat apply conj; intros r req resp out; subst out; cbn zeta.
  all: exec_any; intros Hs Hf; try congruence; try discriminate Hf.
  all: settle; split; try assumption.
  - eexists; eexists; split; [eassumption | reflexivity].
  - eexists; eexists; split; [eassumption | split; reflexivity].
Qed.

(** X13 at a concrete input: the certificate service accepts an update
    and answers with the certificate under the identifier "cert-1". *)
Lemma X13_update_persists_plan_and_remote_id_witness :
  snd (AWSACMCertificateResource_Update
         {| AWSACMCertificateResource_client := updating_deployment |}
         {| UpdateRequest_Plan := readable example_certificate;
            UpdateRequest_State := readable example_certificate |}
         (fresh (Some example_certificate))) <> []
  /\ Diagnostics_HasError
       (fst (AWSACMCertificateResource_Update
               {| AWSACMCertificateResource_client := updating_deployment |}
               {| UpdateRequest_Plan := readable example_certificate;
                  UpdateRequest_State := readable example_certificate |}
               (fresh (Some example_certificate)))) = false.
Proof.
  assert (Hs : snd (AWSACMCertificateResource_Update
                      {| AWSACMCertificateResource_client := updating_deployment |}
                      {| UpdateRequest_Plan := readable example_certificate;
                         UpdateRequest_State := readable example_certificate |}
                      (fresh (Some example_certificate))) <> []) by discriminate.
  split; [exact Hs |].
  exact (proj1 (proj2 X13_update_persists_plan_and_remote_id
                  {| AWSACMCertificateResource_client := updating_deployment |}
                  {| UpdateRequest_Plan := readable example_certificate;
                     UpdateRequest_State := readable example_certificate |}
                  (fresh (Some example_certificate)) Hs eq_refl)).
Defined.
